(** * MoMents: reminder synchronisation, to-do ordering and note repository

    A shallow embedding of [app.py] and [sync_slack_reminders.py].

    Conventions of the embedding:
    - Python objects that come out of the Slack response or live in
      [st.session_state] are values of the type [value];
    - a Python [str] is a [string]; every character is read as the code
      point 0..255 it denotes, and the character predicates ([isalnum],
      [isspace]) are the ones Python has on that range;
    - code that can raise returns a [result]; code that talks to Streamlit
      or to Slack runs in the state monad [UI], whose state holds the
      session, the calls made to Slack and the elements put on the page;
    - headers, captions, dividers, columns and the navigation buttons of a
      page put nothing in the session and call nothing: they are left out,
      as is the creation of the repository directory. *)

From Stdlib Require Import ZArith Lia Bool List Ascii String DecimalString Floats.
From Stdlib Require Import Sorting.Sorted Sorting.Permutation.
From stdpp Require Import base option list strings gmap fin_maps.

Local Open Scope string_scope.
Local Open Scope list_scope.
Local Open Scope Z_scope.

Set Warnings "-register-all".

(** ** Python values *)

Inductive value : Type :=
| VNone
| VBool (b : bool)
| VInt (n : Z)
| VFloat (x : float)
| VStr (s : string)
| VList (l : list value)
| VDict (d : list (string * value)).

(** [bool(v)]: the truth value Python gives an object. *)
Definition truthy (v : value) : bool :=
  match v with
  | VNone => false
  | VBool b => b
  | VInt n => negb (n =? 0)
  | VFloat x => negb (PrimFloat.eqb x 0%float)
  | VStr s => negb (String.eqb s "")
  | VList l => match l with [] => false | _ => true end
  | VDict d => match d with [] => false | _ => true end
  end.

(** [a or b] on objects: [a] when it is truthy, else [b]. *)
Definition py_or (a b : value) : value := if truthy a then a else b.

(** [isinstance(v, int)]; [bool] is a subclass of [int] in Python. *)
Definition isinstance_int (v : value) : bool :=
  match v with VInt _ | VBool _ => true | _ => false end.

Definition isinstance_str (v : value) : bool :=
  match v with VStr _ => true | _ => false end.

Definition isinstance_list (v : value) : bool :=
  match v with VList _ => true | _ => false end.

(** The integer an [int] instance stands for ([True] is 1, [False] is 0). *)
Definition int_value (v : value) : Z :=
  match v with
  | VInt n => n
  | VBool b => if b then 1 else 0
  | _ => 0
  end.

(** [d.get(k)] on a dict kept as an association list (its keys are
    distinct, as in a dict). *)
Fixpoint assoc_get (d : list (string * value)) (k : string) : option value :=
  match d with
  | [] => None
  | (k', v) :: d' => if String.eqb k' k then Some v else assoc_get d' k
  end.

(** A Python dict with string keys, in insertion order. *)
Abbreviation dict := (list (string * value)).

(** [r.get(k)]: [None] for a missing key. *)
Definition dict_get (r : dict) (k : string) : value :=
  default VNone (assoc_get r k).

(** [r.get(k, dflt)] *)
Definition dict_get_default (r : dict) (k : string) (dflt : value) : value :=
  default dflt (assoc_get r k).

(** ** Strings *)

Definition Z_to_string (n : Z) : string := NilZero.string_of_int (Z.to_int n).

Fixpoint repeat_char (c : ascii) (n : nat) : string :=
  match n with O => "" | S n' => String c (repeat_char c n') end.

(** ["%0<w>d"] for a non-negative number. *)
Definition zero_pad (w : nat) (n : Z) : string :=
  let s := Z_to_string n in
  repeat_char "0"%char (w - String.length s) +:+ s.

(** ["sep".join(parts)] *)
Fixpoint join (sep : string) (parts : list string) : string :=
  match parts with
  | [] => ""
  | [p] => p
  | p :: ps => p +:+ sep +:+ join sep ps
  end.

Definition nl : string := String (ascii_of_nat 10) "".

Definition code (c : ascii) : Z := Z.of_nat (nat_of_ascii c).

Definition in_range (lo hi : Z) (c : ascii) : bool :=
  (lo <=? code c) && (code c <=? hi).

(** [ch.isspace()] for code points 0..255. *)
Definition isspace (c : ascii) : bool :=
  in_range 9 13 c || in_range 28 32 c || (code c =? 133) || (code c =? 160).

(** [ch.isalnum()] for code points 0..255: letters, decimal digits and the
    Latin-1 characters Unicode classes as letters, digits or numerics. *)
Definition isalnum (c : ascii) : bool :=
  in_range 48 57 c || in_range 65 90 c || in_range 97 122 c
  || (code c =? 170) || (code c =? 178) || (code c =? 179) || (code c =? 181)
  || (code c =? 185) || (code c =? 186) || in_range 188 190 c
  || in_range 192 214 c || in_range 216 246 c || in_range 248 255 c.

Definition chars (s : string) : list ascii := list_ascii_of_string s.
Definition of_chars (l : list ascii) : string := string_of_list_ascii l.

Fixpoint lstrip_chars (l : list ascii) : list ascii :=
  match l with
  | c :: l' => if isspace c then lstrip_chars l' else l
  | [] => []
  end.

Definition rstrip_chars (l : list ascii) : list ascii :=
  rev (lstrip_chars (rev l)).

(** [s.strip()] *)
Definition strip (s : string) : string :=
  of_chars (rstrip_chars (lstrip_chars (chars s))).

(** [s.split()]: the maximal runs of non-whitespace characters. [cur] is the
    run being read, in reverse. *)
Fixpoint split_ws (cur : list ascii) (l : list ascii) : list string :=
  match l with
  | [] => match cur with [] => [] | _ => [of_chars (rev cur)] end
  | c :: l' =>
      if isspace c
      then match cur with
           | [] => split_ws [] l'
           | _ => of_chars (rev cur) :: split_ws [] l'
           end
      else split_ws (c :: cur) l'
  end.

Definition split (s : string) : list string := split_ws [] (chars s).

(** ** Exceptions *)

Inductive exn_kind :=
| ValueError | OverflowError | TypeError | AttributeError
| SystemExit          (* raise SystemExit(msg) *)
| RerunException      (* st.rerun() stops the script *)
| OtherException.     (* anything else a library call raises *)

Record exn := Exn { exn_is : exn_kind; exn_msg : string }.

Inductive result (A : Type) : Type :=
| Ok (a : A)
| Raise (e : exn).
Arguments Ok {A} a.
Arguments Raise {A} e.

Definition rbind {A B} (r : result A) (k : A -> result B) : result B :=
  match r with Ok a => k a | Raise e => Raise e end.

(** ** [datetime]: from a timestamp to the local ISO-8601 string *)

(** Proleptic Gregorian date (year, month, day) of a day count since
    1970-01-01. *)
Definition civil_from_days (days : Z) : Z * Z * Z :=
  let z := days + 719468 in
  let era := z / 146097 in
  let doe := z - era * 146097 in
  let yoe := (doe - doe / 1460 + doe / 36524 - doe / 146096) / 365 in
  let doy := doe - (365 * yoe + yoe / 4 - yoe / 100) in
  let mp := (5 * doy + 2) / 153 in
  let d := doy - (153 * mp + 2) / 5 + 1 in
  let m := if mp <? 10 then mp + 3 else mp - 9 in
  let y := yoe + era * 400 + (if m <=? 2 then 1 else 0) in
  (y, m, d).

(** An aware [datetime] with whole seconds. *)
Record datetime := {
  dt_year : Z; dt_month : Z; dt_day : Z;
  dt_hour : Z; dt_minute : Z; dt_second : Z;
  dt_utcoffset : Z   (* seconds east of UTC *)
}.

(** 0001-01-01T00:00:00 and 9999-12-31T23:59:59, as seconds since the epoch:
    what [datetime] can hold. *)
Definition MIN_TS : Z := -62135596800.
Definition MAX_TS : Z := 253402300799.

Definition ts_in_range (ts : Z) : bool := (MIN_TS <=? ts) && (ts <=? MAX_TS).

Definition datetime_of_seconds (local : Z) (off : Z) : datetime :=
  let '(y, m, d) := civil_from_days (local / 86400) in
  let sod := local mod 86400 in
  {| dt_year := y; dt_month := m; dt_day := d;
     dt_hour := sod / 3600; dt_minute := (sod mod 3600) / 60;
     dt_second := sod mod 60; dt_utcoffset := off |}.

(** [dt.isoformat()] for a datetime without microseconds. The offset is
    written [+HH:MM], with [:SS] when it is not a whole minute. *)
Definition isoformat (d : datetime) : string :=
  let off := dt_utcoffset d in
  let a := Z.abs off in
  zero_pad 4 (dt_year d) +:+ "-" +:+ zero_pad 2 (dt_month d) +:+ "-"
  +:+ zero_pad 2 (dt_day d) +:+ "T" +:+ zero_pad 2 (dt_hour d) +:+ ":"
  +:+ zero_pad 2 (dt_minute d) +:+ ":" +:+ zero_pad 2 (dt_second d)
  +:+ (if off <? 0 then "-" else "+")
  +:+ zero_pad 2 (a / 3600) +:+ ":" +:+ zero_pad 2 ((a mod 3600) / 60)
  +:+ (if a mod 60 =? 0 then "" else ":" +:+ zero_pad 2 (a mod 60)).

(** [dt.strftime("%Y-%m-%d %H:%M")] *)
Definition strftime_minute (d : datetime) : string :=
  zero_pad 4 (dt_year d) +:+ "-" +:+ zero_pad 2 (dt_month d) +:+ "-"
  +:+ zero_pad 2 (dt_day d) +:+ " " +:+ zero_pad 2 (dt_hour d) +:+ ":"
  +:+ zero_pad 2 (dt_minute d).

(** [dt.strftime("%Y%m%d_%H%M%S")] *)
Definition strftime_stamp (d : datetime) : string :=
  zero_pad 4 (dt_year d) +:+ zero_pad 2 (dt_month d) +:+ zero_pad 2 (dt_day d)
  +:+ "_" +:+ zero_pad 2 (dt_hour d) +:+ zero_pad 2 (dt_minute d)
  +:+ zero_pad 2 (dt_second d).

(** [dt.isoformat(timespec='seconds')] of a naive datetime. *)
Definition isoformat_naive (d : datetime) : string :=
  zero_pad 4 (dt_year d) +:+ "-" +:+ zero_pad 2 (dt_month d) +:+ "-"
  +:+ zero_pad 2 (dt_day d) +:+ "T" +:+ zero_pad 2 (dt_hour d) +:+ ":"
  +:+ zero_pad 2 (dt_minute d) +:+ ":" +:+ zero_pad 2 (dt_second d).

(** Two time zones to run the model in. *)
Definition utc : Z -> Z := fun _ => 0.
Definition ist : Z -> Z := fun _ => 19800.

Section Host.

(** The host's time zone: the UTC offset, in seconds, that [localtime] gives
    at a moment (a function of the moment because of daylight saving). *)
Variable tz : Z -> Z.

(** [str(v)] of a float, a list or a dict: Python's [repr], left to the
    interpreter. *)
Variable repr_other : value -> string.

(** [json.dumps(v, indent=2)], left to the [json] module. *)
Variable json_dumps : value -> string.

(** The two paths computed from [__file__]. *)
Variable REPOSITORY_DIR : string.
Variable EVENTS_FILE : string.

(** [str(v)], which is also what an f-string writes for [{v}]. *)
Definition py_str (v : value) : string :=
  match v with
  | VNone => "None"
  | VBool b => if b then "True" else "False"
  | VInt n => Z_to_string n
  | VStr s => s
  | _ => repr_other v
  end.

(** [dt.datetime.fromtimestamp(ts, tz=dt.timezone.utc).astimezone()].
    [fromtimestamp] raises outside the years 1..9999, [astimezone] raises
    when the local time leaves that range. *)
Definition local_datetime (ts : Z) : result datetime :=
  if negb (ts_in_range ts)
  then Raise (Exn ValueError "year is out of range")
  else
    let off := tz ts in
    if negb ((-86400 <? off) && (off <? 86400))
    then Raise (Exn ValueError "offset must be a timedelta strictly between -timedelta(hours=24) and timedelta(hours=24)")
    else if negb (ts_in_range (ts + off))
    then Raise (Exn OverflowError "date value out of range")
    else Ok (datetime_of_seconds (ts + off) off).

(** [_ts_to_iso_local] of app.py. *)
Definition _ts_to_iso_local (ts : Z) : result string :=
  rbind (local_datetime ts) (fun d => Ok (isoformat d)).

(** [ts_to_iso_local] of sync_slack_reminders.py. *)
Definition ts_to_iso_local (ts : Z) : result string :=
  rbind (local_datetime ts) (fun d => Ok (isoformat d)).

(** ** The event normalizer *)

(** The dict literal both normalizers append. *)
Definition make_event (rid title : value) (start : string) : value :=
  VDict [("id", rid); ("title", title); ("start", VStr start);
         ("allDay", VBool false)].

(** The [for r in reminders] loop of [_fetch_slack_reminders_as_events];
    [events] is the list built so far. *)
Fixpoint events_loop (reminders : list dict) (events : list value)
  : result (list value) :=
  match reminders with
  | [] => Ok events
  | r :: rest =>
      let text := py_or (dict_get r "text") (VStr "Reminder") in
      let rid := dict_get r "id" in
      let t := dict_get r "time" in
      if negb (isinstance_int t) then events_loop rest events
      else if truthy (dict_get r "complete_ts") then events_loop rest events
      else
        rbind (_ts_to_iso_local (int_value t)) (fun start =>
        events_loop rest (events ++ [make_event rid (VStr (py_str text)) start]))
  end.

(** The [for r in reminders] loop of the sync script's [main]. *)
Fixpoint sync_events_loop (reminders : list value) (events : list value)
  : result (list value) :=
  match reminders with
  | [] => Ok events
  | VDict r :: rest =>
      if truthy (dict_get r "complete_ts") then sync_events_loop rest events
      else
        let t := dict_get r "time" in
        if negb (isinstance_int t) then sync_events_loop rest events
        else
          rbind (ts_to_iso_local (int_value t)) (fun start =>
          sync_events_loop rest
            (events ++ [make_event (dict_get r "id")
                          (py_or (dict_get r "text") (VStr "Reminder")) start]))
  | _ :: rest => sync_events_loop rest events
  end.

(** The normalizers as functions of the reminder list. *)
Definition normalize (reminders : list dict) : result (list value) :=
  events_loop reminders [].

Definition sync_normalize (reminders : list value) : result (list value) :=
  sync_events_loop reminders [].

(** Normalizing the same list twice, one call after the other. *)
Definition normalize_twice (reminders : list dict)
  : result (list value * list value) :=
  rbind (normalize reminders) (fun first =>
  rbind (normalize reminders) (fun second => Ok (first, second))).

(** ** The world the app runs in *)

(** What a call into the Slack client does. *)
Inductive api_outcome (A : Type) : Type :=
| Returned (a : A)
| SlackApiError (response : option dict) (str_e : string)
    (* [e.response] as a dict, or [None] when reading it fails; [str(e)] *)
| Failed (e : exn).
#[global] Arguments Returned {A} a.
#[global] Arguments SlackApiError {A} response str_e.
#[global] Arguments Failed {A} e.

(** The Slack service: the outcome of a call depends on how many calls were
    made before it, on the token and on the reminder. *)
Record slack_service := {
  reminders_list : nat -> string -> api_outcome dict;
  reminders_complete : nat -> string -> string -> api_outcome unit
}.

Inductive api_call :=
| ListCall (token : string)
| CompleteCall (token : string) (reminder : string).

Record environment := {
  slack_sdk : bool;              (* [WebClient is not None] *)
  calendar_component : bool;     (* [calendar is not None] *)
  autorefresh_component : bool;  (* [st_autorefresh is not None] *)
  secrets : option dict;         (* [st.secrets]; [None] when reading it raises *)
  environ : gmap string string;  (* [os.environ] *)
  slack : slack_service
}.

(** What the user did to the widgets that have no key. *)
Record gestures := {
  typed : string -> option string;  (* text typed into the input with this label *)
  clicked : string -> bool          (* the button with this label was pressed *)
}.

(** What a script run puts on the page. *)
Inductive element :=
| StError (msg : string)
| StWarning (msg : string)
| StInfo (msg : string)
| StSuccess (msg : string)
| StMarkdown (msg : string)
| StCheckbox (label key : string)
| StAutorefresh (interval_ms : Z)
| StCalendar (events : value).

Record ui_state := {
  session : gmap string value;   (* [st.session_state] *)
  calls : list api_call;         (* Slack calls so far, oldest first *)
  screen : list element          (* elements rendered so far, oldest first *)
}.

(** A script fragment: it runs on a state and either returns or raises; the
    state it leaves is kept in both cases. *)
Definition UI (A : Type) : Type := ui_state -> result A * ui_state.

Definition ui_ret {A} (a : A) : UI A := fun s => (Ok a, s).

Definition ui_bind {A B} (m : UI A) (k : A -> UI B) : UI B :=
  fun s => match m s with
           | (Ok a, s') => k a s'
           | (Raise e, s') => (Raise e, s')
           end.

Definition ui_raise {A} (e : exn) : UI A := fun s => (Raise e, s).

Definition ui_lift {A} (r : result A) : UI A := fun s => (r, s).

Notation "'let*' x ':=' m 'in' k" := (ui_bind m (fun x => k))
  (at level 10, x pattern, m at level 100, k at level 200).
Notation "m >> k" := (ui_bind m (fun _ => k))
  (at level 100, k at level 200, right associativity).

Definition session_get (k : string) : UI value :=
  fun s => (Ok (default VNone (session s !! k)), s).

Definition session_set (k : string) (v : value) : UI unit :=
  fun s => (Ok tt, {| session := <[k:=v]> (session s);
                      calls := calls s; screen := screen s |}).

(** [st.session_state.pop(k, None)] *)
Definition session_pop (k : string) : UI unit :=
  fun s => (Ok tt, {| session := delete k (session s);
                      calls := calls s; screen := screen s |}).

Definition emit (e : element) : UI unit :=
  fun s => (Ok tt, {| session := session s; calls := calls s;
                      screen := screen s ++ [e] |}).

Definition log_call (c : api_call) : UI unit :=
  fun s => (Ok tt, {| session := session s; calls := calls s ++ [c];
                      screen := screen s |}).

Definition calls_so_far : UI nat := fun s => (Ok (List.length (calls s)), s).

(** [st.rerun()] *)
Definition st_rerun {A} : UI A := ui_raise (Exn RerunException "").

(** A [for] loop that carries the local variables [acc] through the body. *)
Fixpoint for_each {A S} (l : list A) (acc : S) (body : A -> S -> UI S) : UI S :=
  match l with
  | [] => ui_ret acc
  | x :: l' => let* acc' := body x acc in for_each l' acc' body
  end.

(** The truth value of a [str | None]: [if err:], [if not token:]. *)
Definition str_truthy (err : option string) : bool :=
  match err with
  | Some msg => negb (String.eqb msg "")
  | None => false
  end.

(** ** Token lookup *)

(** [_get_slack_user_token]: a [str], or [None]. *)
Definition _get_slack_user_token (env : environment) : value :=
  let token :=
    match secrets env with
    | Some d => dict_get d "SLACK_USER_TOKEN"
    | None => VNone
    end in
  if truthy token then VStr (py_str token)
  else
    match environ env !! "SLACK_USER_TOKEN" with
    | Some t => py_or (VStr t) VNone
    | None => VNone
    end.

(** ** The reminder client *)

Definition type_name (v : value) : string :=
  match v with
  | VNone => "NoneType" | VBool _ => "bool" | VInt _ => "int"
  | VFloat _ => "float" | VStr _ => "str" | VList _ => "list"
  | VDict _ => "dict"
  end.

(** What [for r in v] walks over. *)
Definition iterate (v : value) : result (list value) :=
  match v with
  | VList l => Ok l
  | VDict d => Ok (map (fun kv => VStr (fst kv)) d)
  | VStr s => Ok (map (fun c => VStr (String c "")) (chars s))
  | _ => Raise (Exn TypeError ("'" +:+ type_name v +:+ "' object is not iterable"))
  end.

(** [[r for r in reminders if isinstance(r, dict)]] *)
Fixpoint only_dicts (l : list value) : list dict :=
  match l with
  | [] => []
  | VDict d :: l' => d :: only_dicts l'
  | _ :: l' => only_dicts l'
  end.

(** The error string both clients build from a [SlackApiError]. *)
Definition slack_error_text (response : option dict) (str_e : string) : string :=
  let err := match response with
             | Some d => dict_get d "error"
             | None => VStr str_e
             end in
  "Slack API error: " +:+ py_str err.

Definition _fetch_slack_reminders (env : environment) (token : string)
  : UI (list dict * option string) :=
  if negb (slack_sdk env)
  then ui_ret ([], Some "Missing dependency 'slack_sdk'. Install from requirements.txt.")
  else
    let* n := calls_so_far in
    log_call (ListCall token) >>
    match reminders_list (slack env) n token with
    | Returned resp =>
        let reminders := py_or (dict_get_default resp "reminders" (VList [])) (VList []) in
        match iterate reminders with
        | Ok items => ui_ret (only_dicts items, None)
        | Raise e => ui_ret ([], Some ("Failed to fetch Slack reminders: " +:+ exn_msg e))
        end
    | SlackApiError response str_e =>
        ui_ret ([], Some (slack_error_text response str_e))
    | Failed e =>
        ui_ret ([], Some ("Failed to fetch Slack reminders: " +:+ exn_msg e))
    end.

Definition _fetch_slack_reminders_as_events (env : environment) (token : string)
  : UI (list value * option string) :=
  let* (reminders, err) := _fetch_slack_reminders env token in
  if str_truthy err then ui_ret ([], err)
  else
    let* events := ui_lift (events_loop reminders []) in
    ui_ret (events, None).

Definition _complete_slack_reminder (env : environment) (token reminder_id : string)
  : UI (bool * option string) :=
  if negb (slack_sdk env)
  then ui_ret (false, Some "Missing dependency 'slack_sdk'. Install from requirements.txt.")
  else
    let* n := calls_so_far in
    log_call (CompleteCall token reminder_id) >>
    match reminders_complete (slack env) n token reminder_id with
    | Returned _ => ui_ret (true, None)
    | SlackApiError response str_e =>
        ui_ret (false, Some (slack_error_text response str_e))
    | Failed e =>
        ui_ret (false, Some ("Failed to complete reminder: " +:+ exn_msg e))
    end.

(** ** Widgets *)

Definition has_key (key : string) (e : element) : bool :=
  match e with
  | StCheckbox _ k => String.eqb k key
  | _ => false
  end.

(** [st.checkbox(label, value=dflt, key=key)]: the widget's value is the one
    the session holds under [key] (where the browser's click put it), or
    [dflt]; the widget stores it back under [key]. Two widgets with one key
    in a run are refused. *)
Definition st_checkbox (label : string) (dflt : bool) (key : string) : UI bool :=
  fun s =>
    if existsb (has_key key) (screen s)
    then (Raise (Exn OtherException "DuplicateWidgetID"), s)
    else
      let v := match session s !! key with
               | Some v => truthy v
               | None => dflt
               end in
      (Ok v, {| session := <[key:=VBool v]> (session s); calls := calls s;
                screen := screen s ++ [StCheckbox label key] |}).

(** [st.selectbox(..., options, index, key=key)] over integers. *)
Definition st_selectbox (dflt : Z) (key : string) : UI Z :=
  fun s =>
    let v := match session s !! key with
             | Some v => int_value v
             | None => dflt
             end in
    (Ok v, {| session := <[key:=VInt v]> (session s); calls := calls s;
              screen := screen s |}).

(** [st.text_input(label, value=dflt)] without a key: what the user typed,
    or [dflt]. *)
Definition st_text_input (g : gestures) (label dflt : string) : string :=
  default dflt (typed g label).

(** [st.text_input(label, value=dflt, key=key)] *)
Definition st_text_input_keyed (dflt : string) (key : string) : UI string :=
  fun s =>
    let v := match session s !! key with
             | Some v => py_str v
             | None => dflt
             end in
    (Ok v, {| session := <[key:=VStr v]> (session s); calls := calls s;
              screen := screen s |}).

(** [st.button(label, disabled=disabled)] *)
Definition st_button (g : gestures) (label : string) (disabled : bool) : bool :=
  clicked g label && negb disabled.

Definition when (b : bool) (m : UI unit) : UI unit := if b then m else ui_ret tt.

(** ** The calendar page *)

(** The body of [if st.button("Sync from Slack")]. *)
Definition sync_action (env : environment) (token : string) : UI unit :=
  if String.eqb token ""
  then emit (StError "Set SLACK_USER_TOKEN (or paste a token) before syncing.")
  else
    let* (events, err) := _fetch_slack_reminders_as_events env token in
    if str_truthy err
    then emit (StError (default "" err))
    else
      session_set "slack_events" (VList events) >>
      emit (StSuccess ("Loaded " +:+ Z_to_string (Z.of_nat (List.length events))
                       +:+ " reminder(s) from Slack.")).

(** A fetch of the right-hand column: [events, err = ...] and the branch on
    [err] that follows it. *)
Definition fetch_for_view (env : environment) (token : value) : UI value :=
  let* (events, err) := _fetch_slack_reminders_as_events env (py_str token) in
  if str_truthy err
  then emit (StWarning (default "" err)) >> ui_ret (VList [])
  else session_set "slack_events" (VList events) >> ui_ret (VList events).

(** The right-hand column up to the choice of [events]. *)
Definition choose_events (env : environment) : UI (value * value) :=
  let* stored := session_get "slack_token" in
  let token := py_or stored (_get_slack_user_token env) in
  let* flag := session_get "slack_auto_refresh" in
  let auto_refresh_enabled := truthy flag in
  let* events :=
    if auto_refresh_enabled && truthy token
    then fetch_for_view env token
    else
      let* cached := session_get "slack_events" in
      if isinstance_list cached then ui_ret cached
      else if truthy token then fetch_for_view env token
      else ui_ret (VList []) in
  ui_ret (token, events).

(** The auto-refresh controls of the block [with left:]. *)
Definition refresh_controls (env : environment) : UI unit :=
  let* auto_refresh :=
    st_checkbox "Auto-refresh Slack reminders" false "slack_auto_refresh" in
  let* interval_s := st_selectbox 60 "slack_refresh_interval_s" in
  when auto_refresh
    (if negb (autorefresh_component env)
     then emit (StWarning "Auto-refresh component not installed. Install dependencies from `requirements.txt` and restart.")
     else emit (StAutorefresh (interval_s * 1000))).

(** The block [with left:]. *)
Definition calendar_left (env : environment) (g : gestures) : UI unit :=
  let token_from_env := py_or (_get_slack_user_token env) (VStr "") in
  let token := st_text_input g "Slack user token (xoxp-/xoxc-)" (py_str token_from_env) in
  session_set "slack_token" (VStr token) >>
  refresh_controls env >>
  when (st_button g "Sync from Slack" false) (sync_action env token).

(** The block [with right:]. *)
Definition calendar_right (env : environment) : UI unit :=
  let* (token, events) := choose_events env in
  when (negb (truthy token) && negb (truthy events))
    (emit (StInfo "Add `SLACK_USER_TOKEN` (or paste a token on the left) to load reminders.")) >>
  emit (StCalendar events).

Definition render_calendar (env : environment) (g : gestures) : UI unit :=
  if negb (calendar_component env)
  then emit (StError "Interactive calendar component is missing. Run: `pip install -r requirements.txt` and restart `streamlit run app.py`.")
  else calendar_left env g >> calendar_right env.

(** ** The status page *)

(** [_rem_time], the sort key. *)
Definition _rem_time (r : dict) : Z :=
  let t := dict_get r "time" in
  if isinstance_int t then int_value t else 0.

(** [list.sort(key=key)] is a stable sort; it is written here as the
    insertion sort that gives the same list. *)
Fixpoint insert_sorted (key : dict -> Z) (x : dict) (l : list dict) : list dict :=
  match l with
  | [] => [x]
  | y :: l' => if key x <=? key y then x :: l else y :: insert_sorted key x l'
  end.

Definition sort_by (key : dict -> Z) (l : list dict) : list dict :=
  foldr (insert_sorted key) [] l.

(** [list.sort(key=key, reverse=True)]: descending, equal keys stay in their
    original order. *)
Fixpoint insert_sorted_rev (key : dict -> Z) (x : dict) (l : list dict) : list dict :=
  match l with
  | [] => [x]
  | y :: l' => if key y <=? key x then x :: l else y :: insert_sorted_rev key x l'
  end.

Definition sort_by_rev (key : dict -> Z) (l : list dict) : list dict :=
  foldr (insert_sorted_rev key) [] l.

Definition is_complete (r : dict) : bool := truthy (dict_get r "complete_ts").

(** [incomplete] and [complete] after the two [sort] calls. *)
Definition todo_order (reminders : list dict) : list dict :=
  sort_by _rem_time (List.filter (fun r => negb (is_complete r)) reminders).

Definition completed_order (reminders : list dict) : list dict :=
  sort_by_rev _rem_time (List.filter is_complete reminders).

(** The reminders of [incomplete] that get a checkbox: the loop skips the
    ones whose id is not a non-empty string. *)
Definition has_usable_id (r : dict) : bool :=
  let rid := dict_get r "id" in
  isinstance_str rid && truthy rid.

Definition todo_view (reminders : list dict) : list dict :=
  List.filter has_usable_id (todo_order reminders).

(** The body of [for r in incomplete]; the loop carries [any_selected] and
    [selected_ids]. The dash of the label is written as its UTF-8 bytes. *)
Definition todo_row (r : dict) (acc : bool * list string) : UI (bool * list string) :=
  let '(any_selected, selected_ids) := acc in
  match dict_get r "id" with
  | VStr rid =>
      if String.eqb rid "" then ui_ret acc
      else
        let text := py_str (py_or (dict_get r "text") (VStr "Reminder")) in
        let t := dict_get r "time" in
        let* when_ :=
          if isinstance_int t
          then ui_lift (rbind (local_datetime (int_value t))
                              (fun d => Ok (strftime_minute d)))
          else ui_ret "" in
        let* checked :=
          st_checkbox (text +:+ (if String.eqb when_ "" then ""
                                 else "  —  " +:+ when_))
                      false ("status_done_" +:+ rid) in
        if checked then ui_ret (true, (selected_ids ++ [rid])%list)
        else ui_ret acc
  | _ => ui_ret acc
  end.

(** The body of [for rid in selected_ids]; the loop carries [errors]. *)
Definition complete_one (env : environment) (token : string)
    (rid : string) (errors : list string) : UI (list string) :=
  let* (ok, e) := _complete_slack_reminder env token rid in
  let errors' := if negb ok && str_truthy e
                 then errors ++ [rid +:+ ": " +:+ default "" e]
                 else errors in
  (* clear checkbox state so it doesn't stay checked *)
  session_pop ("status_done_" +:+ rid) >>
  ui_ret errors'.

(** The body of [if st.button("Mark selected as completed")]. *)
Definition complete_selected (env : environment) (token : string)
    (selected_ids : list string) : UI unit :=
  let* errors := for_each selected_ids [] (complete_one env token) in
  when (match errors with [] => false | _ => true end)
    (emit (StError (join nl errors))) >>
  st_rerun.

Definition render_status (env : environment) (g : gestures) : UI unit :=
  let token_from_env := py_or (_get_slack_user_token env) (VStr "") in
  let* stored := session_get "slack_token" in
  let* token :=
    st_text_input_keyed (py_str (py_or stored token_from_env)) "status_slack_token" in
  (* Keep the token in session so Calendar can reuse it. *)
  session_set "slack_token" (VStr token) >>
  if String.eqb token ""
  then emit (StInfo "Add `SLACK_USER_TOKEN` (or paste a token above) to load your reminders.")
  else
    let* (reminders, err) := _fetch_slack_reminders env token in
    if str_truthy err then emit (StError (default "" err))
    else
      let incomplete := List.filter (fun r => negb (is_complete r)) reminders in
      let complete := List.filter is_complete reminders in
      match incomplete, complete with
      | [], [] => emit (StInfo "No reminders found in Slack.")
      | _, _ =>
          let incomplete := sort_by _rem_time incomplete in
          let complete := sort_by_rev _rem_time complete in
          emit (StMarkdown "#### To do") >>
          let* (any_selected, selected_ids) :=
            for_each incomplete (false, []) todo_row in
          when (st_button g "Mark selected as completed" (negb any_selected))
            (complete_selected env token selected_ids) >>
          when (st_button g "Refresh" false) st_rerun >>
          when (match complete with [] => false | _ => true end)
            (emit (StMarkdown "#### Completed") >>
             let* _ := for_each complete tt (fun r _ =>
               emit (StMarkdown ("- ~~"
                 +:+ py_str (py_or (dict_get r "text") (VStr "Reminder"))
                 +:+ "~~"))) in
             ui_ret tt)
      end.

(** ** The note repository *)

Definition kept_char (ch : ascii) : bool :=
  isalnum ch || Ascii.eqb ch "-" || Ascii.eqb ch "_" || Ascii.eqb ch " ".

Definition _safe_filename (name : string) : string :=
  let cleaned := strip (of_chars (List.filter kept_char (chars name))) in
  let cleaned := join "_" (split cleaned) in
  if String.eqb cleaned "" then "summary" else cleaned.

(** The file name [save_summary_to_repository] builds; [now] is the clock
    reading of [dt.datetime.now()]. *)
Definition note_filename (now : datetime) (title : string) : string :=
  strftime_stamp now +:+ "_" +:+ _safe_filename title +:+ ".md".

(** [REPOSITORY_DIR / fname] *)
Definition note_path (now : datetime) (title : string) : string :=
  REPOSITORY_DIR +:+ "/" +:+ note_filename now title.

(** [source_name or 'N/A'] *)
Definition source_name_text (source_name : option string) : string :=
  match source_name with
  | Some n => if String.eqb n "" then "N/A" else n
  | None => "N/A"
  end.

(** The text [save_summary_to_repository] writes; [created] is the second
    clock reading. *)
Definition note_text (created : datetime) (title summary source_type : string)
    (source_name : option string) : string :=
  let header :=
    [ "# " +:+ title;
      "";
      "- Created: " +:+ isoformat_naive created;
      "- Source type: " +:+ source_type;
      "- Source name: " +:+ source_name_text source_name;
      "";
      "---";
      "" ] in
  join nl header +:+ strip summary +:+ nl.

(** [save_summary_to_repository] on the files of the repository directory,
    a map from path to content; it returns the path and the new files. *)
Definition save_summary_to_repository (files : gmap string string)
    (now created : datetime) (title summary source_type : string)
    (source_name : option string) : string * gmap string string :=
  let path := note_path now title in
  (path, <[path := note_text created title summary source_type source_name]> files).

(** [path.read_text(encoding="utf-8")], as [render_repository] reads a note. *)
Definition read_text (files : gmap string string) (path : string) : option string :=
  files !! path.

Definition is_nl (c : ascii) : bool := Ascii.eqb c (ascii_of_nat 10).

(** The characters before the first line break. *)
Fixpoint first_line (l : list ascii) : list ascii :=
  match l with
  | [] => []
  | c :: l' => if is_nl c then [] else c :: first_line l'
  end.


(** Modelled from the spec: the repository has no function that takes a note
    file apart, so the two readers follow the file format of the spec. The
    title is what stands on the header line [# <title>]. *)
Definition note_title (content : string) : string :=
  match chars content with
  | "#"%char :: " "%char :: rest => of_chars (first_line rest)
  | _ => ""
  end.


(** ** The standalone sync utility *)

(** What the process leaves behind: the files it wrote and its standard
    output. *)
Record process := {
  files : gmap string string;
  stdout : list string
}.

(** [main] of sync_slack_reminders.py; it is the first thing the process
    does, so its call to Slack is call number 0. A [SlackApiError] always
    carries a [response]; reading the error out of an unreadable one raises
    in turn. *)
Definition main (env : environment) (p : process) : result unit * process :=
  let token := environ env !! "SLACK_USER_TOKEN" in
  if negb (str_truthy token)
  then (Raise (Exn SystemExit "Missing SLACK_USER_TOKEN environment variable"), p)
  else
    match reminders_list (slack env) 0 (default "" token) with
    | SlackApiError response str_e =>
        match response with
        | Some d =>
            (Raise (Exn SystemExit
                      ("Slack API error: " +:+ py_str (dict_get d "error"))), p)
        | None =>
            (Raise (Exn AttributeError "'NoneType' object has no attribute 'get'"), p)
        end
    | Failed e => (Raise e, p)
    | Returned resp =>
        let reminders :=
          py_or (dict_get_default resp "reminders" (VList [])) (VList []) in
        match rbind (iterate reminders) (fun items => sync_events_loop items []) with
        | Raise e => (Raise e, p)
        | Ok events =>
            (Ok tt,
             {| files := <[EVENTS_FILE := json_dumps (VList events)]> (files p);
                stdout := stdout p ++
                  ["Wrote " +:+ Z_to_string (Z.of_nat (List.length events))
                   +:+ " reminder(s) to " +:+ EVENTS_FILE] |})
        end
    end.

(** The exit status of the interpreter: 0 when [main] returns, 1 when an
    exception (a [SystemExit] with a message included) ends it. *)
Definition exit_status (r : result unit) : Z :=
  match r with Ok _ => 0 | Raise _ => 1 end.

Definition exn_name (k : exn_kind) : string :=
  match k with
  | ValueError => "ValueError" | OverflowError => "OverflowError"
  | TypeError => "TypeError" | AttributeError => "AttributeError"
  | SystemExit => "SystemExit" | RerunException => "RerunException"
  | OtherException => "Exception"
  end.

(** What the interpreter prints on standard error when the process ends:
    the message of a [SystemExit], the traceback of another exception (its
    last line is kept). *)
Definition stderr_text (r : result unit) : string :=
  match r with
  | Ok _ => ""
  | Raise e =>
      match exn_is e with
      | SystemExit => exn_msg e
      | k => "Traceback (most recent call last): " +:+ exn_name k +:+ ": " +:+ exn_msg e
      end
  end.

(** ** Listing the repository *)

(** An entry of the repository directory: its name, whether it is a regular
    file, its modification time (the key of the sort) and, for a file, its
    text. *)
Record dir_entry := {
  entry_name : string;
  entry_is_file : bool;
  entry_mtime : Z;
  entry_text : string
}.

(** [name] matches the pattern [*<suffix>]. *)
Definition ends_with (suffix name : string) : bool :=
  (String.length suffix <=? String.length name)%nat
  && String.eqb (substring (String.length name - String.length suffix)
                           (String.length suffix) name) suffix.

(** [sorted(items, key=st_mtime, reverse=True)]: a stable sort, latest
    first, written as the insertion sort that gives the same list. *)
Fixpoint insert_newest (x : dir_entry) (l : list dir_entry) : list dir_entry :=
  match l with
  | [] => [x]
  | y :: l' => if entry_mtime y <=? entry_mtime x then x :: l else y :: insert_newest x l'
  end.

Definition sort_newest (l : list dir_entry) : list dir_entry :=
  foldr insert_newest [] l.

Definition is_note (p : dir_entry) : bool :=
  ends_with ".md" (entry_name p) && entry_is_file p.

(** [list_repository_items] on the entries of the repository directory, in
    the order [glob] meets them (none when the directory had to be
    created). *)
Definition list_repository_items (dir : list dir_entry) : list dir_entry :=
  sort_newest (List.filter is_note dir).

(** ** The pages without Slack, and the routing *)

Definition set_page (page : string) : UI unit := session_set "page" (VStr page).

Definition init_state : UI unit :=
  fun s => match session s !! "page" with
           | Some _ => (Ok tt, s)
           | None => session_set "page" (VStr "home") s
           end.

(** [st.button(..., on_click=set_page, key=key)]: like every widget with a
    key it leaves its value in the session under [key]; the script does not
    look at what it returns. The callback of a pressed button is run by
    Streamlit before the script starts, so it is no part of a run. *)
Definition st_button_keyed (key : string) : UI bool :=
  fun s =>
    let v := match session s !! key with
             | Some v => truthy v
             | None => false
             end in
    (Ok v, {| session := <[key:=VBool v]> (session s); calls := calls s;
              screen := screen s |}).

(** [render_sidebar]: three navigation buttons; the title and the quote it
    draws are left out. *)
Definition render_sidebar : UI unit :=
  st_button_keyed "sb_home" >>
  st_button_keyed "sb_repository" >>
  st_button_keyed "sb_status" >>
  ui_ret tt.

(** [render_home]: the three buttons of the home page. *)
Definition render_home : UI unit :=
  st_button_keyed "home_summarise" >>
  st_button_keyed "home_notifications" >>
  st_button_keyed "home_calendar" >>
  ui_ret tt.

(** [render_summarise]: the radio and the file uploader have no key and
    nothing is done with what they return. *)
Definition render_summarise : UI unit :=
  emit (StInfo "Summarisation logic will be added later.").

Definition render_notifications : UI unit :=
  emit (StInfo "Notification logic will be added later.").

(** [render_repository]; [choice] is the label the user picked in the select
    box, which shows its first option when nothing was picked or when the
    label picked is not among its options. The file read is the one of the
    listing that has the chosen name. *)
Definition render_repository (dir : list dir_entry) (choice : option string) : UI unit :=
  let items := list_repository_items dir in
  match items with
  | [] => emit (StInfo "No summaries saved yet.")
  | first :: _ =>
      let labels := map entry_name items in
      let chosen := match choice with
                    | Some c => if existsb (String.eqb c) labels then c else entry_name first
                    | None => entry_name first
                    end in
      match List.find (fun p => String.eqb (entry_name p) chosen) items with
      | Some p => emit (StMarkdown (entry_text p))
      | None => ui_raise (Exn OtherException "FileNotFoundError")
      end
  end.

(** [page == name] for the name of a page. *)
Definition is_page (page : value) (name : string) : bool :=
  match page with VStr p => String.eqb p name | _ => false end.

(** [main] of app.py (the name [main] is the one of the sync utility here).
    The page configuration and the style sheet put nothing in the session
    and call nothing. *)
Definition app_main (env : environment) (g : gestures) (dir : list dir_entry)
    (choice : option string) : UI unit :=
  init_state >>
  render_sidebar >>
  let* page := session_get "page" in
  if is_page page "home" then render_home
  else if is_page page "summarise" then render_summarise
  else if is_page page "notifications" then render_notifications
  else if is_page page "repository" then render_repository dir choice
  else if is_page page "status" then render_status env g
  else if is_page page "calendar" then render_calendar env g
  else set_page "home" >> st_rerun.

(** ** Vocabulary of the properties *)

(** A record the normalizers keep: its [time] is an [int] and its
    [complete_ts] is not truthy. *)
Definition eligible (r : dict) : bool :=
  isinstance_int (dict_get r "time") && negb (truthy (dict_get r "complete_ts")).

Definition time_of (r : dict) : Z := int_value (dict_get r "time").

(** [e] is the calendar event of the record [r], as app.py builds it: the
    id, the text (or the placeholder) as a string, the local ISO-8601
    rendering of the time, and [allDay] false. *)
Definition event_of (r : dict) (e : value) : Prop :=
  exists start,
    _ts_to_iso_local (time_of r) = Ok start /\
    e = VDict [("id", dict_get r "id");
               ("title", VStr (py_str (py_or (dict_get r "text") (VStr "Reminder"))));
               ("start", VStr start);
               ("allDay", VBool false)].

(** The same for the sync script, which keeps the text as it is. *)
Definition sync_event_of (r : dict) (e : value) : Prop :=
  exists start,
    ts_to_iso_local (time_of r) = Ok start /\
    e = VDict [("id", dict_get r "id");
               ("title", py_or (dict_get r "text") (VStr "Reminder"));
               ("start", VStr start);
               ("allDay", VBool false)].

(** Two records read alike by the normalizers: the four fields they look up
    are equal. *)
Definition same_fields (r1 r2 : dict) : Prop :=
  dict_get r1 "id" = dict_get r2 "id" /\
  dict_get r1 "text" = dict_get r2 "text" /\
  dict_get r1 "time" = dict_get r2 "time" /\
  dict_get r1 "complete_ts" = dict_get r2 "complete_ts".

(** [l] is in ascending order of [key]. *)
Definition ascending (key : dict -> Z) (l : list dict) : Prop :=
  StronglySorted (fun a b => key a <= key b) l.

Definition has_int_time (r : dict) : bool := isinstance_int (dict_get r "time").

(** The order the to-do list is claimed to have, on positions: a reminder
    with an earlier integer time stands before one with a later time, and a
    reminder without an integer time stands before every reminder whose time
    is positive. *)
Definition soonest_first (l : list dict) : Prop :=
  forall (i j : nat) (r1 r2 : dict),
    l !! i = Some r1 -> l !! j = Some r2 ->
    (has_int_time r1 = true -> has_int_time r2 = true ->
       time_of r1 < time_of r2 -> (i < j)%nat) /\
    (has_int_time r1 = false -> has_int_time r2 = true ->
       0 < time_of r2 -> (i < j)%nat).

(** The order of the completed list: a later time stands first. *)
Definition latest_first (l : list dict) : Prop :=
  forall (i j : nat) (r1 r2 : dict),
    l !! i = Some r1 -> l !! j = Some r2 ->
    has_int_time r1 = true -> has_int_time r2 = true ->
    time_of r2 < time_of r1 -> (i < j)%nat.


(** The value the secrets store gives for the token, [None] when it has
    none or cannot be read. *)
Definition secret_token (env : environment) : value :=
  match secrets env with
  | Some d => dict_get d "SLACK_USER_TOKEN"
  | None => VNone
  end.

(** The text of the token input of the calendar page: what the user typed,
    else the looked-up token it is filled with. *)
Definition token_input (env : environment) (g : gestures) : string :=
  st_text_input g "Slack user token (xoxp-/xoxc-)"
    (py_str (py_or (_get_slack_user_token env) (VStr ""))).

(** The token the calendar page calls Slack with: the text of the input when
    it is not empty, else the looked-up token. *)
Definition token_in_use (env : environment) (g : gestures) : value :=
  py_or (VStr (token_input env g)) (_get_slack_user_token env).

(** The order the specification states: the secrets store, then the
    environment variable, then the user's input, the first non-empty one. *)
Definition stated_order (secret variable input : string) : string :=
  if negb (String.eqb secret "") then secret
  else if negb (String.eqb variable "") then variable
  else input.

(** The state a fetch leaves: one more call when the client is installed. *)
Definition after_fetch (env : environment) (token : string) (s : ui_state) : ui_state :=
  {| session := session s;
     calls := calls s ++ (if slack_sdk env then [ListCall token] else []);
     screen := screen s |}.

(** Relations between the state before and after a script fragment. *)

(** Only calls that list the reminders with the token [tok] were added. *)
Definition adds_only (tok : string) (s s' : ui_state) : Prop :=
  exists new, calls s' = calls s ++ new /\ Forall (eq (ListCall tok)) new.

(** The session holds under [k] what it held. *)
Definition keeps (k : string) (s s' : ui_state) : Prop :=
  session s' !! k = session s !! k.

(** [m] relates, by [T], every state to the state it leaves, whether it
    returns or raises. *)
Definition always {A} (T : ui_state -> ui_state -> Prop) (m : UI A) : Prop :=
  forall s, T s (m s).2.

(** Auto-refresh is off in a session: the flag of its checkbox is absent
    or not truthy. *)
Definition auto_refresh_off (s : ui_state) : Prop :=
  truthy (default VNone (session s !! "slack_auto_refresh")) = false.

(** No call was made, the cached events are the same and so is the truth
    value of the auto-refresh flag. *)
Definition quiet (s s' : ui_state) : Prop :=
  calls s' = calls s /\
  session s' !! "slack_events" = session s !! "slack_events" /\
  truthy (default VNone (session s' !! "slack_auto_refresh"))
    = truthy (default VNone (session s !! "slack_auto_refresh")).

(** The auto-refresh checkbox was not rendered yet in this run. *)
Definition checkbox_unused (s : ui_state) : Prop :=
  existsb (has_key "slack_auto_refresh") (screen s) = false.

(** [m] returns from every state. *)
Definition total {A} (m : UI A) : Prop := forall s, exists a, (m s).1 = Ok a.

(** Slack is failing: whatever the token and the moment, a fetch comes back
    with an error message. *)
Definition every_fetch_fails (env : environment) : Prop :=
  forall token s, exists events msg,
    (_fetch_slack_reminders_as_events env token s).1 = Ok (events, Some msg) /\ msg <> "".

(** What the attempt to complete [rid] reports when [n] calls were made
    before it: nothing when Slack accepts it, else the error text. *)
Definition attempt_error (env : environment) (token : string) (n : nat) (rid : string)
  : option string :=
  if negb (slack_sdk env)
  then Some "Missing dependency 'slack_sdk'. Install from requirements.txt."
  else match reminders_complete (slack env) n token rid with
       | Returned _ => None
       | SlackApiError response str_e => Some (slack_error_text response str_e)
       | Failed e => Some ("Failed to complete reminder: " +:+ exn_msg e)
       end.

(** The error lines a walk over all of [ids] collects, one for each id whose
    attempt fails, in the order of [ids]; the first attempt is call [n]. *)
Fixpoint collected_errors (env : environment) (token : string) (n : nat)
    (ids : list string) : list string :=
  match ids with
  | [] => []
  | rid :: rest =>
      match attempt_error env token n rid with
      | Some e => [rid +:+ ": " +:+ e]
      | None => []
      end ++ collected_errors env token (if slack_sdk env then S n else n) rest
  end.

(** The session after the pending flags of [ids] are popped. *)
Definition flags_cleared (ids : list string) (m : gmap string value) : gmap string value :=
  foldl (fun m rid => delete ("status_done_" +:+ rid) m) m ids.

(** [e] with [str()] applied to what it holds under [title]. *)
Definition title_as_str (e : value) : value :=
  match e with
  | VDict d =>
      VDict (map (fun kv => if String.eqb (fst kv) "title"
                            then (fst kv, VStr (py_str (snd kv)))
                            else kv) d)
  | _ => e
  end.

(** The text of [r] is a string, or is replaced by the placeholder. *)
Definition text_is_plain (r : dict) : Prop :=
  truthy (dict_get r "text") = true -> isinstance_str (dict_get r "text") = true.

(** The elements of [l] whose key is [k], in the order they have in [l]. *)
Definition with_key (key : dict -> Z) (k : Z) (l : list dict) : list dict :=
  List.filter (fun r => key r =? k) l.

(** What the reminder client hands back for a listing that is call number
    [n]: the dict records of the response, or an error text. *)
Definition listing (env : environment) (token : string) (n : nat)
  : list dict * option string :=
  if negb (slack_sdk env)
  then ([], Some "Missing dependency 'slack_sdk'. Install from requirements.txt.")
  else match reminders_list (slack env) n token with
       | Returned resp =>
           match iterate (py_or (dict_get_default resp "reminders" (VList [])) (VList [])) with
           | Ok items => (only_dicts items, None)
           | Raise e => ([], Some ("Failed to fetch Slack reminders: " +:+ exn_msg e))
           end
       | SlackApiError response str_e => ([], Some (slack_error_text response str_e))
       | Failed e => ([], Some ("Failed to fetch Slack reminders: " +:+ exn_msg e))
       end.

(** A result of the client: data without an error, or an error text that is
    not empty with no data. *)
Definition data_or_error {A} (out : list A * option string) : Prop :=
  out.2 = None \/ (out.1 = [] /\ exists msg, out.2 = Some msg /\ msg <> "").

(** No call to Slack was made. *)
Definition silent (s s' : ui_state) : Prop := calls s' = calls s.

(** The session holds no cached event list. *)
Definition no_cache (s : ui_state) : Prop :=
  isinstance_list (default VNone (session s !! "slack_events")) = false.

(** The prompt of the calendar page for a token. *)
Definition token_prompt : element :=
  StInfo "Add `SLACK_USER_TOKEN` (or paste a token on the left) to load reminders.".

(** The text of the token input of the status page: what the session holds
    for the widget, else the token stored by a page, else the looked-up
    token. *)
Definition status_token (env : environment) (s : ui_state) : string :=
  match session s !! "status_slack_token" with
  | Some v => py_str v
  | None => py_str (py_or (default VNone (session s !! "slack_token"))
                          (py_or (_get_slack_user_token env) (VStr "")))
  end.

(** The session once the status page has read its token input. *)
Definition with_status_token (env : environment) (s : ui_state) : gmap string value :=
  <["slack_token" := VStr (status_token env s)]>
    (<["status_slack_token" := VStr (status_token env s)]> (session s)).

(** The pending flag of [rid] in a session is ticked. *)
Definition ticked_flag (s : ui_state) (rid : string) : bool :=
  truthy (default VNone (session s !! ("status_done_" +:+ rid))).

(** The same reminders are ticked in [s'] as in [s]. *)
Definition flags_same (s s' : ui_state) : Prop :=
  forall rid, ticked_flag s' rid = ticked_flag s rid.

(** A call the status page may make in a cycle that starts in [s]: the
    listing, or the completion of a reminder that is ticked in [s] and is an
    active reminder of the listing, the completion button being pressed. *)
Definition status_call (env : environment) (g : gestures) (s : ui_state)
    (c : api_call) : Prop :=
  c = ListCall (status_token env s) \/
  exists rid,
    c = CompleteCall (status_token env s) rid /\
    clicked g "Mark selected as completed" = true /\
    ticked_flag s rid = true /\
    exists r, r ∈ (listing env (status_token env s) (List.length (calls s))).1 /\
              dict_get r "id" = VStr rid /\ is_complete r = false.

(** Only calls for which [Q] holds were added. *)
Definition adds_where (Q : api_call -> Prop) (s s' : ui_state) : Prop :=
  exists new, calls s' = calls s ++ new /\ Forall Q new.

(** A character of a sanitized name: a letter or digit, a hyphen or an
    underscore. *)
Definition filename_char (c : ascii) : bool :=
  isalnum c || Ascii.eqb c "-" || Ascii.eqb c "_".

(** Every character of [s] satisfies [p]. *)
Definition all_chars (p : ascii -> bool) (s : string) : Prop :=
  Forall (fun c => p c = true) (chars s).

(** [p] was not modified before [q]. *)
Definition not_older (p q : dir_entry) : Prop := entry_mtime q <= entry_mtime p.

(** The entries of [l] modified at [t], in the order of [l]. *)
Definition modified_at (t : Z) (l : list dir_entry) : list dir_entry :=
  List.filter (fun p => entry_mtime p =? t) l.

(** The page a run starts on: the one the session holds, or the one
    [init_state] puts there. *)
Definition page_of (s : ui_state) : value :=
  default (VStr "home") (session s !! "page").

(** [page] is one of the six pages of the app. *)
Definition known_page (page : value) : bool :=
  is_page page "home" || is_page page "summarise" || is_page page "notifications"
  || is_page page "repository" || is_page page "status" || is_page page "calendar".

(** The branch [main] takes for [page]. *)
Definition page_body (env : environment) (g : gestures) (dir : list dir_entry)
    (choice : option string) (page : value) : UI unit :=
  if is_page page "home" then render_home
  else if is_page page "summarise" then render_summarise
  else if is_page page "notifications" then render_notifications
  else if is_page page "repository" then render_repository dir choice
  else if is_page page "status" then render_status env g
  else if is_page page "calendar" then render_calendar env g
  else set_page "home" >> st_rerun.

(** The state the next run of the script starts in: the session and the
    calls made are kept, the page is empty again. *)
Definition next_run (s : ui_state) : ui_state :=
  {| session := session s; calls := calls s; screen := [] |}.

(** ** Data for concrete runs *)

Definition repr_stub : value -> string := fun _ => "<object>".

(** The two reminders of the scenario in section 8 of the specification. *)
Definition pay_rent : dict :=
  [("id", VStr "1"); ("text", VStr "Pay rent"); ("time", VInt 1700000000);
   ("complete_ts", VNone)].

Definition old_done : dict :=
  [("id", VStr "2"); ("text", VStr "Old"); ("time", VInt 1600000000);
   ("complete_ts", VInt 1600000100)].

Definition pay_rent_event : value :=
  VDict [("id", VStr "1"); ("title", VStr "Pay rent");
         ("start", VStr "2023-11-14T22:13:20+00:00"); ("allDay", VBool false)].

(** Reminders for the ordering of the to-do list. *)
Definition at_epoch : dict := [("id", VStr "Ra"); ("text", VStr "first"); ("time", VInt 0)].
Definition untimed : dict := [("id", VStr "Rb"); ("text", VStr "no time")].
Definition before_epoch : dict := [("id", VStr "Rc"); ("time", VInt (-5))].
Definition at_noon : dict := [("id", VStr "Rd"); ("time", VInt 1700049600)].
Definition done_early : dict :=
  [("id", VStr "Re"); ("time", VInt 1600000000); ("complete_ts", VInt 1600000100)].
Definition done_late : dict :=
  [("id", VStr "Rf"); ("time", VInt 1650000000); ("complete_ts", VInt 1650000100)].

(** Clock readings for the repository examples. *)
Definition noon : datetime :=
  {| dt_year := 2024; dt_month := 3; dt_day := 9;
     dt_hour := 12; dt_minute := 0; dt_second := 0; dt_utcoffset := 0 |}.
Definition noon_and_a_second : datetime :=
  {| dt_year := 2024; dt_month := 3; dt_day := 9;
     dt_hour := 12; dt_minute := 0; dt_second := 1; dt_utcoffset := 0 |}.

(** Slack services and environments for concrete runs. *)
Definition good_slack : slack_service :=
  {| reminders_list := fun _ _ =>
       Returned [("ok", VBool true);
                 ("reminders", VList [VDict pay_rent; VDict old_done])];
     reminders_complete := fun _ _ _ => Returned tt |}.

Definition invalid_auth : dict := [("ok", VBool false); ("error", VStr "invalid_auth")].
Definition missing_scope : dict := [("ok", VBool false); ("error", VStr "missing_scope")].

(** Listing fails; completing fails for the reminder [Rb] only. *)
Definition bad_slack : slack_service :=
  {| reminders_list := fun _ _ =>
       SlackApiError (Some invalid_auth) "The request to the Slack API failed.";
     reminders_complete := fun _ _ rid =>
       if String.eqb rid "Rb"
       then SlackApiError (Some missing_scope) "The request to the Slack API failed."
       else Returned tt |}.

(** Slack with a to-do list; it refuses to complete the reminder [Rb]. *)
Definition todo_slack : slack_service :=
  {| reminders_list := fun _ _ =>
       Returned [("ok", VBool true);
                 ("reminders",
                  VList [VDict at_noon; VDict untimed; VInt 7; VDict done_early;
                         VDict pay_rent])];
     reminders_complete := fun _ _ rid =>
       if String.eqb rid "Rb"
       then SlackApiError (Some missing_scope) "The request to the Slack API failed."
       else Returned tt |}.

Definition host (secrets : option dict) (environ : gmap string string)
    (slack : slack_service) : environment :=
  {| slack_sdk := true; calendar_component := true; autorefresh_component := true;
     secrets := secrets; environ := environ; slack := slack |}.

Definition fresh : process := {| files := ∅; stdout := [] |}.

(** A session that has just started, and what a user may do on a page. *)
Definition start : ui_state := {| session := ∅; calls := []; screen := [] |}.

Definition no_gesture : gestures :=
  {| typed := fun _ => None; clicked := fun _ => false |}.

Definition press (label : string) : gestures :=
  {| typed := fun _ => None; clicked := String.eqb label |}.

Definition type_and_press (text label : string) : gestures :=
  {| typed := fun _ => Some text; clicked := String.eqb label |}.

Definition with_secret : option dict := Some [("SLACK_USER_TOKEN", VStr "xoxp-secret")].

Definition json_stub : value -> string := fun _ => "<json>".

Definition with_token : gmap string string := {[ "SLACK_USER_TOKEN" := "xoxp-env" ]}.

(** A session with a cached event list, auto-refresh never touched. *)
Definition cached_session : ui_state :=
  {| session := {[ "slack_events" := VList [pay_rent_event] ]};
     calls := []; screen := [] |}.

(** A session with two reminders of the to-do list ticked. *)
Definition two_ticked : ui_state :=
  {| session := {[ "status_done_Rd" := VBool true; "status_done_Rb" := VBool true ]};
     calls := []; screen := [] |}.

(** A session with three reminders ticked. *)
Definition ticked : ui_state :=
  {| session := {[ "status_done_Ra" := VBool true; "status_done_Rb" := VBool true;
                   "status_done_Rd" := VBool true; "slack_token" := VStr "xoxp-env" ]};
     calls := []; screen := [] |}.

(** A session with auto-refresh switched on and an empty cached list. *)
Definition refreshing_session : ui_state :=
  {| session := {[ "slack_auto_refresh" := VBool true; "slack_events" := VList [] ]};
     calls := []; screen := [] |}.

(** A session whose page is not a page of the app. *)
Definition lost_session : ui_state :=
  {| session := {[ "page" := VStr "settings"; "slack_token" := VStr "xoxp-env" ]};
     calls := []; screen := [] |}.


(** A repository directory. *)
Definition weekly_note : dir_entry :=
  {| entry_name := "20240309_120000_Weekly_notes.md"; entry_is_file := true;
     entry_mtime := 1709985600; entry_text := "# Weekly notes" |}.
Definition older_note : dir_entry :=
  {| entry_name := "20240301_090000_summary.md"; entry_is_file := true;
     entry_mtime := 1709283600; entry_text := "# First" |}.
Definition a_folder : dir_entry :=
  {| entry_name := "drafts.md"; entry_is_file := false;
     entry_mtime := 1710000000; entry_text := "" |}.
Definition a_picture : dir_entry :=
  {| entry_name := "cover.png"; entry_is_file := true;
     entry_mtime := 1710000001; entry_text := "" |}.
Definition sample_dir : list dir_entry :=
  [older_note; a_folder; weekly_note; a_picture].

(** * Properties *)

(** ** The event normalizer *)

Lemma events_loop_spec (rs : list dict) : forall acc,
  match events_loop rs acc with
  | Ok evs => exists new, evs = acc ++ new /\ Forall2 event_of (List.filter eligible rs) new
  | Raise e => exists r, r ∈ rs /\ eligible r = true /\ _ts_to_iso_local (time_of r) = Raise e
  end.
Proof.
  induction rs as [|r rs IH]; intros acc; simpl.
  - exists []. split; [by rewrite app_nil_r | constructor].
  - unfold eligible at 1 3. fold (time_of r).
    destruct (isinstance_int (dict_get r "time")) eqn:Hi; simpl.
    2:{ specialize (IH acc). destruct (events_loop rs acc); [done|].
        destruct IH as (r' & ? & ? & ?). exists r'. split; [by apply elem_of_cons; right | done]. }
    destruct (truthy (dict_get r "complete_ts")) eqn:Hc; simpl.
    { specialize (IH acc). destruct (events_loop rs acc); [done|].
      destruct IH as (r' & ? & ? & ?). exists r'. split; [by apply elem_of_cons; right | done]. }
    destruct (_ts_to_iso_local (time_of r)) as [start|e] eqn:Hs; simpl.
    2:{ exists r. split; [by apply elem_of_cons; left|]. split; [|done].
        unfold eligible. by rewrite Hi, Hc. }
    match goal with |- context [events_loop rs ?a] => specialize (IH a) end.
    destruct (events_loop rs _) as [evs|e].
    + destruct IH as (new & -> & HF). eexists (_ :: new).
      split; [by rewrite <- app_assoc|].
      constructor; [|done]. exists start. done.
    + destruct IH as (r' & ? & ? & ?). exists r'. split; [by apply elem_of_cons; right | done].
Qed.

Lemma sync_events_loop_spec (vs : list value) : forall acc,
  match sync_events_loop vs acc with
  | Ok evs => exists new, evs = acc ++ new
                /\ Forall2 sync_event_of (List.filter eligible (only_dicts vs)) new
  | Raise e => exists r, VDict r ∈ vs /\ eligible r = true
                /\ ts_to_iso_local (time_of r) = Raise e
  end.
Proof.
  induction vs as [|v vs IH]; intros acc; simpl.
  - exists []. split; [by rewrite app_nil_r | constructor].
  - assert (Hskip : match sync_events_loop vs acc with
      | Ok evs => exists new, evs = acc ++ new
                    /\ Forall2 sync_event_of (List.filter eligible (only_dicts vs)) new
      | Raise e => exists r, VDict r ∈ v :: vs /\ eligible r = true
                    /\ ts_to_iso_local (time_of r) = Raise e
      end).
    { specialize (IH acc). destruct (sync_events_loop vs acc); [done|].
      destruct IH as (r' & ? & ? & ?). exists r'. split; [by apply elem_of_cons; right | done]. }
    destruct v as [| | | | |l|r]; try exact Hskip.
    simpl. unfold eligible at 1 3. fold (time_of r).
    destruct (truthy (dict_get r "complete_ts")) eqn:Hc; simpl.
    { rewrite andb_false_r. exact Hskip. }
    rewrite andb_true_r.
    destruct (isinstance_int (dict_get r "time")) eqn:Hi; simpl; [|exact Hskip].
    destruct (ts_to_iso_local (time_of r)) as [start|e] eqn:Hs; simpl.
    2:{ exists r. split; [by apply elem_of_cons; left|]. split; [|done].
        unfold eligible. by rewrite Hi, Hc. }
    match goal with |- context [sync_events_loop vs ?a] => specialize (IH a) end.
    destruct (sync_events_loop vs _) as [evs|e].
    + destruct IH as (new & -> & HF). eexists (_ :: new).
      split; [by rewrite <- app_assoc|].
      constructor; [|done]. exists start. done.
    + destruct IH as (r' & ? & ? & ?). exists r'. split; [by apply elem_of_cons; right | done].
Qed.

Lemma length_filter_le {A} (f : A -> bool) (l : list A) :
  (List.length (List.filter f l) <= List.length l)%nat.
Proof. induction l as [|x l IH]; simpl; [lia|]. destruct (f x); simpl; lia. Qed.


(** The rendering returns for every time between the years 1 and 9999 (in
    UTC and in local time), so the normalizer returns on every list whose
    kept records have such times. *)
Lemma iso_local_returns (ts : Z) :
  ts_in_range ts = true -> -86400 < tz ts < 86400 -> ts_in_range (ts + tz ts) = true ->
  _ts_to_iso_local ts = Ok (isoformat (datetime_of_seconds (ts + tz ts) (tz ts))).
Proof.
  intros H1 [H2 H3] H4. unfold _ts_to_iso_local, local_datetime.
  rewrite H1, H4. simpl.
  destruct (-86400 <? tz ts) eqn:Ha; [|apply Z.ltb_ge in Ha; lia].
  destruct (tz ts <? 86400) eqn:Hb; [|apply Z.ltb_ge in Hb; lia].
  reflexivity.
Qed.

Lemma normalize_returns (rs : list dict) :
  (forall r, r ∈ rs -> eligible r = true ->
     exists start, _ts_to_iso_local (time_of r) = Ok start) ->
  exists evs, normalize rs = Ok evs.
Proof.
  intros H. pose proof (events_loop_spec rs []) as Hspec. unfold normalize.
  destruct (events_loop rs []) as [evs|e]; [by exists evs|].
  destruct Hspec as (r & Hin & Hel & Hr). destruct (H r Hin Hel) as [s Hs]. congruence.
Qed.





(** The normalizer reads four fields of a record and nothing else. *)
Lemma events_loop_same_fields (rs1 rs2 : list dict) :
  Forall2 same_fields rs1 rs2 -> forall acc, events_loop rs1 acc = events_loop rs2 acc.
Proof.
  induction 1 as [|r1 r2 l1 l2 (Hid & Htx & Hti & Hc) _ IH]; intros acc; simpl; [done|].
  rewrite Hid, Htx, Hti, Hc.
  destruct (isinstance_int _); simpl; [|apply IH].
  destruct (truthy _); [apply IH|].
  destruct (_ts_to_iso_local _); simpl; [apply IH | done].
Qed.

(** C9. Normalizing the same reminder list twice, under one time zone, is
    normalizing it once and getting the same event list both times: the two
    lists of a double run are equal, and the output is a function of the
    four fields read from each record. *)
Theorem normalize_twice_identical (rs : list dict) :
  normalize_twice rs = rbind (normalize rs) (fun evs => Ok (evs, evs)) /\
  (forall first second, normalize_twice rs = Ok (first, second) -> first = second) /\
  (forall rs', Forall2 same_fields rs rs' -> normalize rs' = normalize rs).
Proof.
  assert (H : normalize_twice rs = rbind (normalize rs) (fun evs => Ok (evs, evs))).
  { unfold normalize_twice. destruct (normalize rs) as [evs|e] eqn:Hn; simpl; [|done].
    done. }
  split; [exact H|]. split.
  - intros first second. rewrite H. destruct (normalize rs); simpl; congruence.
  - intros rs' Hs. unfold normalize. symmetry. by apply events_loop_same_fields.
Qed.

(** ** The order of the to-do list *)

Lemma insert_sorted_perm key x l : Permutation (insert_sorted key x l) (x :: l).
Proof.
  induction l as [|y l IH]; simpl; [done|].
  destruct (key x <=? key y); [done|].
  rewrite IH. apply perm_swap.
Qed.

Lemma sort_by_perm key l : Permutation (sort_by key l) l.
Proof.
  induction l as [|x l IH]; simpl; [done|].
  rewrite insert_sorted_perm. by constructor.
Qed.

Lemma insert_sorted_ascending key x l :
  ascending key l -> ascending key (insert_sorted key x l).
Proof.
  unfold ascending. induction 1 as [|y l Hl IH Hy]; simpl.
  - repeat constructor.
  - destruct (key x <=? key y) eqn:Hxy.
    + apply Z.leb_le in Hxy. constructor; [by constructor|].
      constructor; [done|]. eapply Forall_impl; [exact Hy|]. simpl. lia.
    + apply Z.leb_gt in Hxy. constructor; [done|].
      rewrite (insert_sorted_perm key x l). constructor; [lia | done].
Qed.

Lemma sort_by_ascending key l : ascending key (sort_by key l).
Proof.
  induction l as [|x l IH]; simpl; [constructor|]. by apply insert_sorted_ascending.
Qed.

Lemma insert_sorted_rev_neg key x l :
  insert_sorted_rev key x l = insert_sorted (fun r => - key r) x l.
Proof.
  induction l as [|y l IH]; simpl; [done|]. rewrite IH.
  replace (- key x <=? - key y) with (key y <=? key x); [done|].
  destruct (key y <=? key x) eqn:H1, (- key x <=? - key y) eqn:H2; try done;
    rewrite ?Z.leb_le, ?Z.leb_gt in *; lia.
Qed.

Lemma sort_by_rev_neg key l : sort_by_rev key l = sort_by (fun r => - key r) l.
Proof.
  induction l as [|x l IH]; simpl; [done|].
  unfold sort_by_rev, sort_by in *. simpl. by rewrite IH, insert_sorted_rev_neg.
Qed.

Lemma ascending_filter key f l : ascending key l -> ascending key (List.filter f l).
Proof.
  unfold ascending. induction 1 as [|y l Hl IH Hy]; simpl; [constructor|].
  destruct (f y); [|done]. constructor; [done|].
  apply Forall_forall. intros z Hz. apply list_elem_of_In, filter_In in Hz as [Hz _].
  rewrite Forall_forall in Hy. apply Hy. by apply list_elem_of_In.
Qed.

(** In an ascending list an element with a smaller key stands at a smaller
    index. *)
Lemma ascending_index key (l : list dict) (i j : nat) (x y : dict) :
  ascending key l -> l !! i = Some x -> l !! j = Some y -> key x < key y -> (i < j)%nat.
Proof.
  unfold ascending. intros Hs. revert i j.
  induction Hs as [|z l Hl IH Hz]; intros i j Hi Hj Hlt; [done|].
  destruct i as [|i], j as [|j]; simpl in *.
  - simplify_eq. lia.
  - lia.
  - simplify_eq. rewrite Forall_forall in Hz.
    assert (key y <= key x) by (apply Hz; eapply list_elem_of_lookup_2; eauto). lia.
  - apply ->Nat.succ_lt_mono. by eapply IH.
Qed.

Lemma _rem_time_int (r : dict) : has_int_time r = true -> _rem_time r = time_of r.
Proof. unfold _rem_time, has_int_time, time_of. by intros ->. Qed.

Lemma _rem_time_other (r : dict) : has_int_time r = false -> _rem_time r = 0.
Proof. unfold _rem_time, has_int_time. by intros ->. Qed.

Lemma ascending_soonest_first (l : list dict) : ascending _rem_time l -> soonest_first l.
Proof.
  intros Hs i j r1 r2 Hi Hj. split.
  - intros H1 H2 Hlt. apply (ascending_index _rem_time l i j r1 r2 Hs Hi Hj).
    by rewrite !_rem_time_int.
  - intros H1 H2 Hlt. apply (ascending_index _rem_time l i j r1 r2 Hs Hi Hj).
    by rewrite _rem_time_other, _rem_time_int.
Qed.

(** C4, as the code has it. The list of active reminders after the sort, and
    the rows of the to-do view taken from it, hold exactly the active
    reminders, place a reminder with an earlier integer time before one with
    a later time, and place a reminder without an integer time (its key is 0)
    before every reminder whose time is positive; the completed reminders
    are in descending order of time. *)
Theorem todo_ordering (rs : list dict) :
  Permutation (todo_order rs) (List.filter (fun r => negb (is_complete r)) rs) /\
  soonest_first (todo_order rs) /\
  soonest_first (todo_view rs) /\
  Permutation (completed_order rs) (List.filter is_complete rs) /\
  latest_first (completed_order rs).
Proof.
  split; [apply sort_by_perm|]. split; [|split; [|split]].
  - apply ascending_soonest_first, sort_by_ascending.
  - apply ascending_soonest_first, ascending_filter, sort_by_ascending.
  - unfold completed_order. rewrite sort_by_rev_neg. apply sort_by_perm.
  - intros i j r1 r2 Hi Hj H1 H2 Hlt.
    unfold completed_order in Hi, Hj. rewrite sort_by_rev_neg in Hi, Hj.
    eapply (ascending_index (fun r => - _rem_time r)); eauto using sort_by_ascending.
    rewrite !_rem_time_int by done. lia.
Qed.

(** ** The note repository *)

Lemma chars_app (s t : string) : chars (s +:+ t) = chars s ++ chars t.
Proof. induction s as [|c s IH]; simpl; [done|]. unfold chars in *. simpl. by rewrite IH. Qed.

Lemma of_chars_chars (s : string) : of_chars (chars s) = s.
Proof. apply string_of_list_ascii_of_string. Qed.

Lemma chars_inj (s t : string) : chars s = chars t -> s = t.
Proof. intros H. by rewrite <- (of_chars_chars s), <- (of_chars_chars t), H. Qed.

Lemma append_cancel_r (s1 s2 t : string) : s1 +:+ t = s2 +:+ t -> s1 = s2.
Proof.
  intros H. apply chars_inj. apply (f_equal chars) in H.
  rewrite !chars_app in H. by apply app_inv_tail in H.
Qed.

Lemma append_cancel_l (t s1 s2 : string) : t +:+ s1 = t +:+ s2 -> s1 = s2.
Proof. induction t as [|c t IH]; simpl; [done|]. intros [= H]. by apply IH. Qed.

(** C6, as the code has it. Two saves of one title get the same path exactly
    when their second-resolution timestamps are equal: distinct timestamps
    give distinct paths, and with equal timestamps the second save writes
    over the note of the first. *)
Theorem note_paths_of_one_title (now1 now2 : datetime) (title : string) :
  (strftime_stamp now1 <> strftime_stamp now2 ->
     note_path now1 title <> note_path now2 title) /\
  (strftime_stamp now1 = strftime_stamp now2 ->
     note_path now1 title = note_path now2 title /\
     forall files c1 c2 body1 body2 st sn,
       let first := save_summary_to_repository files now1 c1 title body1 st sn in
       let second := save_summary_to_repository first.2 now2 c2 title body2 st sn in
       second.1 = first.1 /\
       read_text second.2 first.1 = Some (note_text c2 title body2 st sn)).
Proof.
  split.
  - intros Hne Heq. apply Hne. unfold note_path, note_filename in Heq.
    apply append_cancel_l, append_cancel_l in Heq. by apply append_cancel_r in Heq.
  - intros Heq.
    assert (Hp : note_path now1 title = note_path now2 title).
    { unfold note_path, note_filename. by rewrite Heq. }
    split; [exact Hp|]. intros files c1 c2 body1 body2 st sn. simpl.
    split; [by rewrite Hp|]. unfold read_text. rewrite Hp. apply lookup_insert_eq.
Qed.













(** ** The standalone sync utility *)

(** C7. The sync utility ends with exit status 1 and the message
    [Missing SLACK_USER_TOKEN environment variable] when the variable is
    unset or empty, with exit status 1 and the message [Slack API error: ...]
    when listing the reminders raises a [SlackApiError], and with exit status
    1 and the exception's traceback when the call fails in another way; in
    all these cases it writes nothing. The events file is written only by a
    run that has a token, gets a response and normalizes it, and that run
    ends with status 0. *)
Theorem sync_fails_without_output (env : environment) (p : process) :
  let token := environ env !! "SLACK_USER_TOKEN" in
  let run := main env p in
  (str_truthy token = false ->
     exit_status run.1 = 1 /\
     stderr_text run.1 = "Missing SLACK_USER_TOKEN environment variable" /\
     run.2 = p) /\
  (str_truthy token = true ->
     match reminders_list (slack env) 0 (default "" token) with
     | SlackApiError (Some response) _ =>
         exit_status run.1 = 1 /\
         stderr_text run.1 = "Slack API error: " +:+ py_str (dict_get response "error") /\
         run.2 = p
     | SlackApiError None _ =>
         exit_status run.1 = 1 /\ run.2 = p /\
         exists e, run.1 = Raise e /\ exn_is e = AttributeError
     | Failed e =>
         exit_status run.1 = 1 /\ run.2 = p /\ run.1 = Raise e
     | Returned _ => True
     end) /\
  (exit_status run.1 <> 0 -> run.2 = p) /\
  (run.2 <> p ->
     run.1 = Ok tt /\ exit_status run.1 = 0 /\ str_truthy token = true /\
     exists resp items events,
       reminders_list (slack env) 0 (default "" token) = Returned resp /\
       iterate (py_or (dict_get_default resp "reminders" (VList [])) (VList [])) = Ok items /\
       sync_normalize items = Ok events /\
       files run.2 = <[EVENTS_FILE := json_dumps (VList events)]> (files p)).
Proof.
  intros token run. subst run. unfold main. fold token.
  destruct (str_truthy token) eqn:Ht; simpl.
  2:{ split; [done|]. split; [done|]. split; [done|]. intros H. by destruct H. }
  split; [done|].
  destruct (reminders_list (slack env) 0 (default "" token)) as [resp|[d|] msg|e] eqn:Hl;
    simpl.
  - split; [done|].
    destruct (iterate _) as [items|e] eqn:Hi; simpl.
    2:{ split; [done|]. intros H. by destruct H. }
    destruct (sync_events_loop items []) as [events|e] eqn:Hn; simpl.
    2:{ split; [done|]. intros H. by destruct H. }
    split; [done|]. intros _. split; [done|]. split; [done|]. split; [done|].
    exists resp, items, events. done.
  - split; [done|]. split; [done|]. intros H. by destruct H.
  - split; [eauto 6|]. split; [done|]. intros H. by destruct H.
  - split; [done|]. split; [done|]. intros H. by destruct H.
Qed.

(** ** The token *)

(** The lookup returns the secrets value when it is not empty, otherwise the
    environment value when it is not empty, otherwise no token. *)
Lemma token_lookup_order (env : environment) :
  (forall t, secret_token env = VStr t -> t <> "" ->
     _get_slack_user_token env = VStr t) /\
  (truthy (secret_token env) = false ->
     forall t, environ env !! "SLACK_USER_TOKEN" = Some t -> t <> "" ->
       _get_slack_user_token env = VStr t) /\
  (truthy (secret_token env) = false ->
     environ env !! "SLACK_USER_TOKEN" = None \/ environ env !! "SLACK_USER_TOKEN" = Some "" ->
     _get_slack_user_token env = VNone).
Proof.
  unfold _get_slack_user_token. fold (secret_token env). split; [|split].
  - intros t -> Ht. simpl. destruct (String.eqb_spec t ""); [done|]. reflexivity.
  - intros -> t -> Ht. unfold py_or. simpl. by destruct (String.eqb_spec t "").
  - intros -> [-> | ->]; reflexivity.
Qed.

(** ** Reasoning about script fragments *)

Section Always.

Context (T : ui_state -> ui_state -> Prop) `{!Reflexive T} `{!Transitive T}.

Lemma always_ret {A} (a : A) : always T (ui_ret a).
Proof. intros s. simpl. reflexivity. Qed.

Lemma always_raise {A} (e : exn) : always T (@ui_raise A e).
Proof. intros s. simpl. reflexivity. Qed.

Lemma always_lift {A} (r : result A) : always T (ui_lift r).
Proof. intros s. simpl. reflexivity. Qed.

Lemma always_bind {A B} (m : UI A) (k : A -> UI B) :
  always T m -> (forall a, always T (k a)) -> always T (ui_bind m k).
Proof.
  intros Hm Hk s. unfold ui_bind. specialize (Hm s).
  destruct (m s) as [[a|e] s']; simpl in *; [|done].
  etrans; [exact Hm | apply Hk].
Qed.

Lemma always_bind_at {A B} (m : UI A) (k : A -> UI B) (s : ui_state) :
  T s (m s).2 -> (forall a, always T (k a)) -> T s (ui_bind m k s).2.
Proof.
  intros Hm Hk. unfold ui_bind.
  destruct (m s) as [[a|e] s']; simpl in *; [|done].
  etrans; [exact Hm | apply Hk].
Qed.

Lemma always_when (b : bool) (m : UI unit) : always T m -> always T (when b m).
Proof. intros Hm. destruct b; [done | apply always_ret]. Qed.

Lemma always_for_each {A S} (l : list A) (body : A -> S -> UI S) :
  (forall x acc, always T (body x acc)) -> forall acc, always T (for_each l acc body).
Proof.
  intros Hb. induction l as [|x l IH]; intros acc; simpl.
  - apply always_ret.
  - apply always_bind; [apply Hb | intros acc'; apply IH].
Qed.

End Always.

Lemma total_ret {A} (a : A) : total (ui_ret a).
Proof. intros s. by exists a. Qed.

Lemma total_bind {A B} (m : UI A) (k : A -> UI B) :
  total m -> (forall a, total (k a)) -> total (ui_bind m k).
Proof.
  intros Hm Hk s. unfold ui_bind. destruct (Hm s) as [a Ha].
  destruct (m s) as [r s']. simpl in Ha. subst r. apply Hk.
Qed.

Lemma total_when (b : bool) (m : UI unit) : total m -> total (when b m).
Proof. intros Hm. destruct b; [done | apply total_ret]. Qed.

Lemma total_emit e : total (emit e).
Proof. intros s. by exists tt. Qed.

Lemma total_session_set k v : total (session_set k v).
Proof. intros s. by exists tt. Qed.

Lemma total_st_selectbox dflt k : total (st_selectbox dflt k).
Proof. intros s. by eexists. Qed.

Lemma total_unit (m : UI unit) (s : ui_state) : total m -> (m s).1 = Ok tt.
Proof. intros Hm. destruct (Hm s) as [[] ->]. done. Qed.

Lemma bind_session_get {B} (k : string) (f : value -> UI B) (s : ui_state) :
  ui_bind (session_get k) f s = f (default VNone (session s !! k)) s.
Proof. reflexivity. Qed.

Global Instance adds_only_refl tok : Reflexive (adds_only tok).
Proof. intros s. exists []. by rewrite app_nil_r. Qed.

Global Instance adds_only_trans tok : Transitive (adds_only tok).
Proof.
  intros s1 s2 s3 (n1 & H1 & F1) (n2 & H2 & F2). exists (n1 ++ n2).
  split; [by rewrite H2, H1, app_assoc | by apply Forall_app_2].
Qed.

Global Instance keeps_refl k : Reflexive (keeps k).
Proof. by intros s. Qed.

Global Instance keeps_trans k : Transitive (keeps k).
Proof. intros s1 s2 s3 H1 H2. unfold keeps in *. congruence. Qed.

(** ** Effects of the client calls *)

Lemma fetch_reminders_state env token s :
  (_fetch_slack_reminders env token s).2 = after_fetch env token s.
Proof.
  unfold _fetch_slack_reminders, after_fetch.
  destruct (slack_sdk env); simpl.
  - unfold ui_bind, calls_so_far, log_call; simpl.
    destruct (reminders_list _ _ _) as [resp|resp msg|e]; simpl; try reflexivity.
    destruct (iterate _); reflexivity.
  - rewrite app_nil_r. by destruct s.
Qed.

Lemma fetch_reminders_returns env token s :
  exists rs err, (_fetch_slack_reminders env token s).1 = Ok (rs, err).
Proof.
  unfold _fetch_slack_reminders.
  destruct (slack_sdk env); simpl; [|eauto].
  unfold ui_bind, calls_so_far, log_call; simpl.
  destruct (reminders_list _ _ _) as [resp|resp msg|e]; simpl; eauto.
  destruct (iterate _); simpl; eauto.
Qed.

Lemma fetch_events_state env token s :
  (_fetch_slack_reminders_as_events env token s).2 = after_fetch env token s.
Proof.
  unfold _fetch_slack_reminders_as_events, ui_bind.
  pose proof (fetch_reminders_state env token s) as Hs.
  destruct (fetch_reminders_returns env token s) as (rs & err & Hr).
  destruct (_fetch_slack_reminders env token s) as [r s']. simpl in *. subst.
  destruct (str_truthy err); simpl; [done|].
  unfold ui_lift. destruct (events_loop rs []); reflexivity.
Qed.

Lemma quiet_adds_only {A} tok (m : UI A) :
  (forall s, calls (m s).2 = calls s) -> always (adds_only tok) m.
Proof. intros H s. exists []. by rewrite H, app_nil_r. Qed.

Lemma fetch_events_adds env token :
  always (adds_only token) (_fetch_slack_reminders_as_events env token).
Proof.
  intros s. rewrite fetch_events_state. unfold after_fetch.
  eexists. split; [reflexivity|]. destruct (slack_sdk env); by repeat constructor.
Qed.

Lemma fetch_events_keeps env token k :
  always (keeps k) (_fetch_slack_reminders_as_events env token).
Proof. intros s. by rewrite fetch_events_state. Qed.

Lemma session_set_keeps k k' v : k' <> k -> always (keeps k) (session_set k' v).
Proof. intros Hne s. unfold keeps. simpl. by rewrite lookup_insert_ne. Qed.

Lemma emit_keeps k e : always (keeps k) (emit e).
Proof. by intros s. Qed.

Lemma st_checkbox_keeps k label dflt key :
  key <> k -> always (keeps k) (st_checkbox label dflt key).
Proof.
  intros Hne s. unfold st_checkbox, keeps.
  destruct (existsb _ _); simpl; [done|]. by rewrite lookup_insert_ne.
Qed.

Lemma st_selectbox_keeps k dflt key : key <> k -> always (keeps k) (st_selectbox dflt key).
Proof. intros Hne s. unfold keeps. simpl. by rewrite lookup_insert_ne. Qed.

Lemma sync_action_adds env token tok :
  (token <> "" -> tok = token) -> always (adds_only tok) (sync_action env token).
Proof.
  intros Htok. unfold sync_action. destruct (String.eqb_spec token "") as [->|Hne].
  - by apply quiet_adds_only.
  - rewrite (Htok Hne). apply always_bind; [apply _ | apply fetch_events_adds |].
    intros [events err]. destruct (str_truthy err); [by apply quiet_adds_only|].
    apply always_bind; [apply _ | |]; intros; by apply quiet_adds_only.
Qed.

Lemma sync_action_keeps env token k :
  k <> "slack_events" -> always (keeps k) (sync_action env token).
Proof.
  intros Hne. unfold sync_action. destruct (String.eqb token ""); [apply emit_keeps|].
  apply always_bind; [apply _ | apply fetch_events_keeps |].
  intros [events err]. destruct (str_truthy err); [apply emit_keeps|].
  apply always_bind; [apply _ | by apply session_set_keeps | intros; apply emit_keeps].
Qed.

Lemma refresh_controls_adds env tok : always (adds_only tok) (refresh_controls env).
Proof.
  unfold refresh_controls.
  apply always_bind; [apply _| |intros auto_refresh].
  { apply quiet_adds_only. intros s. unfold st_checkbox. by destruct (existsb _ _). }
  apply always_bind; [apply _ | by apply quiet_adds_only | intros interval_s].
  apply always_when; [apply _|]. destruct (negb _); by apply quiet_adds_only.
Qed.

Lemma refresh_controls_keeps_token env :
  always (keeps "slack_token") (refresh_controls env).
Proof.
  unfold refresh_controls.
  apply always_bind; [apply _ | by apply st_checkbox_keeps | intros auto_refresh].
  apply always_bind; [apply _ | by apply st_selectbox_keeps | intros interval_s].
  apply always_when; [apply _|]. destruct (negb _); apply emit_keeps.
Qed.

Lemma calendar_left_token env g s :
  session (calendar_left env g s).2 !! "slack_token" = Some (VStr (token_input env g)).
Proof.
  unfold calendar_left. fold (token_input env g).
  unfold ui_bind at 1. cbn [session_set].
  match goal with |- session (?m ?s1).2 !! _ = _ =>
    assert (Hk : always (keeps "slack_token") m); [|rewrite (Hk s1)] end.
  { apply always_bind; [apply _ | apply refresh_controls_keeps_token | intros _].
    apply always_when; [apply _|]. by apply sync_action_keeps. }
  simpl. by rewrite lookup_insert_eq.
Qed.

Lemma calendar_left_adds env g :
  always (adds_only (py_str (token_in_use env g))) (calendar_left env g).
Proof.
  unfold calendar_left. fold (token_input env g).
  apply always_bind; [apply _ | by apply quiet_adds_only | intros _].
  apply always_bind; [apply _ | apply refresh_controls_adds | intros _].
  apply always_when; [apply _|]. apply sync_action_adds. intros Hne.
  unfold token_in_use, py_or. simpl. by destruct (String.eqb_spec (token_input env g) "").
Qed.

Lemma fetch_for_view_adds env token :
  always (adds_only (py_str token)) (fetch_for_view env token).
Proof.
  unfold fetch_for_view. apply always_bind; [apply _ | apply fetch_events_adds |].
  intros [events err]. destruct (str_truthy err);
    (apply always_bind; [apply _ | by apply quiet_adds_only | intros; by apply quiet_adds_only]).
Qed.

Lemma calendar_right_adds env g s :
  session s !! "slack_token" = Some (VStr (token_input env g)) ->
  adds_only (py_str (token_in_use env g)) s (calendar_right env s).2.
Proof.
  intros Hs.
  unfold calendar_right. apply always_bind_at; [apply _ | |].
  - unfold choose_events. rewrite !bind_session_get, Hs. simpl.
    fold (token_in_use env g).
    apply always_bind; [apply _ | | intros; by apply quiet_adds_only].
    destruct (_ && _); [apply fetch_for_view_adds|].
    apply always_bind; [apply _ | by apply quiet_adds_only | intros cached].
    destruct (isinstance_list cached); [by apply quiet_adds_only|].
    destruct (truthy _); [apply fetch_for_view_adds | by apply quiet_adds_only].
  - intros [t e]. apply always_bind; [apply _ | | intros; by apply quiet_adds_only].
    apply always_when; [apply _ | by apply quiet_adds_only].
Qed.

Lemma render_calendar_adds env g :
  always (adds_only (py_str (token_in_use env g))) (render_calendar env g).
Proof.
  intros s. unfold render_calendar.
  destruct (negb (calendar_component env)); [by apply quiet_adds_only|].
  unfold ui_bind.
  pose proof (calendar_left_adds env g s) as Hl.
  pose proof (calendar_left_token env g s) as Ht.
  destruct (calendar_left env g s) as [[[]|e] s1]; simpl in *; [|done].
  etrans; [exact Hl | by apply calendar_right_adds].
Qed.

Lemma lookup_str_or_none (env : environment) :
  _get_slack_user_token env = VNone \/
  exists t, _get_slack_user_token env = VStr t /\ (t = "" -> truthy (secret_token env) = true).
Proof.
  unfold _get_slack_user_token. fold (secret_token env).
  destruct (truthy (secret_token env)); [right; eauto|].
  destruct (environ env !! "SLACK_USER_TOKEN") as [t|]; [|by left].
  unfold py_or. simpl. destruct (String.eqb_spec t ""); [by left|].
  right. exists t. done.
Qed.

(** C8, as the code has it. The lookup function returns the secrets value
    when it is not empty, otherwise the environment value when it is not
    empty, otherwise no token. The calendar page puts the user's input
    before that lookup: every call it makes to list the reminders carries
    the text typed into the token input when that text is not empty, and the
    looked-up token only when nothing was typed or the input was emptied. *)
Theorem token_precedence (env : environment) (g : gestures) (s : ui_state) :
  (forall t, secret_token env = VStr t -> t <> "" ->
     _get_slack_user_token env = VStr t) /\
  (truthy (secret_token env) = false ->
     forall t, environ env !! "SLACK_USER_TOKEN" = Some t -> t <> "" ->
       _get_slack_user_token env = VStr t) /\
  (truthy (secret_token env) = false ->
     environ env !! "SLACK_USER_TOKEN" = None \/ environ env !! "SLACK_USER_TOKEN" = Some "" ->
     _get_slack_user_token env = VNone) /\
  adds_only (py_str (token_in_use env g)) s (render_calendar env g s).2 /\
  (forall t, typed g "Slack user token (xoxp-/xoxc-)" = Some t -> t <> "" ->
     token_in_use env g = VStr t) /\
  (typed g "Slack user token (xoxp-/xoxc-)" = None \/
   typed g "Slack user token (xoxp-/xoxc-)" = Some "" ->
     token_in_use env g = _get_slack_user_token env).
Proof.
  destruct (token_lookup_order env) as (H1 & H2 & H3).
  split; [exact H1|]. split; [exact H2|]. split; [exact H3|].
  split; [apply render_calendar_adds|]. split.
  - intros t Ht Hne. unfold token_in_use, token_input, st_text_input. rewrite Ht.
    unfold py_or. simpl. by destruct (String.eqb_spec t "").
  - intros [Ht|Ht]; unfold token_in_use, token_input, st_text_input; rewrite Ht; simpl.
    2:{ reflexivity. }
    destruct (lookup_str_or_none env) as [->|(t & -> & _)]; [reflexivity|].
    unfold py_or. simpl. destruct (String.eqb t "") eqn:E; simpl; by rewrite ?E.
Qed.

(** ** The calendar page and its cache *)

Global Instance quiet_refl : Reflexive quiet.
Proof. by intros s. Qed.

Global Instance quiet_trans : Transitive quiet.
Proof.
  intros s1 s2 s3 (H1 & H2 & H3) (H4 & H5 & H6). unfold quiet. repeat split; congruence.
Qed.

Lemma session_set_quiet k v :
  k <> "slack_events" -> k <> "slack_auto_refresh" -> always quiet (session_set k v).
Proof. intros H1 H2 s. unfold quiet. simpl. by rewrite !lookup_insert_ne. Qed.

Lemma emit_quiet e : always quiet (emit e).
Proof. by intros s. Qed.

Lemma st_selectbox_quiet dflt k :
  k <> "slack_events" -> k <> "slack_auto_refresh" -> always quiet (st_selectbox dflt k).
Proof. intros H1 H2 s. unfold quiet. simpl. by rewrite !lookup_insert_ne. Qed.

Lemma auto_refresh_checkbox_quiet label :
  always quiet (st_checkbox label false "slack_auto_refresh").
Proof.
  intros s. unfold st_checkbox. destruct (existsb _ _); [reflexivity|].
  unfold quiet. simpl. rewrite lookup_insert_ne by done. rewrite lookup_insert_eq.
  split; [done|]. split; [done|]. by destruct (session s !! "slack_auto_refresh").
Qed.

(** The controls make no call and leave the cache alone. *)
Lemma refresh_controls_quiet env : always quiet (refresh_controls env).
Proof.
  unfold refresh_controls.
  apply always_bind; [apply _ | apply auto_refresh_checkbox_quiet | intros auto_refresh].
  apply always_bind; [apply _ | by apply st_selectbox_quiet | intros interval_s].
  apply always_when; [apply _|]. destruct (negb _); apply emit_quiet.
Qed.

Lemma refresh_controls_returns env s :
  checkbox_unused s -> (refresh_controls env s).1 = Ok tt.
Proof.
  unfold checkbox_unused. intros Hu. unfold refresh_controls.
  unfold ui_bind at 1. unfold st_checkbox at 1. rewrite Hu.
  apply total_unit.
  apply total_bind; [apply total_st_selectbox | intros interval_s].
  apply total_when. destruct (negb _); apply total_emit.
Qed.

Lemma refresh_controls_screen env s e :
  e ∈ screen s -> e ∈ screen (refresh_controls env s).2.
Proof.
  intros He. unfold refresh_controls, ui_bind, st_checkbox, st_selectbox, when, emit.
  destruct (existsb _ _); simpl; [done|].
  destruct (match session s !! "slack_auto_refresh" with
            | Some v => truthy v | None => false end); simpl.
  - destruct (negb _); simpl; rewrite !elem_of_app; auto.
  - rewrite elem_of_app; auto.
Qed.

(** Without a press on the sync button the left column makes no call and
    leaves the cache alone. *)
Lemma calendar_left_quiet env g :
  clicked g "Sync from Slack" = false -> always quiet (calendar_left env g).
Proof.
  intros Hc. unfold calendar_left, st_button. rewrite Hc. simpl.
  apply always_bind; [apply _ | by apply session_set_quiet | intros _].
  apply always_bind; [apply _ | apply refresh_controls_quiet | intros _; by apply always_ret].
Qed.

Lemma calendar_left_returns env g s :
  clicked g "Sync from Slack" = false -> checkbox_unused s ->
  (calendar_left env g s).1 = Ok tt.
Proof.
  intros Hnp Hu.
  unfold calendar_left, st_button. rewrite Hnp.
  unfold ui_bind at 1. cbn [session_set].
  unfold ui_bind at 1.
  match goal with |- context [refresh_controls env ?s0] =>
    pose proof (refresh_controls_returns env s0 Hu) as Hr;
    destruct (refresh_controls env s0) as [r s1] end.
  simpl in Hr. subst r. reflexivity.
Qed.

Lemma choose_events_cached env s cached :
  auto_refresh_off s -> session s !! "slack_events" = Some (VList cached) ->
  exists token, choose_events env s = (Ok (token, VList cached), s).
Proof.
  unfold auto_refresh_off. intros Hoff Hc. eexists.
  unfold choose_events. rewrite !bind_session_get. rewrite Hoff. simpl.
  unfold ui_bind at 1. rewrite bind_session_get, Hc. simpl. reflexivity.
Qed.

(** With auto-refresh off and a cached list, the right column shows the
    cached list and changes nothing but the page. *)
Lemma calendar_right_cached env s cached :
  auto_refresh_off s -> session s !! "slack_events" = Some (VList cached) ->
  exists info,
    calendar_right env s
    = (Ok tt, {| session := session s; calls := calls s;
                 screen := (screen s ++ info) ++ [StCalendar (VList cached)] |}).
Proof.
  intros Hoff Hc. destruct (choose_events_cached env s cached Hoff Hc) as [token Hce].
  unfold calendar_right. unfold ui_bind at 1. rewrite Hce.
  unfold ui_bind, when, emit, ui_ret. simpl.
  destruct (_ && _); simpl; [by eexists [_]|].
  exists []. by rewrite app_nil_r.
Qed.


(** C2. In a session where auto-refresh is off, a render cycle of the
    calendar page that finds a cached event list and no press on the sync
    button makes no call to Slack, keeps the cache and hands the cached list
    to the calendar; so in that mode a call is made only when the session
    holds no cached list or the sync button was pressed. *)
Theorem cached_events_without_fetch (env : environment) (g : gestures) (s : ui_state) :
  auto_refresh_off s ->
  let run := render_calendar env g s in
  (forall cached,
     session s !! "slack_events" = Some (VList cached) ->
     clicked g "Sync from Slack" = false ->
     calls run.2 = calls s /\
     session run.2 !! "slack_events" = Some (VList cached) /\
     (calendar_component env = true -> checkbox_unused s ->
        run.1 = Ok tt /\
        last (screen run.2) = Some (StCalendar (VList cached)))) /\
  (calls run.2 <> calls s ->
     isinstance_list (default VNone (session s !! "slack_events")) = false \/
     clicked g "Sync from Slack" = true).
Proof.
  intros Hoff run.
  assert (Hcached : forall cached,
     session s !! "slack_events" = Some (VList cached) ->
     clicked g "Sync from Slack" = false ->
     calls run.2 = calls s /\
     session run.2 !! "slack_events" = Some (VList cached) /\
     (calendar_component env = true -> checkbox_unused s ->
        run.1 = Ok tt /\
        last (screen run.2) = Some (StCalendar (VList cached)))).
  { intros cached Hc Hnp. subst run. unfold render_calendar.
    destruct (calendar_component env) eqn:Hcomp; simpl; [|done].
    unfold ui_bind.
    pose proof (calendar_left_quiet env g Hnp s) as (Hq1 & Hq2 & Hq3).
    pose proof (calendar_left_returns env g s Hnp) as Hleft.
    destruct (calendar_left env g s) as [[[]|e] s1]; simpl in *.
    2:{ split; [done|]. split; [congruence|]. intros _ Hu. by specialize (Hleft Hu). }
    assert (Hoff1 : auto_refresh_off s1) by (unfold auto_refresh_off in *; congruence).
    assert (Hc1 : session s1 !! "slack_events" = Some (VList cached)) by congruence.
    destruct (calendar_right_cached env s1 cached Hoff1 Hc1) as [info ->]. simpl.
    split; [done|]. split; [done|]. intros _ _. split; [done|]. by rewrite last_snoc. }
  split; [exact Hcached|].
  intros Hcalls.
  destruct (clicked g "Sync from Slack") eqn:Hp; [by right|]. left.
  destruct (session s !! "slack_events") as [v|] eqn:Hv; [|done].
  destruct v; try done.
  by destruct (Hcached _ eq_refl eq_refl) as [? _].
Qed.

(** The outcome of a fetch depends on the state through the number of calls
    made so far only. *)
Lemma fetch_result_calls env token s1 s2 :
  calls s1 = calls s2 ->
  (_fetch_slack_reminders_as_events env token s1).1
  = (_fetch_slack_reminders_as_events env token s2).1.
Proof.
  intros H. unfold _fetch_slack_reminders_as_events, _fetch_slack_reminders,
    ui_bind, calls_so_far, log_call.
  destruct (slack_sdk env); simpl; [|done]. rewrite H.
  destruct (reminders_list _ _ _) as [resp|resp str_e|e]; simpl; try done.
  destruct (iterate _); simpl; [|done].
  unfold ui_lift. by destruct (events_loop _ _).
Qed.

Lemma str_truthy_message (msg : string) : msg <> "" -> str_truthy (Some msg) = true.
Proof. intros H. simpl. by destruct (String.eqb_spec msg ""). Qed.

(** The error path of the sync action: the message is shown, the session
    is left as it was. *)
Lemma sync_action_failed env token s events msg :
  token <> "" ->
  (_fetch_slack_reminders_as_events env token s).1 = Ok (events, Some msg) ->
  msg <> "" ->
  sync_action env token s
  = (Ok tt, {| session := session s;
               calls := calls s ++ (if slack_sdk env then [ListCall token] else []);
               screen := screen s ++ [StError msg] |}).
Proof.
  intros Htok Hf Hmsg. unfold sync_action.
  destruct (String.eqb_spec token ""); [done|].
  unfold ui_bind. pose proof (fetch_events_state env token s) as Hs.
  destruct (_fetch_slack_reminders_as_events env token s) as [r s']. simpl in *.
  subst r s'. by rewrite str_truthy_message.
Qed.

Lemma sync_action_failing_keeps env token :
  every_fetch_fails env -> always (keeps "slack_events") (sync_action env token).
Proof.
  intros Hfail s. destruct (String.eqb_spec token "") as [->|Hne]; [done|].
  destruct (Hfail token s) as (events & msg & Hf & Hmsg).
  by rewrite (sync_action_failed env token s events msg).
Qed.

Lemma fetch_for_view_failing_keeps env token :
  every_fetch_fails env -> always (keeps "slack_events") (fetch_for_view env token).
Proof.
  intros Hfail s. destruct (Hfail (py_str token) s) as (events & msg & Hf & Hmsg).
  unfold fetch_for_view, ui_bind.
  pose proof (fetch_events_state env (py_str token) s) as Hs.
  destruct (_fetch_slack_reminders_as_events env (py_str token) s) as [r s']. simpl in *.
  subst r s'. by rewrite str_truthy_message.
Qed.

Lemma render_calendar_failing_keeps env g :
  every_fetch_fails env -> always (keeps "slack_events") (render_calendar env g).
Proof.
  intros Hfail. unfold render_calendar.
  destruct (negb (calendar_component env)); [apply emit_keeps|].
  apply always_bind; [apply _ | | intros _].
  - unfold calendar_left.
    apply always_bind; [apply _ | by apply session_set_keeps | intros _].
    apply always_bind; [apply _ | | intros _].
    + intros s. by destruct (refresh_controls_quiet env s) as (_ & ? & _).
    + apply always_when; [apply _|]. by apply sync_action_failing_keeps.
  - unfold calendar_right.
    apply always_bind; [apply _ | | intros [token events]].
    + unfold choose_events.
      apply always_bind; [apply _ | done | intros stored].
      apply always_bind; [apply _ | done | intros flag].
      apply always_bind; [apply _ | | done].
      destruct (_ && _); [by apply fetch_for_view_failing_keeps|].
      apply always_bind; [apply _ | done | intros cached].
      destruct (isinstance_list cached); [done|].
      destruct (truthy _); [by apply fetch_for_view_failing_keeps | done].
    + apply always_bind; [apply _ | | intros; apply emit_keeps].
      apply always_when; [apply _ | apply emit_keeps].
Qed.

(** The left column when the sync button is pressed and the fetch fails. *)
Lemma calendar_left_failed_sync env g s events msg :
  clicked g "Sync from Slack" = true -> token_input env g <> "" ->
  (_fetch_slack_reminders_as_events env (token_input env g) s).1
    = Ok (events, Some msg) ->
  msg <> "" ->
  exists r s1,
    calendar_left env g s = (r, s1) /\
    session s1 !! "slack_events" = session s !! "slack_events" /\
    truthy (default VNone (session s1 !! "slack_auto_refresh"))
      = truthy (default VNone (session s !! "slack_auto_refresh")) /\
    (checkbox_unused s -> r = Ok tt /\ StError msg ∈ screen s1).
Proof.
  intros Hp Htok Hf Hmsg.
  set (s0 := {| session := <["slack_token":=VStr (token_input env g)]> (session s);
                calls := calls s; screen := screen s |}).
  assert (Heq : calendar_left env g s
                = match refresh_controls env s0 with
                  | (Ok _, s1) => sync_action env (token_input env g) s1
                  | (Raise e, s1) => (Raise e, s1)
                  end).
  { unfold calendar_left, st_button. rewrite Hp. reflexivity. }
  rewrite Heq.
  pose proof (refresh_controls_quiet env s0) as (Hq1 & Hq2 & Hq3).
  pose proof (refresh_controls_returns env s0) as Hret.
  destruct (refresh_controls env s0) as [r s1].
  simpl in Hq1, Hq2, Hq3, Hret.
  rewrite lookup_insert_ne in Hq2 by done. rewrite lookup_insert_ne in Hq3 by done.
  destruct r as [[]|e].
  2:{ eexists _, _. split; [reflexivity|]. split; [done|]. split; [done|].
      intros Hu. by specialize (Hret Hu). }
  assert (Hf1 : (_fetch_slack_reminders_as_events env (token_input env g) s1).1
                = Ok (events, Some msg)).
  { rewrite <- Hf. by apply fetch_result_calls. }
  rewrite (sync_action_failed env _ s1 events msg Htok Hf1 Hmsg).
  eexists _, _. split; [reflexivity|]. simpl. split; [done|]. split; [done|].
  intros _. split; [done|]. rewrite elem_of_app. right. by apply list_elem_of_singleton.
Qed.

(** C10. When the fetch of an explicit sync comes back with an error, the
    sync action shows the error and leaves the session, hence the cached
    event list, as it was. In a render cycle with auto-refresh off the cached
    list is then still in the session at the end and is what the calendar
    shows; and in any cycle in which every fetch fails the cache ends as it
    started. *)
Theorem failed_sync_keeps_cache (env : environment) (g : gestures) (s : ui_state) :
  let token := token_input env g in
  (forall s1 events msg,
     token <> "" ->
     (_fetch_slack_reminders_as_events env token s1).1 = Ok (events, Some msg) ->
     msg <> "" ->
     (sync_action env token s1).1 = Ok tt /\
     session (sync_action env token s1).2 = session s1 /\
     last (screen (sync_action env token s1).2) = Some (StError msg)) /\
  (forall events msg cached,
     clicked g "Sync from Slack" = true -> token <> "" ->
     (_fetch_slack_reminders_as_events env token s).1 = Ok (events, Some msg) ->
     msg <> "" ->
     auto_refresh_off s ->
     session s !! "slack_events" = Some (VList cached) ->
     let run := render_calendar env g s in
     session run.2 !! "slack_events" = Some (VList cached) /\
     (calendar_component env = true -> checkbox_unused s ->
        run.1 = Ok tt /\
        StError msg ∈ screen run.2 /\
        last (screen run.2) = Some (StCalendar (VList cached)))) /\
  (every_fetch_fails env ->
     session (render_calendar env g s).2 !! "slack_events" = session s !! "slack_events").
Proof.
  intros token. split; [|split].
  - intros s1 events msg Htok Hf Hmsg.
    rewrite (sync_action_failed env token s1 events msg Htok Hf Hmsg). simpl.
    by rewrite last_snoc.
  - intros events msg cached Hp Htok Hf Hmsg Hoff Hc run. subst run.
    unfold render_calendar.
    destruct (calendar_component env) eqn:Hcomp; simpl; [|done].
    destruct (calendar_left_failed_sync env g s events msg Hp Htok Hf Hmsg)
      as (r & s1 & Hleft & Hev & Hflag & Hr).
    unfold ui_bind. rewrite Hleft.
    destruct r as [[]|e].
    2:{ simpl. split; [congruence|]. intros _ Hu. by destruct (Hr Hu). }
    destruct (calendar_right_cached env s1 cached) as [info ->].
    { unfold auto_refresh_off in *. congruence. }
    { congruence. }
    simpl. split; [congruence|]. intros _ Hu. split; [done|]. split.
    + rewrite !elem_of_app. left. left. by apply Hr.
    + by rewrite last_snoc.
  - intros Hfail. apply (render_calendar_failing_keeps env g Hfail s).
Qed.

(** ** Completing the selected reminders *)

Lemma complete_reminder_run env token rid s :
  _complete_slack_reminder env token rid s
  = (Ok (match attempt_error env token (List.length (calls s)) rid with
         | None => (true, None)
         | Some e => (false, Some e)
         end),
     {| session := session s;
        calls := calls s ++ (if slack_sdk env then [CompleteCall token rid] else []);
        screen := screen s |}).
Proof.
  unfold _complete_slack_reminder, attempt_error.
  destruct (slack_sdk env); simpl.
  - unfold ui_bind, calls_so_far, log_call. simpl.
    by destruct (reminders_complete _ _ _ _).
  - rewrite app_nil_r. by destruct s.
Qed.

(** An attempt that fails always has a message. *)
Lemma attempt_error_message env token n rid e :
  attempt_error env token n rid = Some e -> str_truthy (Some e) = true.
Proof.
  unfold attempt_error. destruct (slack_sdk env); simpl.
  - destruct (reminders_complete _ _ _ _); intros [= <-]; reflexivity.
  - intros [= <-]. reflexivity.
Qed.

Lemma complete_loop_run env token ids : forall errors s,
  for_each ids errors (complete_one env token) s
  = (Ok (errors ++ collected_errors env token (List.length (calls s)) ids),
     {| session := flags_cleared ids (session s);
        calls := calls s ++ (if slack_sdk env then map (CompleteCall token) ids else []);
        screen := screen s |}).
Proof.
  induction ids as [|rid ids IH]; intros errors s; simpl.
  - rewrite !app_nil_r. destruct (slack_sdk env); rewrite ?app_nil_r; by destruct s.
  - unfold ui_bind at 1. unfold complete_one at 1. unfold ui_bind at 1.
    rewrite complete_reminder_run.
    assert (Hlen : List.length (calls s ++ (if slack_sdk env then [CompleteCall token rid] else []))
                   = if slack_sdk env then S (List.length (calls s)) else List.length (calls s)).
    { rewrite length_app. destruct (slack_sdk env); simpl; lia. }
    assert (Hcalls : (calls s ++ (if slack_sdk env then [CompleteCall token rid] else []))
                       ++ (if slack_sdk env then map (CompleteCall token) ids else [])
                     = calls s ++ (if slack_sdk env
                                   then CompleteCall token rid :: map (CompleteCall token) ids
                                   else [])).
    { destruct (slack_sdk env); by rewrite <- app_assoc. }
    destruct (attempt_error env token (List.length (calls s)) rid) as [e|] eqn:He.
    + rewrite (attempt_error_message _ _ _ _ _ He). cbn [negb andb default].
      unfold ui_bind, session_pop, ui_ret. cbn [session calls screen].
      rewrite IH. cbn [session calls screen]. rewrite Hlen, Hcalls.
      by rewrite <- app_assoc.
    + cbn [negb andb]. unfold ui_bind, session_pop, ui_ret. cbn [session calls screen].
      rewrite IH. cbn [session calls screen]. by rewrite Hlen, Hcalls.
Qed.

Lemma flags_cleared_none ids : forall (m : gmap string value) k,
  m !! k = None -> flags_cleared ids m !! k = None.
Proof.
  induction ids as [|rid ids IH]; intros m k Hk; simpl; [done|].
  apply IH. rewrite lookup_delete. by case_decide.
Qed.

Lemma flags_cleared_selected ids : forall (m : gmap string value) rid,
  rid ∈ ids -> flags_cleared ids m !! ("status_done_" +:+ rid) = None.
Proof.
  induction ids as [|r ids IH]; intros m rid Hin; simpl.
  - by apply elem_of_nil in Hin.
  - apply elem_of_cons in Hin as [->|Hin]; [|by apply IH].
    apply flags_cleared_none, lookup_delete_eq.
Qed.

Lemma flags_cleared_other ids : forall (m : gmap string value) k,
  (forall rid, rid ∈ ids -> k <> "status_done_" +:+ rid) ->
  flags_cleared ids m !! k = m !! k.
Proof.
  induction ids as [|r ids IH]; intros m k Hk; simpl; [done|].
  rewrite IH.
  - apply lookup_delete_ne. intros Heq. apply (Hk r); [apply elem_of_cons; by left | done].
  - intros rid Hin. apply Hk. apply elem_of_cons. by right.
Qed.

(** Every failing id has its line among the collected errors. *)
Lemma collected_errors_complete env token ids : forall n i rid,
  ids !! i = Some rid ->
  forall e,
    attempt_error env token (if slack_sdk env then (n + i)%nat else n) rid = Some e ->
    (rid +:+ ": " +:+ e) ∈ collected_errors env token n ids.
Proof.
  induction ids as [|r ids IH]; intros n i rid Hi e He; [done|].
  simpl. apply elem_of_app. destruct i as [|i]; simpl in Hi.
  - injection Hi as ->. left.
    replace (if slack_sdk env then (n + 0)%nat else n) with n in He
      by (destruct (slack_sdk env); lia).
    rewrite He. by apply list_elem_of_singleton.
  - right. apply (IH _ i rid Hi e).
    destruct (slack_sdk env); [|done].
    by replace (S n + i)%nat with (n + S i)%nat by lia.
Qed.

(** C3. The completion action walks over all the selected ids: each id gets
    its call to Slack, in order and whatever the outcome of the calls before
    it; the error of every failed id is collected, and the collected errors
    are shown together, joined by line breaks, in one error message; the
    pending flag of every selected id is gone from the session afterwards,
    whether its call succeeded or failed, and no other key is touched. *)
Theorem completion_walks_all_ids (env : environment) (token : string)
    (selected_ids : list string) (s : ui_state) :
  let run := complete_selected env token selected_ids s in
  let errors := collected_errors env token (List.length (calls s)) selected_ids in
  run.1 = Raise (Exn RerunException "") /\
  calls run.2 = calls s ++ (if slack_sdk env
                            then map (CompleteCall token) selected_ids else []) /\
  (forall i rid e,
     selected_ids !! i = Some rid ->
     attempt_error env token
       (if slack_sdk env then (List.length (calls s) + i)%nat else List.length (calls s))
       rid = Some e ->
     (rid +:+ ": " +:+ e) ∈ errors) /\
  screen run.2 = screen s ++ match errors with
                             | [] => []
                             | _ => [StError (join nl errors)]
                             end /\
  (forall rid, rid ∈ selected_ids ->
     session run.2 !! ("status_done_" +:+ rid) = None) /\
  (forall k, (forall rid, rid ∈ selected_ids -> k <> "status_done_" +:+ rid) ->
     session run.2 !! k = session s !! k).
Proof.
  intros run errors.
  assert (Hrun : run = (Raise (Exn RerunException ""),
     {| session := flags_cleared selected_ids (session s);
        calls := calls s ++ (if slack_sdk env
                             then map (CompleteCall token) selected_ids else []);
        screen := screen s ++ match errors with
                              | [] => []
                              | _ => [StError (join nl errors)]
                              end |})).
  { subst run. unfold complete_selected. unfold ui_bind at 1.
    rewrite complete_loop_run. cbn [app]. fold errors.
    destruct errors; simpl; [by rewrite app_nil_r | done]. }
  rewrite Hrun. simpl.
  split; [done|]. split; [done|]. split.
  { intros i rid e Hi He. subst errors.
    by apply (collected_errors_complete env token selected_ids _ i rid Hi e). }
  split; [done|]. split.
  - intros rid. apply flags_cleared_selected.
  - intros k. apply flags_cleared_other.
Qed.

(** ** The two normalizers side by side *)

Lemma result_map_bind {A B} (f : A -> B) (r : result A) :
  rbind r (fun a => Ok (f a)) = match r with Ok a => Ok (f a) | Raise e => Raise e end.
Proof. by destruct r. Qed.

Lemma loops_agree (rs : list dict) : forall acc,
  events_loop rs (map title_as_str acc)
  = rbind (sync_events_loop (map VDict rs) acc) (fun evs => Ok (map title_as_str evs)).
Proof.
  induction rs as [|r rs IH]; intros acc; simpl; [done|].
  destruct (isinstance_int (dict_get r "time")), (truthy (dict_get r "complete_ts"));
    simpl; try apply IH.
  unfold _ts_to_iso_local, ts_to_iso_local.
  destruct (local_datetime _) as [d|e]; simpl; [|done].
  rewrite <- IH. by rewrite map_app.
Qed.

(** X1. The calendar of the app and the file of the sync utility hold the
    same events: on a list of dict records the normalizer of app.py gives
    what the loop of the sync script gives, with [str()] applied to each
    title; the two outputs are equal when every text is a string or is
    replaced by the placeholder. *)
Theorem normalizers_agree (rs : list dict) :
  normalize rs
  = rbind (sync_normalize (map VDict rs)) (fun evs => Ok (map title_as_str evs)) /\
  (Forall text_is_plain rs -> normalize rs = sync_normalize (map VDict rs)).
Proof.
  split; [apply (loops_agree rs [])|].
  intros Hplain. unfold normalize, sync_normalize. generalize (@nil value) as acc.
  induction Hplain as [|r rs Hr _ IH]; intros acc; simpl; [done|].
  destruct (isinstance_int (dict_get r "time")), (truthy (dict_get r "complete_ts"));
    simpl; try apply IH.
  unfold _ts_to_iso_local, ts_to_iso_local.
  destruct (local_datetime _) as [d|e]; simpl; [|done].
  replace (VStr (py_str (py_or (dict_get r "text") (VStr "Reminder"))))
    with (py_or (dict_get r "text") (VStr "Reminder")); [apply IH|].
  unfold py_or, text_is_plain in *.
  destruct (truthy (dict_get r "text")); [|done].
  specialize (Hr eq_refl). by destruct (dict_get r "text").
Qed.

(** ** More on the two lists of the status page *)

Lemma with_key_insert key k x l :
  with_key key k (insert_sorted key x l) = with_key key k (x :: l).
Proof.
  unfold with_key. induction l as [|y l IH]; [done|]. cbn [insert_sorted].
  destruct (key x <=? key y) eqn:Hxy; [done|].
  apply Z.leb_gt in Hxy. cbn [List.filter] in *. rewrite IH.
  destruct (key x =? k) eqn:Hx, (key y =? k) eqn:Hy; try done.
  apply Z.eqb_eq in Hx, Hy. lia.
Qed.

Lemma with_key_sort_by key k l : with_key key k (sort_by key l) = with_key key k l.
Proof.
  induction l as [|x l IH]; [done|]. cbn [sort_by foldr].
  fold (sort_by key l). rewrite with_key_insert. unfold with_key in *. simpl.
  by rewrite IH.
Qed.

Lemma filter_split {A} (f : A -> bool) (l : list A) :
  Permutation (List.filter (fun x => negb (f x)) l ++ List.filter f l) l.
Proof.
  induction l as [|x l IH]; simpl; [done|].
  destruct (f x); simpl.
  - rewrite <- Permutation_middle. by constructor.
  - by constructor.
Qed.

(** X2. The status page shows every reminder of the response in exactly one
    of its two lists before ids are looked at (the to-do list and the
    completed list together are a rearrangement of the response), and both
    sorts are stable: reminders with the same sort key keep the order Slack
    gave them, in the to-do list and in the completed list. *)
Theorem status_lists_partition_and_stable (rs : list dict) :
  Permutation (todo_order rs ++ completed_order rs) rs /\
  (forall k, with_key _rem_time k (todo_order rs)
             = with_key _rem_time k (List.filter (fun r => negb (is_complete r)) rs)) /\
  (forall k, with_key _rem_time k (completed_order rs)
             = with_key _rem_time k (List.filter is_complete rs)).
Proof.
  split; [|split].
  - unfold todo_order, completed_order.
    rewrite sort_by_rev_neg, !sort_by_perm. apply filter_split.
  - intros k. apply with_key_sort_by.
  - intros k. unfold completed_order. rewrite sort_by_rev_neg.
    pose proof (with_key_sort_by (fun r => - _rem_time r) (- k)
                  (List.filter is_complete rs)) as H.
    unfold with_key in *.
    assert (Heq : forall l, List.filter (fun r => - _rem_time r =? - k) l
                            = List.filter (fun r => _rem_time r =? k) l).
    { intros l. apply List.filter_ext. intros r.
      destruct (_rem_time r =? k) eqn:E1, (- _rem_time r =? - k) eqn:E2; try done;
        rewrite ?Z.eqb_eq, ?Z.eqb_neq in *; lia. }
    by rewrite !Heq in H.
Qed.

(** ** The reminder client *)

Lemma listing_data_or_error env token n : data_or_error (listing env token n).
Proof.
  unfold listing, data_or_error. destruct (slack_sdk env); simpl.
  - destruct (reminders_list _ _ _) as [resp|response str_e|e]; simpl.
    + destruct (iterate _); simpl; [by left | right; split; [done|]].
      eexists. split; [done|]. discriminate.
    + right. split; [done|]. eexists. split; [done|]. discriminate.
    + right. split; [done|]. eexists. split; [done|]. discriminate.
  - right. split; [done|]. eexists. split; [done|]. discriminate.
Qed.

Lemma fetch_reminders_run env token s :
  _fetch_slack_reminders env token s
  = (Ok (listing env token (List.length (calls s))), after_fetch env token s).
Proof.
  unfold _fetch_slack_reminders, listing, after_fetch.
  destruct (slack_sdk env); simpl.
  - unfold ui_bind, calls_so_far, log_call. simpl.
    destruct (reminders_list _ _ _) as [resp|response str_e|e]; simpl; try done.
    by destruct (iterate _).
  - rewrite app_nil_r. by destruct s.
Qed.

(** X3. Listing the reminders never raises, whatever Slack does: the client
    returns either the dict records of the response and no error, or no
    record and an error text that is not empty. The call is logged once when
    the client library is installed and not at all otherwise; the session
    and the page are left as they were. *)
Theorem fetch_reminders_never_raises (env : environment) (token : string) (s : ui_state) :
  exists out,
    _fetch_slack_reminders env token s = (Ok out, after_fetch env token s) /\
    data_or_error out /\
    (slack_sdk env = false -> out.1 = [] /\ calls (after_fetch env token s) = calls s) /\
    (forall resp items,
       slack_sdk env = true ->
       reminders_list (slack env) (List.length (calls s)) token = Returned resp ->
       iterate (py_or (dict_get_default resp "reminders" (VList [])) (VList [])) = Ok items ->
       out = (only_dicts items, None)).
Proof.
  exists (listing env token (List.length (calls s))).
  split; [apply fetch_reminders_run|]. split; [apply listing_data_or_error|]. split.
  - intros Hsdk. unfold listing, after_fetch. rewrite Hsdk. simpl.
    by rewrite app_nil_r.
  - intros resp items Hsdk Hl Hi. unfold listing. by rewrite Hsdk, Hl, Hi.
Qed.

(** X4. Completing a reminder never raises: the client answers [(True, None)]
    when Slack accepts the call and [(False, error)] with an error text that
    is not empty in every other case, among them a missing client library,
    where no call is made at all. *)
Theorem complete_reminder_never_raises (env : environment) (token rid : string)
    (s : ui_state) :
  exists ok err,
    (_complete_slack_reminder env token rid s).1 = Ok (ok, err) /\
    session (_complete_slack_reminder env token rid s).2 = session s /\
    screen (_complete_slack_reminder env token rid s).2 = screen s /\
    calls (_complete_slack_reminder env token rid s).2
      = calls s ++ (if slack_sdk env then [CompleteCall token rid] else []) /\
    (ok = true <-> err = None) /\
    (ok = false -> exists msg, err = Some msg /\ msg <> "") /\
    (ok = true <-> slack_sdk env = true /\
       exists u, reminders_complete (slack env) (List.length (calls s)) token rid
                 = Returned u).
Proof.
  rewrite complete_reminder_run. simpl.
  unfold attempt_error. destruct (slack_sdk env); simpl.
  - destruct (reminders_complete _ _ _ _) as [u|response str_e|e] eqn:Hc.
    + exists true, None. repeat split; try done; eauto.
    + exists false, (Some (slack_error_text response str_e)).
      repeat split; try done.
      * intros _. eexists. split; [done|]. discriminate.
      * by intros (_ & u & ?).
    + exists false, (Some ("Failed to complete reminder: " +:+ exn_msg e)).
      repeat split; try done.
      * intros _. eexists. split; [done|]. discriminate.
      * by intros (_ & u & ?).
  - eexists false, (Some _). repeat split; try done.
    + intros _. eexists. split; [done|]. discriminate.
    + by intros (? & _).
Qed.

Lemma fetch_events_run env token s :
  _fetch_slack_reminders_as_events env token s
  = (match listing env token (List.length (calls s)) with
     | (rs, err) =>
         if str_truthy err then Ok ([], err)
         else rbind (normalize rs) (fun events => Ok (events, None))
     end, after_fetch env token s).
Proof.
  unfold _fetch_slack_reminders_as_events, ui_bind. rewrite fetch_reminders_run.
  destruct (listing _ _ _) as [rs err]. destruct (str_truthy err); [done|].
  unfold ui_lift, normalize. by destruct (events_loop rs []).
Qed.

Lemma normalize_shape (rs : list dict) :
  match normalize rs with
  | Ok evs => (List.length evs <= List.length rs)%nat
              /\ Forall2 event_of (List.filter eligible rs) evs
  | Raise e =>
      exists r, r ∈ rs /\ eligible r = true /\ _ts_to_iso_local (time_of r) = Raise e
  end.
Proof.
  pose proof (events_loop_spec rs []) as H. unfold normalize.
  destruct (events_loop rs []) as [evs|e]; [|exact H].
  destruct H as (new & -> & HF). simpl. split; [|done].
  rewrite <- (Forall2_length _ _ _ HF). apply length_filter_le.
Qed.

(** X5. The fetch the pages use composes the client and the normalizer: an
    error of the client comes back unchanged with an empty event list; a
    listing without error comes back as the events of its records, one per
    record with an integer time and no completion, in order, with no error;
    and it raises only when the rendering of such a record's time raises. In
    every case it logs the one call of the client and touches nothing else. *)
Theorem fetch_events_outcome (env : environment) (token : string) (s : ui_state) :
  let out := listing env token (List.length (calls s)) in
  let run := _fetch_slack_reminders_as_events env token s in
  run.2 = after_fetch env token s /\
  (forall msg, out.2 = Some msg -> msg <> "" -> run.1 = Ok ([], Some msg)) /\
  (out.2 = None ->
     match run.1 with
     | Ok (events, err) =>
         err = None /\ Forall2 event_of (List.filter eligible out.1) events
     | Raise e =>
         exists r, r ∈ out.1 /\ eligible r = true /\ _ts_to_iso_local (time_of r) = Raise e
     end).
Proof.
  intros out run. subst out run. rewrite fetch_events_run.
  destruct (listing _ _ _) as [rs err]. simpl. split; [done|]. split.
  - intros msg -> Hmsg. by rewrite str_truthy_message.
  - intros ->. simpl.
    pose proof (normalize_shape rs) as H.
    destruct (normalize rs) as [events|e]; simpl; [|done]. by destruct H as [_ H].
Qed.

(** ** The calendar page without a token *)

Global Instance silent_refl : Reflexive silent.
Proof. by intros s. Qed.

Global Instance silent_trans : Transitive silent.
Proof. intros s1 s2 s3 H1 H2. unfold silent in *. congruence. Qed.

Lemma quiet_silent {A} (m : UI A) : always quiet m -> always silent m.
Proof. intros H s. by destruct (H s). Qed.

Lemma emit_silent e : always silent (emit e).
Proof. by intros s. Qed.

Lemma session_get_silent k : always silent (session_get k).
Proof. by intros s. Qed.

Lemma session_set_silent k v : always silent (session_set k v).
Proof. by intros s. Qed.

Lemma fetch_for_view_keeps env token k :
  k <> "slack_events" -> always (keeps k) (fetch_for_view env token).
Proof.
  intros Hne. unfold fetch_for_view.
  apply always_bind; [apply _ | apply fetch_events_keeps | intros [events err]].
  destruct (str_truthy err).
  - apply always_bind; [apply _ | apply emit_keeps | by intros].
  - apply always_bind; [apply _ | by apply session_set_keeps | by intros].
Qed.

Lemma calendar_right_keeps env k :
  k <> "slack_events" -> always (keeps k) (calendar_right env).
Proof.
  intros Hne. unfold calendar_right.
  apply always_bind; [apply _ | | intros [token events]].
  - unfold choose_events.
    apply always_bind; [apply _ | done | intros stored].
    apply always_bind; [apply _ | done | intros flag].
    apply always_bind; [apply _ | | done].
    destruct (_ && _); [by apply fetch_for_view_keeps|].
    apply always_bind; [apply _ | done | intros cached].
    destruct (isinstance_list cached); [done|].
    destruct (truthy _); [by apply fetch_for_view_keeps | done].
  - apply always_bind; [apply _ | | intros; apply emit_keeps].
    apply always_when; [apply _ | apply emit_keeps].
Qed.

(** X6. The calendar page stores the text of its token input in the session
    under [slack_token] in every cycle, in place of whatever another page
    had stored there; that text is what the user typed or, when nothing was
    typed, the looked-up token, and does not depend on the session. *)
Theorem calendar_replaces_stored_token (env : environment) (g : gestures) (s : ui_state) :
  calendar_component env = true ->
  session (render_calendar env g s).2 !! "slack_token"
    = Some (VStr (token_input env g)) /\
  (forall t, typed g "Slack user token (xoxp-/xoxc-)" = Some t -> token_input env g = t) /\
  (typed g "Slack user token (xoxp-/xoxc-)" = None ->
     token_input env g = py_str (py_or (_get_slack_user_token env) (VStr ""))).
Proof.
  intros Hcomp. split.
  - unfold render_calendar. rewrite Hcomp. simpl. unfold ui_bind.
    pose proof (calendar_left_token env g s) as Ht.
    destruct (calendar_left env g s) as [[[]|e] s1]; simpl in *; [|done].
    by rewrite (calendar_right_keeps env "slack_token").
  - unfold token_input, st_text_input. split; [by intros t ->|]. by intros ->.
Qed.

Lemma sync_action_empty env : always silent (sync_action env "").
Proof. by intros s. Qed.

Lemma calendar_left_no_token env g :
  token_input env g = "" -> always silent (calendar_left env g).
Proof.
  intros Htok. unfold calendar_left. fold (token_input env g). rewrite Htok.
  apply always_bind; [apply _ | apply session_set_silent | intros _].
  apply always_bind; [apply _ | apply quiet_silent, refresh_controls_quiet | intros _].
  apply always_when; [apply _ | apply sync_action_empty].
Qed.

Lemma choose_events_no_token env s :
  session s !! "slack_token" = Some (VStr "") ->
  truthy (_get_slack_user_token env) = false ->
  choose_events env s
  = (Ok (_get_slack_user_token env,
         if isinstance_list (default VNone (session s !! "slack_events"))
         then default VNone (session s !! "slack_events") else VList []), s).
Proof.
  intros Hs Hl. unfold choose_events. rewrite !bind_session_get, Hs. simpl.
  unfold py_or. simpl. rewrite Hl, andb_false_r.
  unfold ui_bind at 1. rewrite bind_session_get.
  by destruct (isinstance_list _).
Qed.

Lemma calendar_right_no_token env s :
  session s !! "slack_token" = Some (VStr "") ->
  truthy (_get_slack_user_token env) = false ->
  let events := if isinstance_list (default VNone (session s !! "slack_events"))
                then default VNone (session s !! "slack_events") else VList [] in
  calendar_right env s
  = (Ok tt, {| session := session s; calls := calls s;
               screen := (screen s ++ if negb (truthy events) then [token_prompt] else [])
                         ++ [StCalendar events] |}).
Proof.
  intros Hs Hl events. unfold calendar_right. unfold ui_bind at 1.
  rewrite (choose_events_no_token env s Hs Hl). fold events.
  unfold ui_bind, when, emit, ui_ret. rewrite Hl. simpl.
  destruct (negb (truthy events)); simpl; [done|]. by rewrite app_nil_r.
Qed.

(** X7. Without a token (nothing in the token input and nothing looked up)
    the calendar page never calls Slack, whatever the session holds and
    whatever is pressed; and when the session holds no cached list either
    and the sync button is not pressed, the cycle returns, prompts for a
    token and hands the calendar an empty list. *)
Theorem calendar_without_token (env : environment) (g : gestures) (s : ui_state) :
  token_input env g = "" ->
  truthy (_get_slack_user_token env) = false ->
  let run := render_calendar env g s in
  calls run.2 = calls s /\
  (calendar_component env = true -> checkbox_unused s ->
   clicked g "Sync from Slack" = false -> no_cache s ->
     run.1 = Ok tt /\
     exists shown, screen run.2 = shown ++ [token_prompt; StCalendar (VList [])]).
Proof.
  intros Htok Hl run. subst run. unfold render_calendar.
  destruct (calendar_component env) eqn:Hcomp; simpl; [|done].
  unfold ui_bind.
  pose proof (calendar_left_no_token env g Htok s) as Hsil.
  pose proof (calendar_left_token env g s) as Ht. rewrite Htok in Ht.
  pose proof (calendar_left_returns env g s) as Hret.
  destruct (calendar_left env g s) as [r s1] eqn:Hleft. simpl in *.
  destruct r as [[]|e].
  2:{ split; [done|]. intros _ Hu Hnp _. by specialize (Hret Hnp Hu). }
  rewrite (calendar_right_no_token env s1 Ht Hl). simpl.
  split; [done|]. intros _ Hu Hnp Hnc.
  pose proof (calendar_left_quiet env g Hnp s) as (_ & Hev & _).
  rewrite Hleft in Hev. simpl in Hev. unfold no_cache in Hnc.
  rewrite Hev, Hnc. simpl. split; [done|].
  exists (screen s1). by rewrite <- app_assoc.
Qed.

(** ** The calendar page when it fetches *)

Lemma calendar_left_idle env g s :
  clicked g "Sync from Slack" = false -> checkbox_unused s ->
  exists s1,
    calendar_left env g s = (Ok tt, s1) /\ quiet s s1 /\
    session s1 !! "slack_token" = Some (VStr (token_input env g)).
Proof.
  intros Hnp Hu.
  pose proof (calendar_left_returns env g s Hnp Hu) as Hret.
  pose proof (calendar_left_quiet env g Hnp s) as Hq.
  pose proof (calendar_left_token env g s) as Ht.
  destruct (calendar_left env g s) as [r s1]. simpl in *. subst r. by exists s1.
Qed.

Lemma fetch_for_view_run env token s :
  fetch_for_view env token s
  = match listing env (py_str token) (List.length (calls s)) with
    | (rs, err) =>
        if str_truthy err
        then (Ok (VList []),
              {| session := session s;
                 calls := calls s ++ (if slack_sdk env then [ListCall (py_str token)] else []);
                 screen := screen s ++ [StWarning (default "" err)] |})
        else match normalize rs with
             | Ok events =>
                 (Ok (VList events),
                  {| session := <["slack_events" := VList events]> (session s);
                     calls := calls s ++ (if slack_sdk env then [ListCall (py_str token)] else []);
                     screen := screen s |})
             | Raise e => (Raise e, after_fetch env (py_str token) s)
             end
    end.
Proof.
  unfold fetch_for_view. unfold ui_bind at 1. rewrite fetch_events_run.
  destruct (listing _ _ _) as [rs err]. destruct (str_truthy err) eqn:He.
  - by rewrite He.
  - by destruct (normalize rs).
Qed.

Lemma sync_action_succeeded env token s events :
  token <> "" ->
  (listing env token (List.length (calls s))).2 = None ->
  normalize (listing env token (List.length (calls s))).1 = Ok events ->
  sync_action env token s
  = (Ok tt, {| session := <["slack_events" := VList events]> (session s);
               calls := calls s ++ (if slack_sdk env then [ListCall token] else []);
               screen := screen s ++
                 [StSuccess ("Loaded " +:+ Z_to_string (Z.of_nat (List.length events))
                             +:+ " reminder(s) from Slack.")] |}).
Proof.
  intros Htok Herr Hn. unfold sync_action.
  destruct (String.eqb_spec token ""); [done|].
  unfold ui_bind at 1. rewrite fetch_events_run.
  destruct (listing _ _ _) as [rs err]. simpl in *. subst err. simpl. by rewrite Hn.
Qed.

(** X8. With auto-refresh on and a token, a render cycle of the calendar page
    fetches again although a cached list may exist. A fetch that works
    overwrites the cache and is what the calendar shows; a fetch that fails
    shows its message as a warning and hands the calendar an empty list,
    not the cached one, while the cache itself stays in the session. *)
Theorem auto_refresh_refetches (env : environment) (g : gestures) (s : ui_state) :
  calendar_component env = true -> checkbox_unused s ->
  clicked g "Sync from Slack" = false ->
  truthy (default VNone (session s !! "slack_auto_refresh")) = true ->
  truthy (token_in_use env g) = true ->
  let tok := py_str (token_in_use env g) in
  let out := listing env tok (List.length (calls s)) in
  let run := render_calendar env g s in
  calls run.2 = calls s ++ (if slack_sdk env then [ListCall tok] else []) /\
  (forall msg, out.2 = Some msg -> msg <> "" ->
     run.1 = Ok tt /\
     StWarning msg ∈ screen run.2 /\
     last (screen run.2) = Some (StCalendar (VList [])) /\
     session run.2 !! "slack_events" = session s !! "slack_events") /\
  (forall events, out.2 = None -> normalize out.1 = Ok events ->
     run.1 = Ok tt /\
     session run.2 !! "slack_events" = Some (VList events) /\
     last (screen run.2) = Some (StCalendar (VList events))).
Proof.
  intros Hcomp Hu Hnp Hon Htok tok out run.
  destruct (calendar_left_idle env g s Hnp Hu) as (s1 & Hleft & (Hc & Hev & Hflag) & Ht).
  assert (Hright : calendar_right env s1
    = let '(r, s2) := fetch_for_view env (token_in_use env g) s1 in
      match r with
      | Ok events => (Ok tt, {| session := session s2; calls := calls s2;
                                screen := screen s2 ++ [StCalendar events] |})
      | Raise e => (Raise e, s2)
      end).
  { unfold calendar_right, choose_events. unfold ui_bind at 1.
    rewrite !bind_session_get, Ht. simpl. fold (token_in_use env g).
    rewrite Hflag, Hon, Htok. simpl. unfold ui_bind at 1.
    destruct (fetch_for_view env (token_in_use env g) s1) as [[events|e] s2]; [|done].
    unfold ui_bind, ui_ret, when, emit. rewrite Htok. by simpl. }
  assert (Hrun : run = let '(r, s2) := fetch_for_view env (token_in_use env g) s1 in
      match r with
      | Ok events => (Ok tt, {| session := session s2; calls := calls s2;
                                screen := screen s2 ++ [StCalendar events] |})
      | Raise e => (Raise e, s2)
      end).
  { subst run. unfold render_calendar. rewrite Hcomp. simpl. unfold ui_bind at 1.
    by rewrite Hleft. }
  rewrite Hrun, fetch_for_view_run. fold tok. rewrite Hc. fold out.
  clear Hrun Hright. destruct out as [rs err]. simpl.
  destruct err as [msg|]; simpl.
  - destruct (String.eqb_spec msg "") as [->|Hne]; simpl.
    + destruct (normalize rs); simpl; rewrite ?Hc; (split; [done|]);
        (split; [by intros ? [= <-] ? | by intros ? [=]]).
    + split; [done|]. split; [|by intros].
      intros ? [= <-] _. split; [done|]. split.
      * rewrite !elem_of_app. left. right. by apply list_elem_of_singleton.
      * by rewrite last_snoc.
  - destruct (normalize rs) as [events|e]; simpl.
    + split; [done|]. split; [by intros|].
      intros ? _ [= <-]. split; [done|]. rewrite lookup_insert_eq.
      split; [done|]. by rewrite last_snoc.
    + rewrite Hc. split; [done|]. split; by intros.
Qed.

Lemma calendar_left_synced env g s events :
  clicked g "Sync from Slack" = true -> checkbox_unused s ->
  token_input env g <> "" ->
  (listing env (token_input env g) (List.length (calls s))).2 = None ->
  normalize (listing env (token_input env g) (List.length (calls s))).1 = Ok events ->
  exists s1,
    calendar_left env g s = (Ok tt, s1) /\
    calls s1 = calls s ++ (if slack_sdk env then [ListCall (token_input env g)] else []) /\
    session s1 !! "slack_events" = Some (VList events) /\
    truthy (default VNone (session s1 !! "slack_auto_refresh"))
      = truthy (default VNone (session s !! "slack_auto_refresh")) /\
    StSuccess ("Loaded " +:+ Z_to_string (Z.of_nat (List.length events))
               +:+ " reminder(s) from Slack.") ∈ screen s1.
Proof.
  intros Hp Hu Htok Herr Hn.
  set (s0 := {| session := <["slack_token":=VStr (token_input env g)]> (session s);
                calls := calls s; screen := screen s |}).
  assert (Heq : calendar_left env g s
                = match refresh_controls env s0 with
                  | (Ok _, s1) => sync_action env (token_input env g) s1
                  | (Raise e, s1) => (Raise e, s1)
                  end).
  { unfold calendar_left, st_button. rewrite Hp. reflexivity. }
  rewrite Heq.
  pose proof (refresh_controls_quiet env s0) as (Hq1 & Hq2 & Hq3).
  pose proof (refresh_controls_returns env s0 Hu) as Hret.
  destruct (refresh_controls env s0) as [r s1]. simpl in Hq1, Hq2, Hq3, Hret. subst r.
  rewrite lookup_insert_ne in Hq3 by done.
  rewrite <- Hq1 in Herr, Hn.
  rewrite (sync_action_succeeded env _ s1 events Htok Herr Hn).
  eexists. split; [reflexivity|]. simpl. rewrite Hq1, lookup_insert_eq.
  split; [done|]. split; [done|]. rewrite lookup_insert_ne by done.
  split; [done|]. rewrite elem_of_app. right. by apply list_elem_of_singleton.
Qed.

(** X9. With auto-refresh off, a press on the sync button with a token whose
    fetch works makes exactly the one call of that fetch: the events are
    stored as the cache, their number is announced, and the calendar of the
    same cycle shows them from the cache without a second call. *)
Theorem sync_loads_cache (env : environment) (g : gestures) (s : ui_state)
    (events : list value) :
  calendar_component env = true -> checkbox_unused s ->
  clicked g "Sync from Slack" = true -> token_input env g <> "" ->
  auto_refresh_off s ->
  (listing env (token_input env g) (List.length (calls s))).2 = None ->
  normalize (listing env (token_input env g) (List.length (calls s))).1 = Ok events ->
  let run := render_calendar env g s in
  run.1 = Ok tt /\
  calls run.2 = calls s ++ (if slack_sdk env then [ListCall (token_input env g)] else []) /\
  session run.2 !! "slack_events" = Some (VList events) /\
  StSuccess ("Loaded " +:+ Z_to_string (Z.of_nat (List.length events))
             +:+ " reminder(s) from Slack.") ∈ screen run.2 /\
  last (screen run.2) = Some (StCalendar (VList events)).
Proof.
  intros Hcomp Hu Hp Htok Hoff Herr Hn run.
  destruct (calendar_left_synced env g s events Hp Hu Htok Herr Hn)
    as (s1 & Hleft & Hc & Hev & Hflag & Hscr).
  destruct (calendar_right_cached env s1 events) as [info Hright]; [|done|].
  { unfold auto_refresh_off in *. congruence. }
  assert (Hrun : run = (Ok tt, {| session := session s1; calls := calls s1;
                 screen := (screen s1 ++ info) ++ [StCalendar (VList events)] |})).
  { subst run. unfold render_calendar. rewrite Hcomp. simpl. unfold ui_bind.
    by rewrite Hleft, Hright. }
  rewrite Hrun. simpl. split; [done|]. split; [done|]. split; [done|]. split.
  - rewrite !elem_of_app. by left; left.
  - by rewrite last_snoc.
Qed.

(** ** The status page *)

Lemma render_status_no_token env g s :
  status_token env s = "" ->
  render_status env g s
  = (Ok tt, {| session := with_status_token env s; calls := calls s;
               screen := screen s ++ [StInfo "Add `SLACK_USER_TOKEN` (or paste a token above) to load your reminders."] |}).
Proof.
  intros Htok. unfold render_status, with_status_token.
  rewrite bind_session_get. unfold ui_bind at 1. unfold st_text_input_keyed at 1.
  cbn [session]. fold (status_token env s). rewrite Htok.
  reflexivity.
Qed.

Lemma render_status_fetch_error env g s msg :
  status_token env s <> "" ->
  (listing env (status_token env s) (List.length (calls s))).2 = Some msg -> msg <> "" ->
  render_status env g s
  = (Ok tt, {| session := with_status_token env s;
               calls := calls s ++ (if slack_sdk env
                                    then [ListCall (status_token env s)] else []);
               screen := screen s ++ [StError msg] |}).
Proof.
  intros Htok Herr Hmsg. unfold render_status, with_status_token.
  rewrite bind_session_get. unfold ui_bind at 1. unfold st_text_input_keyed at 1.
  cbn [session]. fold (status_token env s).
  unfold ui_bind at 1. cbn [session_set].
  destruct (String.eqb_spec (status_token env s) ""); [done|].
  unfold ui_bind at 1. rewrite fetch_reminders_run. cbn [calls].
  destruct (listing _ _ _) as [rs err]. simpl in Herr. subst err.
  by rewrite str_truthy_message.
Qed.

Lemma render_status_empty env g s :
  status_token env s <> "" ->
  listing env (status_token env s) (List.length (calls s)) = ([], None) ->
  render_status env g s
  = (Ok tt, {| session := with_status_token env s;
               calls := calls s ++ (if slack_sdk env
                                    then [ListCall (status_token env s)] else []);
               screen := screen s ++ [StInfo "No reminders found in Slack."] |}).
Proof.
  intros Htok Hl. unfold render_status, with_status_token.
  rewrite bind_session_get. unfold ui_bind at 1. unfold st_text_input_keyed at 1.
  cbn [session]. fold (status_token env s).
  unfold ui_bind at 1. cbn [session_set].
  destruct (String.eqb_spec (status_token env s) ""); [done|].
  unfold ui_bind at 1. rewrite fetch_reminders_run. cbn [calls]. by rewrite Hl.
Qed.

(** X10. The status page stops early in three cases, each time after storing
    the text of its token input in the session under [slack_token]: with an
    empty token it asks for one and calls nothing; when the listing fails it
    shows the error of the client and nothing else; when Slack has no
    reminder it says so. In none of them a checkbox is put on the page or a
    reminder completed, whatever is pressed. *)
Theorem status_page_stops_early (env : environment) (g : gestures) (s : ui_state) :
  let token := status_token env s in
  let out := listing env token (List.length (calls s)) in
  let run := render_status env g s in
  let listed := calls s ++ (if slack_sdk env then [ListCall token] else []) in
  (token = "" ->
     run.1 = Ok tt /\ calls run.2 = calls s /\
     session run.2 !! "slack_token" = Some (VStr "") /\
     screen run.2 = screen s ++ [StInfo "Add `SLACK_USER_TOKEN` (or paste a token above) to load your reminders."]) /\
  (forall msg, token <> "" -> out.2 = Some msg -> msg <> "" ->
     run.1 = Ok tt /\ calls run.2 = listed /\
     session run.2 !! "slack_token" = Some (VStr token) /\
     screen run.2 = screen s ++ [StError msg]) /\
  (token <> "" -> out = ([], None) ->
     run.1 = Ok tt /\ calls run.2 = listed /\
     session run.2 !! "slack_token" = Some (VStr token) /\
     screen run.2 = screen s ++ [StInfo "No reminders found in Slack."]).
Proof.
  intros token out run listed. subst token out run listed. split; [|split].
  - intros Htok. rewrite (render_status_no_token env g s Htok). simpl.
    unfold with_status_token. rewrite lookup_insert_eq, Htok. done.
  - intros msg Htok Herr Hmsg.
    rewrite (render_status_fetch_error env g s msg Htok Herr Hmsg). simpl.
    unfold with_status_token. by rewrite lookup_insert_eq.
  - intros Htok Hl. rewrite (render_status_empty env g s Htok Hl). simpl.
    unfold with_status_token. by rewrite lookup_insert_eq.
Qed.

Global Instance adds_where_refl Q : Reflexive (adds_where Q).
Proof. intros s. exists []. by rewrite app_nil_r. Qed.

Global Instance adds_where_trans Q : Transitive (adds_where Q).
Proof.
  intros s1 s2 s3 (n1 & H1 & F1) (n2 & H2 & F2). exists (n1 ++ n2).
  split; [by rewrite H2, H1, app_assoc | by apply Forall_app_2].
Qed.

Lemma silent_adds_where {A} Q (m : UI A) : always silent m -> always (adds_where Q) m.
Proof. intros H s. exists []. by rewrite (H s), app_nil_r. Qed.

Lemma flag_key_inj (rid rid' : string) :
  "status_done_" +:+ rid = "status_done_" +:+ rid' -> rid = rid'.
Proof. apply append_cancel_l. Qed.

Lemma flags_same_insert_other (s : ui_state) k v scr :
  (forall rid, k <> "status_done_" +:+ rid) ->
  flags_same s {| session := <[k:=v]> (session s); calls := calls s; screen := scr |}.
Proof. intros Hk rid. unfold ticked_flag. simpl. by rewrite lookup_insert_ne. Qed.

(** One row of the to-do list: it makes no call, changes no flag, and adds
    the id of its reminder to the selection only when that reminder is
    ticked. *)
Lemma todo_row_step (r : dict) (acc : bool * list string) (s : ui_state) :
  let run := todo_row r acc s in
  calls run.2 = calls s /\ flags_same s run.2 /\
  forall acc', run.1 = Ok acc' ->
    acc' = acc \/
    exists rid, dict_get r "id" = VStr rid /\ ticked_flag s rid = true /\
                acc' = (true, acc.2 ++ [rid]).
Proof.
  intros run. subst run.
  set (Post := fun run : result (bool * list string) * ui_state =>
    calls run.2 = calls s /\ flags_same s run.2 /\
    forall acc', run.1 = Ok acc' ->
      acc' = acc \/
      exists rid, dict_get r "id" = VStr rid /\ ticked_flag s rid = true /\
                  acc' = (true, acc.2 ++ [rid])).
  change (Post (todo_row r acc s)).
  assert (Hskip : Post (Ok acc, s)).
  { split; [done|]. split; [done|]. intros ? [= <-]. by left. }
  assert (Hraise : forall e, Post (Raise e, s)).
  { intros e. split; [done|]. split; [done|]. by intros. }
  destruct acc as [any sel]. unfold todo_row.
  destruct (dict_get r "id") as [| | | |rid| |] eqn:Hid; try exact Hskip.
  destruct (String.eqb rid ""); [exact Hskip|].
  unfold ui_bind at 1.
  match goal with |- context [(if ?b then ?m1 else ?m2) s] =>
    assert (Hw : exists w, (if b then m1 else m2) s = (w, s))
      by (destruct b; unfold ui_lift, ui_ret; eauto);
    destruct Hw as [w ->] end.
  destruct w as [when_|e]; [|apply Hraise].
  unfold ui_bind, st_checkbox.
  destruct (existsb _ _); [apply Hraise|].
  assert (Hflag : match session s !! ("status_done_" +:+ rid) with
                  | Some v => truthy v | None => false end = ticked_flag s rid).
  { unfold ticked_flag. by destruct (session s !! _). }
  rewrite Hflag.
  assert (Hsame : forall scr,
    flags_same s {| session := <["status_done_" +:+ rid := VBool (ticked_flag s rid)]> (session s);
                    calls := calls s; screen := scr |}).
  { intros scr rid'. unfold ticked_flag at 1. simpl.
    destruct (decide (rid' = rid)) as [->|Hne].
    - by rewrite lookup_insert_eq.
    - rewrite lookup_insert_ne; [done|]. intros Heq. by apply flag_key_inj in Heq. }
  destruct (ticked_flag s rid) eqn:Ht; simpl.
  - split; [done|]. split; [apply Hsame|].
    intros ? [= <-]. right. by exists rid.
  - split; [done|]. split; [apply Hsame|].
    intros ? [= <-]. by left.
Qed.

Lemma todo_rows_selected (l : list dict) : forall acc s,
  let run := for_each l acc todo_row s in
  calls run.2 = calls s /\ flags_same s run.2 /\
  forall any sel, run.1 = Ok (any, sel) ->
    ((acc.1 = true <-> acc.2 <> []) -> (any = true <-> sel <> [])) /\
    forall rid, rid ∈ sel ->
      rid ∈ acc.2 \/
      (ticked_flag s rid = true /\ exists r, r ∈ l /\ dict_get r "id" = VStr rid).
Proof.
  induction l as [|r l IH]; intros acc s run; subst run.
  - simpl. split; [done|]. split; [done|]. intros any sel [= ->]. split; [done|]. by left.
  - pose proof (todo_row_step r acc s) as (Hc & Hf & Hacc).
    assert (Hrun : for_each (r :: l) acc todo_row s
                   = match todo_row r acc s with
                     | (Ok acc1, s1) => for_each l acc1 todo_row s1
                     | (Raise e, s1) => (Raise e, s1)
                     end) by reflexivity.
    rewrite Hrun. clear Hrun.
    destruct (todo_row r acc s) as [[acc1|e] s1]; simpl in Hc, Hf, Hacc;
      [|simpl; split; [done|]; split; [done|]; by intros].
    specialize (IH acc1 s1). simpl in IH. destruct IH as (Hc2 & Hf2 & Hsel).
    split; [congruence|]. split.
    { intros rid. by rewrite Hf2, Hf. }
    intros any sel Hrun. destruct (Hsel any sel Hrun) as [Hany Hin].
    destruct (Hacc acc1 eq_refl) as [->|(rid0 & Hid & Ht & ->)].
    + split; [done|]. intros rid Hr. destruct (Hin rid Hr) as [?|(Ht & r' & Hr' & Hid')].
      * by left.
      * right. rewrite <- Hf. split; [done|]. exists r'.
        split; [apply elem_of_cons; by right | done].
    + split.
      * intros _. apply Hany. simpl. split; [by intros _; destruct (acc.2) | done].
      * intros rid Hr. destruct (Hin rid Hr) as [Hr0|(Ht' & r' & Hr' & Hid')].
        -- simpl in Hr0. apply elem_of_app in Hr0 as [?|Hr0]; [by left|].
           apply list_elem_of_singleton in Hr0 as ->. right. split; [done|].
           exists r. split; [apply elem_of_cons; by left | done].
        -- right. rewrite <- Hf. split; [done|]. exists r'.
           split; [apply elem_of_cons; by right | done].
Qed.

Lemma complete_selected_calls env token ids s :
  calls (complete_selected env token ids s).2
  = calls s ++ (if slack_sdk env then map (CompleteCall token) ids else []).
Proof.
  unfold complete_selected. unfold ui_bind at 1. rewrite complete_loop_run.
  unfold ui_bind, when, emit, st_rerun, ui_raise.
  by destruct (collected_errors _ _ _ _).
Qed.

Lemma for_each_emit_silent {A} (l : list A) (f : A -> element) :
  always silent (for_each l tt (fun x _ => emit (f x))).
Proof. apply always_for_each; [apply _ | apply _ |]. intros x acc. apply emit_silent. Qed.

(** The rows, the buttons and the completed list of the status page, from a
    state [s2] reached in a cycle that started in [s]. *)
Lemma status_rows_calls env g s (incomplete complete : list dict) (s2 : ui_state) :
  flags_same s s2 ->
  (forall r, r ∈ incomplete ->
     r ∈ (listing env (status_token env s) (List.length (calls s))).1 /\
     is_complete r = false) ->
  adds_where (status_call env g s) s2
    ((emit (StMarkdown "#### To do") >>
      let* (any_selected, selected_ids) := for_each incomplete (false, []) todo_row in
      when (st_button g "Mark selected as completed" (negb any_selected))
        (complete_selected env (status_token env s) selected_ids) >>
      when (st_button g "Refresh" false) st_rerun >>
      when (match complete with [] => false | _ => true end)
        (emit (StMarkdown "#### Completed") >>
         let* _ := for_each complete tt (fun r _ =>
           emit (StMarkdown ("- ~~"
             +:+ py_str (py_or (dict_get r "text") (VStr "Reminder"))
             +:+ "~~"))) in
         ui_ret tt)) s2).2.
Proof.
  intros Hflags Hinc.
  unfold ui_bind at 1. cbn [emit].
  set (s3 := {| session := session s2; calls := calls s2;
                screen := screen s2 ++ [StMarkdown "#### To do"] |}).
  unfold ui_bind at 1.
  pose proof (todo_rows_selected incomplete (false, []) s3) as (Hc & Hf & Hsel).
  destruct (for_each incomplete (false, []) todo_row s3) as [[[any sel]|e] s4];
    simpl in Hc, Hf, Hsel.
  2:{ exists []. simpl. by rewrite Hc, app_nil_r. }
  destruct (Hsel any sel eq_refl) as [_ Hin].
  assert (Htail : adds_where (status_call env g s) s4
    ((when (st_button g "Mark selected as completed" (negb any))
        (complete_selected env (status_token env s) sel) >>
      when (st_button g "Refresh" false) st_rerun >>
      when (match complete with [] => false | _ => true end)
        (emit (StMarkdown "#### Completed") >>
         let* _ := for_each complete tt (fun r _ =>
           emit (StMarkdown ("- ~~"
             +:+ py_str (py_or (dict_get r "text") (VStr "Reminder"))
             +:+ "~~"))) in
         ui_ret tt)) s4).2).
  { apply always_bind; [apply _ | | intros _].
    - unfold st_button. destruct (clicked g "Mark selected as completed") eqn:Hp;
        [|apply always_ret; apply _].
      destruct (negb (negb any)); [|apply always_ret; apply _]. simpl.
      intros s5. unfold adds_where.
      eexists. split; [apply complete_selected_calls|].
      destruct (slack_sdk env); [|constructor].
      apply Forall_forall. intros c Hcin. apply list_elem_of_In, in_map_iff in Hcin.
      destruct Hcin as (rid & <- & Hrid). apply list_elem_of_In in Hrid.
      destruct (Hin rid Hrid) as [Hnil|(Ht & r & Hr & Hid)];
        [by apply elem_of_nil in Hnil|].
      right. exists rid. split; [done|]. split; [done|].
      split; [rewrite <- Hflags; exact Ht|].
      exists r. destruct (Hinc r Hr). done.
    - apply silent_adds_where.
      apply always_bind; [apply _ | | intros _].
      + apply always_when; [apply _ | by intros s5].
      + apply always_when; [apply _|].
        apply always_bind; [apply _ | apply emit_silent | intros _].
        apply always_bind; [apply _ | apply for_each_emit_silent | by intros]. }
  destruct Htail as (new & Hnew & HQ). exists new. split; [|done].
  rewrite Hnew, Hc. reflexivity.
Qed.

(** X11. Whatever the session, the gestures and the answers of Slack, the
    calls a cycle of the status page adds are the listing, made with the
    token of its input, and completions made with the same token: a
    completion is made only when the completion button is pressed, and only
    for a reminder whose checkbox is ticked and that is an active reminder
    of the listing. *)
Theorem status_page_calls (env : environment) (g : gestures) (s : ui_state) :
  adds_where (status_call env g s) s (render_status env g s).2.
Proof.
  set (Post := fun run : result unit * ui_state =>
         adds_where (status_call env g s) s run.2).
  change (Post (render_status env g s)).
  unfold render_status.
  rewrite bind_session_get. unfold ui_bind at 1. unfold st_text_input_keyed at 1.
  cbn [session]. fold (status_token env s).
  unfold ui_bind at 1. cbn [session_set].
  set (s1 := {| session := <["slack_token":=VStr (status_token env s)]>
                             (<["status_slack_token":=VStr (status_token env s)]> (session s));
                calls := calls s; screen := screen s |}).
  assert (Hf1 : forall scr cs,
    flags_same s {| session := session s1; calls := cs; screen := scr |}).
  { intros scr cs rid. unfold ticked_flag. simpl.
    rewrite !lookup_insert_ne; [done| |]; intros Heq; simpl in Heq; discriminate Heq. }
  destruct (String.eqb (status_token env s) ""); [by exists []; rewrite app_nil_r|].
  unfold ui_bind at 1. rewrite fetch_reminders_run. cbn [calls s1].
  destruct (listing env (status_token env s) (List.length (calls s))) as [rs err] eqn:Hl.
  assert (Hlisted : adds_where (status_call env g s) s (after_fetch env (status_token env s) s1)).
  { eexists. split; [reflexivity|]. destruct (slack_sdk env); repeat constructor. }
  destruct (str_truthy err); [exact Hlisted|].
  assert (Hin : forall r,
    r ∈ sort_by _rem_time (List.filter (fun r => negb (is_complete r)) rs) ->
    r ∈ (rs, err).1 /\ is_complete r = false).
  { intros r Hr. rewrite sort_by_perm in Hr.
    apply list_elem_of_In, filter_In in Hr as [Hr Hc].
    split; [by apply list_elem_of_In | by apply negb_true_iff]. }
  assert (Hbody : Post
    ((emit (StMarkdown "#### To do") >>
      let* (any_selected, selected_ids) :=
        for_each (sort_by _rem_time (List.filter (fun r => negb (is_complete r)) rs))
          (false, []) todo_row in
      when (st_button g "Mark selected as completed" (negb any_selected))
        (complete_selected env (status_token env s) selected_ids) >>
      when (st_button g "Refresh" false) st_rerun >>
      when (match sort_by_rev _rem_time (List.filter is_complete rs) with
            | [] => false | _ => true end)
        (emit (StMarkdown "#### Completed") >>
         let* _ := for_each (sort_by_rev _rem_time (List.filter is_complete rs)) tt
           (fun r _ =>
             emit (StMarkdown ("- ~~"
               +:+ py_str (py_or (dict_get r "text") (VStr "Reminder"))
               +:+ "~~"))) in
         ui_ret tt)) (after_fetch env (status_token env s) s1))).
  { unfold Post. etrans; [exact Hlisted|].
    apply status_rows_calls; [apply Hf1|]. by rewrite Hl. }
  destruct (List.filter (fun r => negb (is_complete r)) rs) eqn:Hinc,
           (List.filter is_complete rs) eqn:Hcomp; try exact Hbody.
  unfold Post. simpl. destruct Hlisted as (new & Hnew & HQ). by exists new.
Qed.

(** ** File names of the repository *)

Lemma chars_of_chars (l : list ascii) : chars (of_chars l) = l.
Proof. apply list_ascii_of_string_of_list_ascii. Qed.

Lemma filename_char_facts (c : ascii) :
  filename_char c = true ->
  kept_char c = true /\ isspace c = false /\
  c <> "/"%char /\ c <> "\"%char /\ c <> "."%char /\ c <> ascii_of_nat 0.
Proof.
  destruct c as [[] [] [] [] [] [] [] []]; vm_compute; intros H;
    repeat split; (discriminate || done).
Qed.

Lemma kept_not_space (c : ascii) :
  kept_char c = true -> isspace c = false -> filename_char c = true.
Proof. destruct c as [[] [] [] [] [] [] [] []]; vm_compute; intros H1 H2; done. Qed.

Lemma lstrip_sub (P : ascii -> Prop) (l : list ascii) :
  Forall P l -> Forall P (lstrip_chars l).
Proof.
  induction 1 as [|c l Hc Hl IH]; simpl; [constructor|].
  destruct (isspace c); [done | by constructor].
Qed.

Lemma rstrip_sub (P : ascii -> Prop) (l : list ascii) :
  Forall P l -> Forall P (rstrip_chars l).
Proof.
  intros H. unfold rstrip_chars. apply Forall_rev, lstrip_sub. by apply Forall_rev.
Qed.

Lemma split_ws_words (P : ascii -> Prop) (l : list ascii) : forall cur,
  Forall (fun c => P c /\ isspace c = false) cur -> Forall P l ->
  Forall (fun w => w <> "" /\ Forall (fun c => P c /\ isspace c = false) (chars w))
         (split_ws cur l).
Proof.
  assert (Hword : forall cur,
    cur <> [] -> Forall (fun c => P c /\ isspace c = false) cur ->
    of_chars (rev cur) <> "" /\
    Forall (fun c => P c /\ isspace c = false) (chars (of_chars (rev cur)))).
  { intros cur Hne Hcur. rewrite chars_of_chars. split; [|by apply Forall_rev].
    intros Heq. apply (f_equal chars) in Heq. rewrite chars_of_chars in Heq.
    simpl in Heq. apply (f_equal (@rev ascii)) in Heq. rewrite rev_involutive in Heq.
    done. }
  induction l as [|c l IH]; intros cur Hcur Hl; simpl.
  - destruct cur; [constructor|]. constructor; [by apply Hword | constructor].
  - inversion Hl as [|? ? Hc Hl']; subst.
    destruct (isspace c) eqn:Hs.
    + destruct cur as [|c0 cur]; [by apply IH|].
      constructor; [by apply Hword | by apply IH].
    + apply IH; [|done]. by constructor.
Qed.

Lemma join_chars (Q : ascii -> Prop) (sep : string) (ws : list string) :
  Forall Q (chars sep) -> Forall (fun w => Forall Q (chars w)) ws ->
  Forall Q (chars (join sep ws)).
Proof.
  intros Hsep. induction 1 as [|w ws Hw Hws IH]; [constructor|].
  destruct ws as [|w' ws]; [done|].
  change (join sep (w :: w' :: ws)) with (w +:+ sep +:+ join sep (w' :: ws)).
  rewrite !chars_app. by repeat apply Forall_app_2.
Qed.

Lemma join_nonempty (sep : string) (ws : list string) :
  Forall (fun w => w <> "") ws -> ws <> [] -> join sep ws <> "".
Proof.
  intros Hws Hne. destruct ws as [|w ws]; [done|].
  inversion Hws as [|? ? Hw _]; subst.
  destruct ws as [|w' ws]; [done|].
  change (join sep (w :: w' :: ws)) with (w +:+ sep +:+ join sep (w' :: ws)).
  destruct w; [done | discriminate].
Qed.

Lemma lstrip_no_space (l : list ascii) :
  Forall (fun c => isspace c = false) l -> lstrip_chars l = l.
Proof. destruct 1 as [|c l Hc _]; simpl; [done|]. by rewrite Hc. Qed.

Lemma split_ws_no_space (l : list ascii) : forall cur,
  Forall (fun c => isspace c = false) l ->
  split_ws cur l = match rev cur ++ l with [] => [] | w => [of_chars w] end.
Proof.
  induction l as [|c l IH]; intros cur Hl; simpl.
  - rewrite app_nil_r. destruct cur as [|c0 cur]; [done|].
    destruct (rev (c0 :: cur)) eqn:Hr; [|done].
    apply (f_equal (@rev ascii)) in Hr. by rewrite rev_involutive in Hr.
  - inversion Hl as [|? ? Hc Hl']; subst. rewrite Hc, IH by done.
    simpl. by rewrite <- app_assoc.
Qed.

(** A name made of file-name characters goes through unchanged. *)
Lemma safe_filename_fixed (name : string) :
  name <> "" -> all_chars filename_char name -> _safe_filename name = name.
Proof.
  intros Hne Hall. unfold all_chars in Hall. unfold _safe_filename.
  assert (Hkeep : List.filter kept_char (chars name) = chars name).
  { induction Hall as [|c l Hc _ IH]; simpl; [done|].
    destruct (filename_char_facts c Hc) as (-> & _). by rewrite IH. }
  assert (Hns : Forall (fun c => isspace c = false) (chars name)).
  { eapply Forall_impl; [exact Hall|]. intros c Hc.
    by destruct (filename_char_facts c Hc) as (_ & ? & _). }
  assert (Hstrip : strip (of_chars (chars name)) = name).
  { unfold strip. rewrite chars_of_chars, lstrip_no_space by done.
    unfold rstrip_chars. rewrite lstrip_no_space by (by apply Forall_rev).
    by rewrite rev_involutive, of_chars_chars. }
  rewrite Hkeep, Hstrip. unfold split. rewrite split_ws_no_space by done. simpl.
  destruct (chars name) eqn:Hc.
  { exfalso. apply Hne. apply chars_inj. by rewrite Hc. }
  cbn [join String.eqb].
  change (String a (of_chars l)) with (of_chars (a :: l)).
  by rewrite <- Hc, of_chars_chars.
Qed.

Lemma safe_filename_core (name : string) :
  _safe_filename name <> "" /\ all_chars filename_char (_safe_filename name).
Proof.
  unfold _safe_filename.
  set (cleaned := strip (of_chars (List.filter kept_char (chars name)))).
  destruct (String.eqb_spec (join "_" (split cleaned)) "") as [_|Hne].
  { split; [done|]. unfold all_chars. vm_compute. repeat constructor. }
  split; [done|]. unfold all_chars.
  assert (Hk : Forall (fun c => kept_char c = true) (chars cleaned)).
  { unfold cleaned, strip. rewrite chars_of_chars, chars_of_chars.
    apply rstrip_sub, lstrip_sub. apply Forall_forall. intros c Hc.
    by apply list_elem_of_In, filter_In in Hc as [_ ?]. }
  apply join_chars; [vm_compute; repeat constructor|].
  pose proof (split_ws_words _ (chars cleaned) [] (List.Forall_nil _) Hk) as Hw.
  unfold split. eapply Forall_impl; [exact Hw|]. intros w [_ Hwc]. simpl.
  eapply Forall_impl; [exact Hwc|]. intros c [? ?]. by apply kept_not_space.
Qed.

(** X12. The name [_safe_filename] gives is never empty and holds letters,
    digits, hyphens and underscores only, so no white space, no path
    separator and no dot whatever the title; a name of that kind is left
    unchanged, so sanitizing twice is sanitizing once. *)
Theorem safe_filename_is_safe (name : string) :
  _safe_filename name <> "" /\
  all_chars filename_char (_safe_filename name) /\
  (forall c, c ∈ chars (_safe_filename name) ->
     isspace c = false /\ c <> "/"%char /\ c <> "\"%char /\ c <> "."%char) /\
  _safe_filename (_safe_filename name) = _safe_filename name.
Proof.
  destruct (safe_filename_core name) as [Hne Hall].
  split; [done|]. split; [done|]. split.
  - intros c Hc. unfold all_chars in Hall. rewrite Forall_forall in Hall.
    destruct (filename_char_facts c (Hall c Hc)) as (_ & ? & ? & ? & ? & _). done.
  - by apply safe_filename_fixed.
Qed.

Lemma all_chars_app p (s t : string) :
  all_chars p s -> all_chars p t -> all_chars p (s +:+ t).
Proof. unfold all_chars. rewrite chars_app. apply Forall_app_2. Qed.

Lemma digits_uint (d : Decimal.uint) : all_chars filename_char (NilEmpty.string_of_uint d).
Proof.
  unfold all_chars.
  induction d; simpl; try (constructor; [reflexivity | assumption]). constructor.
Qed.

Lemma digits_Z (n : Z) : all_chars filename_char (Z_to_string n).
Proof.
  unfold Z_to_string, NilZero.string_of_int, NilZero.string_of_uint.
  destruct (Z.to_int n) as [d|d].
  - destruct d; try apply digits_uint. by repeat constructor.
  - constructor; [reflexivity|]. destruct d; try apply digits_uint. by repeat constructor.
Qed.

Lemma digits_zero_pad (w : nat) (n : Z) : all_chars filename_char (zero_pad w n).
Proof.
  apply all_chars_app; [|apply digits_Z].
  unfold all_chars. induction (w - String.length (Z_to_string n))%nat; simpl;
    constructor; [reflexivity | assumption].
Qed.

Lemma stamp_chars (now : datetime) : all_chars filename_char (strftime_stamp now).
Proof.
  unfold strftime_stamp.
  repeat (apply all_chars_app; [first [apply digits_zero_pad | by repeat constructor]|]).
  apply digits_zero_pad.
Qed.

(** X13. A note is always written straight into the repository directory,
    under a name that ends in [.md]: the name before the extension is not
    empty and holds letters, digits, hyphens and underscores only, so no
    title can make the save leave the directory through a path separator;
    and the save writes that one file and leaves every other file as it
    was. *)
Theorem note_lands_in_repository (files : gmap string string) (now created : datetime)
    (title summary source_type : string) (source_name : option string) :
  let saved := save_summary_to_repository files now created title summary
                 source_type source_name in
  exists stem,
    saved.1 = REPOSITORY_DIR +:+ "/" +:+ stem +:+ ".md" /\
    stem <> "" /\
    all_chars filename_char stem /\
    (forall c, c ∈ chars stem -> c <> "/"%char /\ c <> "\"%char /\ c <> "."%char) /\
    saved.2 !! saved.1 = Some (note_text created title summary source_type source_name) /\
    (forall p, p <> saved.1 -> saved.2 !! p = files !! p).
Proof.
  simpl. exists (strftime_stamp now +:+ "_" +:+ _safe_filename title).
  assert (Hall : all_chars filename_char
                   (strftime_stamp now +:+ "_" +:+ _safe_filename title)).
  { apply all_chars_app; [apply stamp_chars|].
    apply all_chars_app; [by repeat constructor|].
    by destruct (safe_filename_core title). }
  split.
  { unfold note_path, note_filename. apply chars_inj.
    rewrite !chars_app. by rewrite <- !app_assoc. }
  split.
  { intros Heq. apply (f_equal chars) in Heq. rewrite !chars_app in Heq.
    apply app_eq_nil in Heq as [_ Heq]. discriminate Heq. }
  split; [exact Hall|]. split.
  { intros c Hc. unfold all_chars in Hall. rewrite Forall_forall in Hall.
    destruct (filename_char_facts c (Hall c Hc)) as (_ & _ & ? & ? & ? & _). done. }
  split; [apply lookup_insert_eq|].
  intros p Hp. by apply lookup_insert_ne.
Qed.

(** ** The sync utility when it works *)

Lemma sync_normalize_shape (vs : list value) :
  match sync_normalize vs with
  | Ok evs => Forall2 sync_event_of (List.filter eligible (only_dicts vs)) evs
  | Raise e => exists r, VDict r ∈ vs /\ eligible r = true
                 /\ ts_to_iso_local (time_of r) = Raise e
  end.
Proof.
  pose proof (sync_events_loop_spec vs []) as H. unfold sync_normalize.
  destruct (sync_events_loop vs []) as [evs|e]; [|exact H].
  by destruct H as (new & -> & HF).
Qed.

(** X14. With a token and a response of Slack that can be walked over, the
    sync utility writes to the events file the JSON of one event per dict
    record of the response that has an integer time and is not completed,
    in order; it reports exactly that number on standard output, leaves
    every other file alone and ends with status 0. The only other outcome
    is that the rendering of such a record's time raises, and then nothing
    is written. *)
Theorem sync_writes_events (env : environment) (p : process) (token : string)
    (resp : dict) (items : list value) :
  environ env !! "SLACK_USER_TOKEN" = Some token -> token <> "" ->
  reminders_list (slack env) 0 token = Returned resp ->
  iterate (py_or (dict_get_default resp "reminders" (VList [])) (VList [])) = Ok items ->
  let kept := List.filter eligible (only_dicts items) in
  match main env p with
  | (Ok _, p') =>
      exists events,
        Forall2 sync_event_of kept events /\
        files p' !! EVENTS_FILE = Some (json_dumps (VList events)) /\
        (forall path, path <> EVENTS_FILE -> files p' !! path = files p !! path) /\
        stdout p' = stdout p ++
          ["Wrote " +:+ Z_to_string (Z.of_nat (List.length kept))
           +:+ " reminder(s) to " +:+ EVENTS_FILE]
  | (Raise e, p') =>
      p' = p /\
      exists r, VDict r ∈ items /\ eligible r = true /\
                ts_to_iso_local (time_of r) = Raise e
  end.
Proof.
  intros Henv Htok Hl Hi kept. unfold main. rewrite Henv. simpl.
  destruct (String.eqb_spec token ""); [done|]. simpl.
  rewrite Hl, Hi. simpl.
  pose proof (sync_normalize_shape items) as Hs. unfold sync_normalize in Hs.
  destruct (sync_events_loop items []) as [events|e]; [|done].
  exists events. split; [exact Hs|]. simpl.
  split; [apply lookup_insert_eq|].
  split; [intros path Hp; by apply lookup_insert_ne|].
  by rewrite <- (Forall2_length _ _ _ Hs).
Qed.

(** ** The listing of the repository *)

Lemma insert_newest_perm x l : Permutation (insert_newest x l) (x :: l).
Proof.
  induction l as [|y l IH]; [done|]. cbn [insert_newest].
  destruct (entry_mtime y <=? entry_mtime x); [done|].
  rewrite IH. apply perm_swap.
Qed.

Lemma sort_newest_perm l : Permutation (sort_newest l) l.
Proof.
  induction l as [|x l IH]; [done|]. cbn [sort_newest foldr].
  fold (sort_newest l). rewrite insert_newest_perm. by rewrite IH.
Qed.

Lemma insert_newest_sorted x l :
  StronglySorted not_older l -> StronglySorted not_older (insert_newest x l).
Proof.
  induction 1 as [|y l Hl IH Hy]; cbn [insert_newest].
  - repeat constructor.
  - destruct (entry_mtime y <=? entry_mtime x) eqn:Hxy.
    + apply Z.leb_le in Hxy. constructor; [by constructor|].
      constructor; [exact Hxy|].
      eapply List.Forall_impl; [|exact Hy]. unfold not_older. intros; lia.
    + apply Z.leb_gt in Hxy. constructor; [exact IH|].
      rewrite insert_newest_perm. constructor; [unfold not_older; lia | exact Hy].
Qed.

Lemma sort_newest_sorted l : StronglySorted not_older (sort_newest l).
Proof.
  induction l as [|x l IH]; [constructor|]. cbn [sort_newest foldr].
  by apply insert_newest_sorted.
Qed.

Lemma modified_at_insert t x l :
  modified_at t (insert_newest x l) = modified_at t (x :: l).
Proof.
  unfold modified_at. induction l as [|y l IH]; [done|]. cbn [insert_newest].
  destruct (entry_mtime y <=? entry_mtime x) eqn:Hxy; [done|].
  apply Z.leb_gt in Hxy. cbn [List.filter] in *. rewrite IH.
  destruct (entry_mtime x =? t) eqn:Hx, (entry_mtime y =? t) eqn:Hy; try done.
  apply Z.eqb_eq in Hx, Hy. lia.
Qed.

Lemma modified_at_sort t l : modified_at t (sort_newest l) = modified_at t l.
Proof.
  induction l as [|x l IH]; [done|]. cbn [sort_newest foldr].
  fold (sort_newest l). rewrite modified_at_insert. unfold modified_at in *.
  simpl. by rewrite IH.
Qed.

(** X15. The listing of the repository holds exactly the regular files whose
    name ends in [.md], each as often as the directory has it, the latest
    modified first; notes modified at the same time stay in the order the
    directory gave them. *)
Theorem repository_listing_newest_first (dir : list dir_entry) :
  let items := list_repository_items dir in
  Permutation items (List.filter is_note dir) /\
  StronglySorted not_older items /\
  forall t, modified_at t items = modified_at t (List.filter is_note dir).
Proof.
  unfold list_repository_items. split; [|split].
  - apply sort_newest_perm.
  - apply sort_newest_sorted.
  - intros t. apply modified_at_sort.
Qed.

Lemma substring_append_r (a b : string) :
  substring (String.length a) (String.length b) (a +:+ b) = b.
Proof.
  induction a as [|c a IH].
  - change ("" +:+ b) with b. change (String.length "") with 0%nat.
    induction b as [|c b IHb]; [done|].
    change (String.length (String c b)) with (S (String.length b)).
    cbn [substring]. by rewrite IHb.
  - exact IH.
Qed.

Lemma length_append_string (a b : string) :
  String.length (a +:+ b) = (String.length a + String.length b)%nat.
Proof. induction a as [|c a IH]; simpl; [done | by rewrite IH]. Qed.

Lemma ends_with_append (suffix a : string) : ends_with suffix (a +:+ suffix) = true.
Proof.
  unfold ends_with. rewrite length_append_string.
  replace (String.length a + String.length suffix - String.length suffix)%nat
    with (String.length a) by lia.
  rewrite substring_append_r, String.eqb_refl, andb_true_r.
  apply Nat.leb_le. lia.
Qed.

Lemma note_filename_is_md now title : ends_with ".md" (note_filename now title) = true.
Proof.
  unfold note_filename.
  assert (Hassoc : forall a b c : string, a +:+ (b +:+ c) = (a +:+ b) +:+ c).
  { intros a b c. induction a as [|x a IH]; [done|].
    change (String x (a +:+ (b +:+ c)) = String x ((a +:+ b) +:+ c)). by rewrite IH. }
  rewrite !Hassoc. apply ends_with_append.
Qed.

(** X16. A note that [save_summary_to_repository] wrote is found by the
    listing: an entry of the directory that is a regular file and has the
    name the save built for some clock reading and title is among the items
    listed. *)
Theorem saved_note_is_listed (dir : list dir_entry) (now : datetime)
    (title : string) (p : dir_entry) :
  In p dir -> entry_is_file p = true -> entry_name p = note_filename now title ->
  In p (list_repository_items dir).
Proof.
  intros Hin Hfile Hname. unfold list_repository_items.
  eapply Permutation_in; [symmetry; apply sort_newest_perm|].
  apply filter_In. split; [exact Hin|]. unfold is_note.
  by rewrite Hname, note_filename_is_md, Hfile.
Qed.

(** ** The repository page *)

Lemma find_name_some (name : string) (l : list dir_entry) :
  existsb (String.eqb name) (map entry_name l) = true ->
  exists p, List.find (fun p => String.eqb (entry_name p) name) l = Some p.
Proof.
  induction l as [|q l IH]; simpl; [done|].
  rewrite String.eqb_sym. destruct (String.eqb (entry_name q) name); [by eexists|].
  simpl. exact IH.
Qed.


(** ** The routing *)

Lemma session_pop_keeps k k' : k' <> k -> always (keeps k) (session_pop k').
Proof. intros Hne s. unfold keeps. simpl. by rewrite lookup_delete_ne. Qed.

Lemma st_button_keyed_keeps k key : key <> k -> always (keeps k) (st_button_keyed key).
Proof. intros Hne s. unfold keeps. simpl. by rewrite lookup_insert_ne. Qed.

Lemma st_button_keyed_silent key : always silent (st_button_keyed key).
Proof. by intros s. Qed.

Lemma flag_key_not_page rid : "status_done_" +:+ rid <> "page".
Proof. intros Heq. simpl in Heq. discriminate Heq. Qed.

Lemma todo_row_keeps_page r acc : always (keeps "page") (todo_row r acc).
Proof.
  destruct acc as [any sel]. unfold todo_row.
  destruct (dict_get r "id"); try apply always_ret; try apply _.
  destruct (String.eqb _ ""); [apply always_ret; apply _|].
  apply always_bind; [apply _ | | intros when_].
  - destruct (isinstance_int _); [apply always_lift | apply always_ret]; apply _.
  - apply always_bind; [apply _ | apply st_checkbox_keeps, flag_key_not_page |].
    intros []; apply always_ret; apply _.
Qed.

Lemma complete_selected_keeps_page env token ids :
  always (keeps "page") (complete_selected env token ids).
Proof.
  unfold complete_selected.
  apply always_bind; [apply _ | | intros errors].
  - apply always_for_each; [apply _ | apply _ |]. intros rid errors. unfold complete_one.
    apply always_bind; [apply _ | | intros [ok e]].
    + intros s. by rewrite complete_reminder_run.
    + apply always_bind; [apply _ | apply session_pop_keeps, flag_key_not_page |].
      intros _. apply always_ret; apply _.
  - apply always_bind; [apply _ | apply always_when; [apply _ | apply emit_keeps] |].
    intros _. apply always_raise; apply _.
Qed.

Lemma render_status_keeps_page env g : always (keeps "page") (render_status env g).
Proof.
  unfold render_status.
  apply always_bind; [apply _ | by intros s | intros stored].
  apply always_bind; [apply _ | | intros token].
  { intros s. unfold keeps, st_text_input_keyed. simpl. by rewrite lookup_insert_ne. }
  apply always_bind; [apply _ | by apply session_set_keeps | intros _].
  destruct (String.eqb token ""); [apply emit_keeps|].
  apply always_bind; [apply _ | | intros [reminders err]].
  { intros s. by rewrite fetch_reminders_state. }
  destruct (str_truthy err); [apply emit_keeps|].
  assert (Hbody : always (keeps "page")
    (emit (StMarkdown "#### To do") >>
     let* (any_selected, selected_ids) :=
       for_each (sort_by _rem_time (List.filter (fun r => negb (is_complete r)) reminders))
         (false, []) todo_row in
     when (st_button g "Mark selected as completed" (negb any_selected))
       (complete_selected env token selected_ids) >>
     when (st_button g "Refresh" false) st_rerun >>
     when (match sort_by_rev _rem_time (List.filter is_complete reminders) with
           | [] => false | _ => true end)
       (emit (StMarkdown "#### Completed") >>
        let* _ := for_each (sort_by_rev _rem_time (List.filter is_complete reminders)) tt
          (fun r _ =>
            emit (StMarkdown ("- ~~"
              +:+ py_str (py_or (dict_get r "text") (VStr "Reminder"))
              +:+ "~~"))) in
        ui_ret tt))).
  { apply always_bind; [apply _ | apply emit_keeps | intros _].
    apply always_bind; [apply _ | | intros [any sel]].
    { apply always_for_each; [apply _ | apply _ |]. intros; apply todo_row_keeps_page. }
    apply always_bind; [apply _ | | intros _].
    { apply always_when; [apply _ | apply complete_selected_keeps_page]. }
    apply always_bind; [apply _ | | intros _].
    { apply always_when; [apply _ | apply always_raise; apply _]. }
    apply always_when; [apply _|].
    apply always_bind; [apply _ | apply emit_keeps | intros _].
    apply always_bind; [apply _ | | intros; apply always_ret; apply _].
    apply always_for_each; [apply _ | apply _ |]. intros; apply emit_keeps. }
  destruct (List.filter (fun r => negb (is_complete r)) reminders),
           (List.filter is_complete reminders); try exact Hbody.
  apply emit_keeps.
Qed.

Lemma render_calendar_keeps_page env g : always (keeps "page") (render_calendar env g).
Proof.
  unfold render_calendar. destruct (negb _); [apply emit_keeps|].
  apply always_bind; [apply _ | | intros _; by apply calendar_right_keeps].
  unfold calendar_left.
  apply always_bind; [apply _ | by apply session_set_keeps | intros _].
  apply always_bind; [apply _ | | intros _].
  - unfold refresh_controls.
    apply always_bind; [apply _ | by apply st_checkbox_keeps | intros auto_refresh].
    apply always_bind; [apply _ | by apply st_selectbox_keeps | intros interval_s].
    apply always_when; [apply _|]. destruct (negb _); apply emit_keeps.
  - apply always_when; [apply _|]. by apply sync_action_keeps.
Qed.

Lemma render_repository_emits dir choice s :
  exists e, render_repository dir choice s
            = (Ok tt, {| session := session s; calls := calls s;
                         screen := screen s ++ [e] |}).
Proof.
  unfold render_repository.
  destruct (list_repository_items dir) as [|newest rest]; [by eexists|].
  assert (Hfirst : List.find (fun p => String.eqb (entry_name p) (entry_name newest))
                     (newest :: rest) = Some newest).
  { simpl. by rewrite String.eqb_refl. }
  destruct choice as [c|]; [|rewrite Hfirst; by eexists].
  destruct (existsb (String.eqb c) (map entry_name (newest :: rest))) eqn:Hc.
  - destruct (find_name_some _ _ Hc) as [p ->]. by eexists.
  - rewrite Hfirst. by eexists.
Qed.

Lemma render_home_run s :
  exists s', render_home s = (Ok tt, s') /\ calls s' = calls s /\ screen s' = screen s /\
    forall k, k <> "home_summarise" -> k <> "home_notifications" -> k <> "home_calendar" ->
              session s' !! k = session s !! k.
Proof.
  eexists. split; [reflexivity|]. split; [done|]. split; [done|].
  intros k H1 H2 H3. simpl. by rewrite !lookup_insert_ne.
Qed.

(** What [main] does before it looks at the page. *)
Lemma app_main_run env g dir choice s :
  exists s1, app_main env g dir choice s = page_body env g dir choice (page_of s) s1 /\
    session s1 !! "page" = Some (page_of s) /\
    keeps "slack_events" s s1 /\ keeps "slack_token" s s1 /\
    calls s1 = calls s /\ screen s1 = screen s.
Proof.
  unfold app_main, page_of, keeps.
  unfold ui_bind at 1. unfold init_state.
  destruct (session s !! "page") as [page|] eqn:Hpage.
  - eexists. split.
    { unfold render_sidebar, ui_bind, st_button_keyed, ui_ret, session_get.
      cbn [session calls screen].
      rewrite !lookup_insert_ne by done. rewrite Hpage. reflexivity. }
    cbn [session calls screen]. rewrite ?lookup_insert_ne by done.
    by rewrite Hpage.
  - eexists. split.
    { unfold session_set, render_sidebar, ui_bind, st_button_keyed, ui_ret, session_get.
      cbn [session calls screen].
      rewrite !lookup_insert_ne by done. rewrite lookup_insert_eq. reflexivity. }
    cbn [session calls screen].
    split; [rewrite !lookup_insert_ne by done; by rewrite lookup_insert_eq|].
    rewrite !lookup_insert_ne by done. done.
Qed.

Lemma known_page_false page :
  known_page page = false ->
  is_page page "home" = false /\ is_page page "summarise" = false /\
  is_page page "notifications" = false /\ is_page page "repository" = false /\
  is_page page "status" = false /\ is_page page "calendar" = false.
Proof.
  unfold known_page. intros H.
  repeat (apply orb_false_iff in H as [H ?]). done.
Qed.

(** X18. A session whose page is none of the six pages of the app is sent
    home: the run stores [home] as the page and asks for a rerun, after no
    call to Slack and with nothing put on the page; the run that follows
    returns on the home page, so the reset is not repeated. *)
Theorem unknown_page_goes_home (env : environment) (g : gestures)
    (dir : list dir_entry) (choice : option string) (s : ui_state) :
  known_page (page_of s) = false ->
  exists s', app_main env g dir choice s = (Raise (Exn RerunException ""), s') /\
    session s' !! "page" = Some (VStr "home") /\
    calls s' = calls s /\ screen s' = screen s /\
    exists s'', app_main env g dir choice (next_run s') = (Ok tt, s'') /\
      session s'' !! "page" = Some (VStr "home") /\
      calls s'' = calls s /\ screen s'' = [].
Proof.
  intros Hunknown. apply known_page_false in Hunknown as (H1 & H2 & H3 & H4 & H5 & H6).
  destruct (app_main_run env g dir choice s) as (s1 & -> & Hp & _ & _ & Hc & Hs).
  unfold page_body. rewrite H1, H2, H3, H4, H5, H6.
  eexists. split; [reflexivity|]. cbn [session calls screen].
  split; [by rewrite lookup_insert_eq|]. split; [exact Hc|]. split; [exact Hs|].
  set (s' := next_run _).
  assert (Hhome : page_of s' = VStr "home").
  { unfold page_of, s'. simpl. by rewrite lookup_insert_eq. }
  destruct (app_main_run env g dir choice s') as (s2 & -> & Hp2 & _ & _ & Hc2 & Hs2).
  rewrite Hhome in *. unfold page_body. cbn [is_page String.eqb Ascii.eqb Bool.eqb].
  destruct (render_home_run s2) as (s3 & -> & Hc3 & Hs3 & Hk3).
  exists s3. split; [done|]. split; [by rewrite Hk3|].
  split; [by rewrite Hc3, Hc2|]. by rewrite Hs3, Hs2.
Qed.

(** X19. No page changes which page is shown: after a run, returned or
    raised, the session holds the page the run started on, or [home] when
    that was not a page of the app. *)
Theorem page_survives_a_run (env : environment) (g : gestures)
    (dir : list dir_entry) (choice : option string) (s : ui_state) :
  session (app_main env g dir choice s).2 !! "page"
  = Some (if known_page (page_of s) then page_of s else VStr "home").
Proof.
  destruct (app_main_run env g dir choice s) as (s1 & -> & Hp & _ & _ & _ & _).
  unfold known_page, page_body.
  destruct (is_page (page_of s) "home").
  { destruct (render_home_run s1) as (s2 & -> & _ & _ & Hk). simpl. by rewrite Hk. }
  destruct (is_page (page_of s) "summarise"); [exact Hp|].
  destruct (is_page (page_of s) "notifications"); [exact Hp|].
  destruct (is_page (page_of s) "repository").
  { destruct (render_repository_emits dir choice s1) as (e & ->). exact Hp. }
  destruct (is_page (page_of s) "status").
  { simpl. by rewrite (render_status_keeps_page env g s1). }
  destruct (is_page (page_of s) "calendar").
  { simpl. by rewrite (render_calendar_keeps_page env g s1). }
  simpl. by rewrite lookup_insert_eq.
Qed.


End Host.

(** * Concrete runs *)

Example iso_1700000000_utc :
  _ts_to_iso_local utc 1700000000 = Ok "2023-11-14T22:13:20+00:00".
Proof. vm_compute. reflexivity. Qed.

Example iso_1700000000_ist :
  _ts_to_iso_local ist 1700000000 = Ok "2023-11-15T03:43:20+05:30".
Proof. vm_compute. reflexivity. Qed.

Example iso_first_second :
  _ts_to_iso_local utc MIN_TS = Ok "0001-01-01T00:00:00+00:00".
Proof. vm_compute. reflexivity. Qed.

Example iso_last_second :
  _ts_to_iso_local utc MAX_TS = Ok "9999-12-31T23:59:59+00:00".
Proof. vm_compute. reflexivity. Qed.

Example iso_beyond_last_second :
  _ts_to_iso_local utc (MAX_TS + 1) = Raise (Exn ValueError "year is out of range").
Proof. vm_compute. reflexivity. Qed.

(** The scenario of the specification: the completed reminder is dropped. *)
Example normalize_scenario :
  normalize utc repr_stub [pay_rent; old_done] = Ok [pay_rent_event].
Proof. vm_compute. reflexivity. Qed.

Example sync_normalize_mixed :
  sync_normalize utc
    [VDict pay_rent; VInt 3; VDict old_done; VDict [("time", VStr "soon")]]
  = Ok [pay_rent_event].
Proof. vm_compute. reflexivity. Qed.


Lemma normalize_twice_identical_witness :
  normalize_twice utc repr_stub [pay_rent; old_done]
  = Ok ([pay_rent_event], [pay_rent_event]).
Proof.
  rewrite (proj1 (normalize_twice_identical utc repr_stub [pay_rent; old_done])).
  rewrite normalize_scenario. reflexivity.
Defined.

(** The to-do list on concrete reminders. *)
Example todo_view_mixed :
  todo_view [at_noon; done_late; untimed; done_early] = [untimed; at_noon]
  /\ completed_order [at_noon; done_early; untimed; done_late] = [done_late; done_early].
Proof. vm_compute. split; reflexivity. Qed.

Example todo_view_before_epoch :
  todo_view [untimed; before_epoch] = [before_epoch; untimed].
Proof. vm_compute. reflexivity. Qed.

(** C4 as it was stated fails: a reminder without a time is sorted with the
    key 0, so it does not come before a reminder whose time is 0 (or
    negative). *)
Lemma untimed_not_before_all_timed :
  ~ (forall (rs : list dict) (i j : nat) (r1 r2 : dict),
       todo_view rs !! i = Some r1 -> todo_view rs !! j = Some r2 ->
       has_int_time r1 = false -> has_int_time r2 = true -> (i < j)%nat).
Proof.
  intros H.
  specialize (H [at_epoch; untimed] 1%nat 0%nat untimed at_epoch
                eq_refl eq_refl eq_refl eq_refl).
  lia.
Qed.

Lemma todo_ordering_witness :
  todo_view [at_noon; done_late; untimed; done_early] !! 0%nat = Some untimed /\
  todo_view [at_noon; done_late; untimed; done_early] !! 1%nat = Some at_noon /\
  (0 < 1)%nat.
Proof.
  split; [reflexivity|]. split; [reflexivity|].
  destruct (todo_ordering [at_noon; done_late; untimed; done_early])
    as (_ & _ & Hview & _).
  apply (proj2 (Hview 0%nat 1%nat untimed at_noon eq_refl eq_refl)).
  - reflexivity.
  - reflexivity.
  - vm_compute. reflexivity.
Defined.

(** C6 as it was stated fails: the same title saved twice within one second
    gets one path, and the file holds the second note only. *)
Lemma same_second_same_path :
  ~ (forall (now1 now2 : datetime) (title : string),
       strftime_stamp now1 = strftime_stamp now2 ->
       note_path "repository" now1 title <> note_path "repository" now2 title)
  /\ (let first := save_summary_to_repository "repository" ∅ noon noon
                     "Weekly plan" "first note" "Text file" None in
      let second := save_summary_to_repository "repository" first.2 noon noon
                     "Weekly plan" "second note" "Text file" None in
      first.1 = "repository/20240309_120000_Weekly_plan.md" /\
      second.1 = first.1 /\
      size second.2 = 1%nat /\
      read_text second.2 first.1
        = Some (note_text noon "Weekly plan" "second note" "Text file" None)).
Proof.
  split.
  - intros H. exact (H noon noon "Weekly plan" eq_refl eq_refl).
  - simpl. split; [vm_compute; reflexivity|]. split; [reflexivity|].
    split; [vm_compute; reflexivity|]. unfold read_text. apply lookup_insert_eq.
Qed.

Lemma note_paths_of_one_title_witness :
  note_path "repository" noon "Weekly plan"
    <> note_path "repository" noon_and_a_second "Weekly plan".
Proof.
  apply (proj1 (note_paths_of_one_title "repository" noon noon_and_a_second "Weekly plan")).
  vm_compute. discriminate.
Defined.

(** What a saved note looks like. *)
Example note_text_sample :
  note_text noon "Weekly plan" "  buy milk " "Text file" None
  = "# Weekly plan" +:+ nl +:+ nl +:+ "- Created: 2024-03-09T12:00:00" +:+ nl
    +:+ "- Source type: Text file" +:+ nl +:+ "- Source name: N/A" +:+ nl +:+ nl
    +:+ "---" +:+ nl +:+ "buy milk" +:+ nl.
Proof. vm_compute. reflexivity. Qed.

Example safe_filename_samples :
  _safe_filename "  Hello,  World! -- x_y  " = "Hello_World_--_x_y"
  /\ _safe_filename "!!!" = "summary".
Proof. vm_compute. split; reflexivity. Qed.

Example title_with_line_break :
  note_title (note_text noon ("Plan" +:+ nl +:+ "B") "x" "Text file" None) = "Plan".
Proof. vm_compute. reflexivity. Qed.



(** The sync utility without a token, with a rejected token, and with a
    token that works. *)
Example sync_without_token :
  main utc repr_stub json_stub "reminders.json" (host None ∅ good_slack) fresh
  = (Raise (Exn SystemExit "Missing SLACK_USER_TOKEN environment variable"), fresh).
Proof. reflexivity. Qed.

Example sync_rejected :
  main utc repr_stub json_stub "reminders.json" (host None with_token bad_slack) fresh
  = (Raise (Exn SystemExit "Slack API error: invalid_auth"), fresh).
Proof. vm_compute. reflexivity. Qed.

Example sync_succeeds :
  let run := main utc repr_stub json_stub "reminders.json"
               (host None with_token good_slack) fresh in
  run.1 = Ok tt /\
  files run.2 !! "reminders.json" = Some (json_stub (VList [pay_rent_event])) /\
  stdout run.2 = ["Wrote 1 reminder(s) to reminders.json"].
Proof. vm_compute. repeat split; reflexivity. Qed.

Lemma sync_fails_without_output_witness :
  let run := main utc repr_stub json_stub "reminders.json"
               (host None ∅ good_slack) fresh in
  exit_status run.1 = 1 /\
  stderr_text run.1 = "Missing SLACK_USER_TOKEN environment variable" /\
  run.2 = fresh.
Proof.
  apply (proj1 (sync_fails_without_output utc repr_stub json_stub "reminders.json"
                  (host None ∅ good_slack) fresh)).
  reflexivity.
Defined.

(** C8 as it was stated fails: with a token in the secrets store and another
    one typed into the input, the calendar page calls Slack with the typed
    one, where the stated order picks the one of the secrets store. *)
Lemma typed_token_beats_secrets :
  let env := host with_secret with_token good_slack in
  let g := type_and_press "xoxp-typed" "Sync from Slack" in
  _get_slack_user_token repr_stub env = VStr "xoxp-secret" /\
  stated_order "xoxp-secret" "xoxp-env" "xoxp-typed" = "xoxp-secret" /\
  calls (render_calendar utc repr_stub env g start).2 = [ListCall "xoxp-typed"] /\
  calls (render_calendar utc repr_stub env g start).2
    <> [ListCall (stated_order "xoxp-secret" "xoxp-env" "xoxp-typed")].
Proof. vm_compute. repeat split; try reflexivity. discriminate. Qed.

Lemma token_precedence_witness :
  _get_slack_user_token repr_stub (host with_secret with_token good_slack)
    = VStr "xoxp-secret" /\
  _get_slack_user_token repr_stub (host None with_token good_slack)
    = VStr "xoxp-env" /\
  token_in_use repr_stub (host with_secret with_token good_slack)
    (type_and_press "xoxp-typed" "Sync from Slack") = VStr "xoxp-typed".
Proof.
  split; [|split].
  - apply (proj1 (token_precedence utc repr_stub
             (host with_secret with_token good_slack) no_gesture start) "xoxp-secret").
    + reflexivity.
    + discriminate.
  - apply (proj1 (proj2 (token_precedence utc repr_stub
             (host None with_token good_slack) no_gesture start))).
    + reflexivity.
    + reflexivity.
    + discriminate.
  - apply (proj1 (proj2 (proj2 (proj2 (proj2 (token_precedence utc repr_stub
             (host with_secret with_token good_slack)
             (type_and_press "xoxp-typed" "Sync from Slack") start)))))).
    + reflexivity.
    + discriminate.
Defined.

(** The calendar page on concrete sessions. *)
Example first_render_fetches :
  let run := render_calendar utc repr_stub (host None with_token good_slack)
               no_gesture start in
  run.1 = Ok tt /\
  calls run.2 = [ListCall "xoxp-env"] /\
  session run.2 !! "slack_events" = Some (VList [pay_rent_event]) /\
  last (screen run.2) = Some (StCalendar (VList [pay_rent_event])).
Proof. vm_compute. repeat split; reflexivity. Qed.

Example render_without_token :
  let run := render_calendar utc repr_stub (host None ∅ good_slack) no_gesture start in
  run.1 = Ok tt /\ calls run.2 = [] /\
  last (screen run.2) = Some (StCalendar (VList [])).
Proof. vm_compute. repeat split; reflexivity. Qed.

Lemma cached_events_without_fetch_witness :
  let run := render_calendar utc repr_stub (host None with_token bad_slack)
               no_gesture cached_session in
  calls run.2 = [] /\
  session run.2 !! "slack_events" = Some (VList [pay_rent_event]) /\
  run.1 = Ok tt /\
  last (screen run.2) = Some (StCalendar (VList [pay_rent_event])).
Proof.
  assert (Hoff : auto_refresh_off cached_session) by (vm_compute; reflexivity).
  destruct (proj1 (cached_events_without_fetch utc repr_stub
                     (host None with_token bad_slack) no_gesture cached_session Hoff)
              [pay_rent_event]) as (H1 & H2 & H3).
  - vm_compute. reflexivity.
  - reflexivity.
  - destruct H3 as [H3 H4]; [reflexivity | reflexivity |].
    split; [exact H1|]. split; [exact H2|]. split; [exact H3 | exact H4].
Defined.

Lemma failed_sync_keeps_cache_witness :
  let run := render_calendar utc repr_stub (host None with_token bad_slack)
               (press "Sync from Slack") cached_session in
  session run.2 !! "slack_events" = Some (VList [pay_rent_event]) /\
  run.1 = Ok tt /\
  StError "Slack API error: invalid_auth" ∈ screen run.2 /\
  last (screen run.2) = Some (StCalendar (VList [pay_rent_event])).
Proof.
  destruct (proj1 (proj2 (failed_sync_keeps_cache utc repr_stub
                     (host None with_token bad_slack) (press "Sync from Slack")
                     cached_session))
              [] "Slack API error: invalid_auth" [pay_rent_event]) as (H1 & H2).
  - reflexivity.
  - vm_compute. discriminate.
  - vm_compute. reflexivity.
  - discriminate.
  - vm_compute. reflexivity.
  - vm_compute. reflexivity.
  - destruct H2 as (H2 & H3 & H4); [reflexivity | reflexivity |].
    split; [exact H1|]. split; [exact H2|]. split; [exact H3 | exact H4].
Defined.

(** Three reminders ticked, the second one refused by Slack: the three
    calls are made, the refusal is shown, the three flags are gone. *)
Example complete_three_one_refused :
  let run := complete_selected repr_stub (host None with_token bad_slack) "xoxp-env"
               ["Ra"; "Rb"; "Rd"] ticked in
  calls run.2 = [CompleteCall "xoxp-env" "Ra"; CompleteCall "xoxp-env" "Rb";
                 CompleteCall "xoxp-env" "Rd"] /\
  screen run.2 = [StError "Rb: Slack API error: missing_scope"] /\
  session run.2 = {[ "slack_token" := VStr "xoxp-env" ]}.
Proof. vm_compute. repeat split; reflexivity. Qed.

Lemma completion_walks_all_ids_witness :
  let run := complete_selected repr_stub (host None with_token bad_slack) "xoxp-env"
               ["Ra"; "Rb"; "Rd"] ticked in
  session run.2 !! "status_done_Rb" = None /\
  session run.2 !! "status_done_Rd" = None /\
  session run.2 !! "slack_token" = Some (VStr "xoxp-env").
Proof.
  destruct (completion_walks_all_ids repr_stub (host None with_token bad_slack)
              "xoxp-env" ["Ra"; "Rb"; "Rd"] ticked) as (_ & _ & _ & _ & Hsel & Hother).
  split; [|split].
  - apply (Hsel "Rb"). apply elem_of_cons; right. apply elem_of_cons; by left.
  - apply (Hsel "Rd"). do 2 (apply elem_of_cons; right). apply elem_of_cons; by left.
  - rewrite (Hother "slack_token"); [reflexivity|].
    intros rid Hin. repeat (apply elem_of_cons in Hin as [->|Hin]; [discriminate|]).
    by apply elem_of_nil in Hin.
Defined.

(** The status page: the rows of the to-do list in their order, then the
    completed reminders; and a press on the completion button. *)
Example status_page_rows :
  let run := render_status utc repr_stub (host None with_token todo_slack)
               no_gesture start in
  run.1 = Ok tt /\
  calls run.2 = [ListCall "xoxp-env"] /\
  screen run.2 =
    [StMarkdown "#### To do"; StCheckbox "no time" "status_done_Rb";
     StCheckbox "Pay rent  —  2023-11-14 22:13" "status_done_1";
     StCheckbox "Reminder  —  2023-11-15 12:00" "status_done_Rd";
     StMarkdown "#### Completed"; StMarkdown "- ~~Reminder~~"].
Proof. vm_compute. repeat split; reflexivity. Qed.

Example status_page_completion :
  let run := render_status utc repr_stub (host None with_token todo_slack)
               (press "Mark selected as completed") two_ticked in
  run.1 = Raise (Exn RerunException "") /\
  calls run.2 = [ListCall "xoxp-env"; CompleteCall "xoxp-env" "Rb";
                 CompleteCall "xoxp-env" "Rd"] /\
  last (screen run.2) = Some (StError "Rb: Slack API error: missing_scope") /\
  session run.2 !! "status_done_Rb" = None /\
  session run.2 !! "status_done_Rd" = None.
Proof. vm_compute. repeat split; reflexivity. Qed.

Lemma sync_writes_events_witness :
  let run := main utc repr_stub json_stub "reminders.json"
               (host None with_token good_slack) fresh in
  exists events,
    Forall2 (sync_event_of utc) [pay_rent] events /\
    files run.2 !! "reminders.json" = Some (json_stub (VList events)) /\
    stdout run.2 = ["Wrote 1 reminder(s) to reminders.json"].
Proof.
  generalize (sync_writes_events utc repr_stub json_stub "reminders.json"
                (host None with_token good_slack) fresh "xoxp-env"
                [("ok", VBool true); ("reminders", VList [VDict pay_rent; VDict old_done])]
                [VDict pay_rent; VDict old_done]
                eq_refl ltac:(discriminate) eq_refl eq_refl).
  simpl.
  destruct (main utc repr_stub json_stub "reminders.json"
              (host None with_token good_slack) fresh) as [[[]|e] p'] eqn:Hrun.
  - intros (events & HF & Hfile & _ & Hout). exists events. simpl. done.
  - vm_compute in Hrun. discriminate Hrun.
Defined.

(** ** The calendar page, run *)

Lemma calendar_replaces_stored_token_witness :
  session (render_calendar utc repr_stub (host None ∅ good_slack) no_gesture ticked).2
    !! "slack_token" = Some (VStr "") /\
  session ticked !! "slack_token" = Some (VStr "xoxp-env").
Proof.
  split; [|reflexivity].
  exact (proj1 (calendar_replaces_stored_token utc repr_stub
                  (host None ∅ good_slack) no_gesture ticked eq_refl)).
Defined.

Lemma calendar_without_token_witness :
  let run := render_calendar utc repr_stub (host None ∅ good_slack) no_gesture start in
  calls run.2 = [] /\ run.1 = Ok tt /\
  exists shown, screen run.2 = shown ++ [token_prompt; StCalendar (VList [])].
Proof.
  destruct (calendar_without_token utc repr_stub (host None ∅ good_slack)
              no_gesture start) as (H1 & H2).
  - vm_compute. reflexivity.
  - vm_compute. reflexivity.
  - destruct H2 as (H2 & H3); [reflexivity | reflexivity | reflexivity | reflexivity|].
    split; [exact H1|]. split; [exact H2 | exact H3].
Defined.

Lemma auto_refresh_refetches_witness :
  let run := render_calendar utc repr_stub (host None with_token good_slack)
               no_gesture refreshing_session in
  calls run.2 = [ListCall "xoxp-env"] /\
  run.1 = Ok tt /\
  session run.2 !! "slack_events" = Some (VList [pay_rent_event]) /\
  last (screen run.2) = Some (StCalendar (VList [pay_rent_event])).
Proof.
  destruct (auto_refresh_refetches utc repr_stub (host None with_token good_slack)
              no_gesture refreshing_session)
    as (H1 & _ & H2).
  - reflexivity.
  - reflexivity.
  - reflexivity.
  - vm_compute. reflexivity.
  - vm_compute. reflexivity.
  - destruct (H2 [pay_rent_event]) as (H3 & H4 & H5);
      [vm_compute; reflexivity | vm_compute; reflexivity |].
    split; [exact H1|]. split; [exact H3|]. split; [exact H4 | exact H5].
Defined.

Lemma sync_loads_cache_witness :
  let run := render_calendar utc repr_stub (host None with_token good_slack)
               (press "Sync from Slack") start in
  run.1 = Ok tt /\
  calls run.2 = [ListCall "xoxp-env"] /\
  session run.2 !! "slack_events" = Some (VList [pay_rent_event]) /\
  StSuccess "Loaded 1 reminder(s) from Slack." ∈ screen run.2.
Proof.
  destruct (sync_loads_cache utc repr_stub (host None with_token good_slack)
              (press "Sync from Slack") start [pay_rent_event])
    as (H1 & H2 & H3 & H4 & _).
  - reflexivity.
  - reflexivity.
  - reflexivity.
  - vm_compute. discriminate.
  - vm_compute. reflexivity.
  - vm_compute. reflexivity.
  - vm_compute. reflexivity.
  - split; [exact H1|]. split; [exact H2|]. split; [exact H3 | exact H4].
Defined.

(** ** The repository page and the routing, run *)

Example sample_listing :
  list_repository_items sample_dir = [weekly_note; older_note].
Proof. reflexivity. Qed.

Example repository_page_default :
  screen (render_repository sample_dir None start).2 = [StMarkdown "# Weekly notes"]
  /\ screen (render_repository sample_dir (Some "20240301_090000_summary.md") start).2
     = [StMarkdown "# First"]
  /\ screen (render_repository [a_folder; a_picture] None start).2
     = [StInfo "No summaries saved yet."].
Proof. repeat split; reflexivity. Qed.

Lemma saved_note_is_listed_witness :
  entry_name weekly_note = note_filename noon "Weekly notes" /\
  In weekly_note (list_repository_items sample_dir).
Proof.
  split; [reflexivity|].
  apply (saved_note_is_listed sample_dir noon "Weekly notes" weekly_note).
  - right. right. left. reflexivity.
  - reflexivity.
  - reflexivity.
Defined.

Lemma unknown_page_goes_home_witness :
  exists s', app_main utc repr_stub (host None with_token good_slack) no_gesture
               sample_dir None lost_session
             = (Raise (Exn RerunException ""), s') /\
    session s' !! "page" = Some (VStr "home") /\
    calls s' = [] /\ screen s' = [] /\
    exists s'', app_main utc repr_stub (host None with_token good_slack) no_gesture
                  sample_dir None (next_run s') = (Ok tt, s'') /\
      session s'' !! "page" = Some (VStr "home") /\ calls s'' = [] /\ screen s'' = [].
Proof.
  apply (unknown_page_goes_home utc repr_stub (host None with_token good_slack)
           no_gesture sample_dir None lost_session).
  vm_compute. reflexivity.
Defined.


(** ** The client and the early exits of the status page, run *)

Lemma normalizers_agree_witness :
  normalize utc repr_stub [pay_rent; old_done]
  = sync_normalize utc (map VDict [pay_rent; old_done]).
Proof.
  apply (proj2 (normalizers_agree utc repr_stub [pay_rent; old_done])).
  repeat constructor; vm_compute; auto.
Defined.

Lemma fetch_reminders_never_raises_witness :
  _fetch_slack_reminders repr_stub (host None with_token good_slack) "xoxp-env" start
  = (Ok ([pay_rent; old_done], None),
     after_fetch (host None with_token good_slack) "xoxp-env" start).
Proof.
  destruct (fetch_reminders_never_raises repr_stub (host None with_token good_slack)
              "xoxp-env" start) as (out & Hrun & _ & _ & Hok).
  rewrite (Hok [("ok", VBool true); ("reminders", VList [VDict pay_rent; VDict old_done])]
               [VDict pay_rent; VDict old_done] eq_refl eq_refl eq_refl) in Hrun.
  exact Hrun.
Defined.

Lemma fetch_events_outcome_witness :
  (_fetch_slack_reminders_as_events utc repr_stub (host None with_token bad_slack)
     "xoxp-env" start).1
  = Ok ([], Some "Slack API error: invalid_auth").
Proof.
  apply (proj1 (proj2 (fetch_events_outcome utc repr_stub
                         (host None with_token bad_slack) "xoxp-env" start))).
  - vm_compute. reflexivity.
  - discriminate.
Defined.

Lemma status_page_stops_early_witness :
  let run := render_status utc repr_stub (host None ∅ good_slack) no_gesture start in
  run.1 = Ok tt /\ calls run.2 = [] /\
  session run.2 !! "slack_token" = Some (VStr "") /\
  screen run.2 = [StInfo "Add `SLACK_USER_TOKEN` (or paste a token above) to load your reminders."].
Proof.
  apply (proj1 (status_page_stops_early utc repr_stub (host None ∅ good_slack)
                  no_gesture start)).
  vm_compute. reflexivity.
Defined.
